(** * Order tracker backend: store, authorization gate and order history

    A shallow embedding of the FastAPI / SQLAlchemy backend in
    [src/order_tracker_backend/src]: the ORM models of [db/models.py], the
    request-scoped transaction of [db/session.py], the authorization
    dependencies of [auth/deps.py] and the routers of [api/routers].

    Tables are lists of rows in heap order, times are integers.  A request
    handler is a computation in a state-and-exception monad over the
    session's view of the store; [session_scope] commits that view or rolls
    it back.  Every round trip to the datastore is a point where the request
    can fail. *)

From Stdlib Require Import ZArith List String Ascii Bool Lia Permutation.
Import ListNotations.

Local Open Scope string_scope.
Local Open Scope Z_scope.
Local Open Scope list_scope.

(** ** Enumerations of [db/models.py] *)

Module UserRole.
Inductive t := customer | admin.

Definition eqb (a b : t) : bool :=
  match a, b with
  | customer, customer | admin, admin => true
  | _, _ => false
  end.
End UserRole.

Module OrderStatus.
Inductive t := created | processing | shipped | delivered | cancelled.

Definition eqb (a b : t) : bool :=
  match a, b with
  | created, created | processing, processing | shipped, shipped
  | delivered, delivered | cancelled, cancelled => true
  | _, _ => false
  end.
End OrderStatus.

Module NotificationChannel.
Inductive t := email | sms | push.
End NotificationChannel.

(** ** Rows *)

Module User.
Record t := mk {
  id : Z;
  email : string;
  password_hash : string;
  role : UserRole.t;
  is_active : bool;
  created_at : Z
}.
End User.

Module Order.
Record t := mk {
  id : Z;
  order_number : string;
  user_id : Z;
  title : string;
  description : option string;
  current_status : OrderStatus.t;
  created_at : Z;
  updated_at : Z
}.

Definition set_title (v : string) (o : t) : t :=
  mk (id o) (order_number o) (user_id o) v (description o)
     (current_status o) (created_at o) (updated_at o).

Definition set_description (v : option string) (o : t) : t :=
  mk (id o) (order_number o) (user_id o) (title o) v
     (current_status o) (created_at o) (updated_at o).

Definition set_current_status (v : OrderStatus.t) (o : t) : t :=
  mk (id o) (order_number o) (user_id o) (title o) (description o)
     v (created_at o) (updated_at o).

Definition set_updated_at (v : Z) (o : t) : t :=
  mk (id o) (order_number o) (user_id o) (title o) (description o)
     (current_status o) (created_at o) v.
End Order.

Module OrderStatusHistory.
Record t := mk {
  id : Z;
  order_id : Z;
  old_status : option OrderStatus.t;
  new_status : OrderStatus.t;
  changed_by_user_id : option Z;
  note : option string;
  changed_at : Z
}.
End OrderStatusHistory.

Module NotificationPreference.
Record t := mk {
  id : Z;
  user_id : Z;
  enabled : bool;
  channel : NotificationChannel.t;
  email : option string;
  phone : option string;
  push_token : option string;
  updated_at : Z
}.

Definition set_contact (en : bool) (ch : NotificationChannel.t)
    (em ph pt : option string) (p : t) : t :=
  mk (id p) (user_id p) en ch em ph pt (updated_at p).

Definition set_updated_at (v : Z) (p : t) : t :=
  mk (id p) (user_id p) (enabled p) (channel p) (email p) (phone p)
     (push_token p) v.
End NotificationPreference.

(** ** The store

    One list per table and one sequence per serial primary key, holding
    the next value it hands out.  A list is in heap order, the order in
    which a [select] without [ORDER BY] returns the rows; SQL leaves that
    order to the datastore, and it need not be the order of insertion. *)

Record Store := mkStore {
  users : list User.t;
  orders : list Order.t;
  order_status_history : list OrderStatusHistory.t;
  notification_preferences : list NotificationPreference.t;
  users_id_seq : Z;
  orders_id_seq : Z;
  order_status_history_id_seq : Z;
  notification_preferences_id_seq : Z
}.

(** ** Exceptions and the handler monad *)

Inductive Exception :=
| HTTPException (status_code : Z) (detail : string)
| IntegrityError
| InvalidTokenError
| RuntimeError
| ValueError
| OperationalError
| DataError.

Inductive outcome (A : Type) :=
| Returned (a : A)
| Raised (e : Exception).
Arguments Returned {A} a.
Arguments Raised {A} e.

(** The session of one request: its view [db] of the store, the time [now]
    the datastore reports for its transaction ([func.now()]), and [fault],
    the number of datastore round trips that still succeed before one fails
    ([None]: none fails). *)
Record Session := mkSession {
  db : Store;
  now : Z;
  fault : option nat
}.

Definition M (A : Type) : Type := Session -> outcome A * Session.

Definition ret {A} (a : A) : M A := fun s => (Returned a, s).

Definition raise {A} (e : Exception) : M A := fun s => (Raised e, s).

Definition bind {A B} (m : M A) (k : A -> M B) : M B :=
  fun s =>
    match m s with
    | (Returned a, s') => k a s'
    | (Raised e, s') => (Raised e, s')
    end.

(** [try: m except IntegrityError: raise e]. *)
Definition except_IntegrityError {A} (m : M A) (e : Exception) : M A :=
  fun s =>
    match m s with
    | (Raised IntegrityError, s') => (Raised e, s')
    | r => r
    end.

(** [try: m except Exception: raise e]. *)
Definition except_Exception {A} (m : M A) (e : Exception) : M A :=
  fun s =>
    match m s with
    | (Raised _, s') => (Raised e, s')
    | r => r
    end.

Declare Scope handler_scope.
Delimit Scope handler_scope with handler.
Notation "x <- m ;; k" := (bind m (fun x => k))
  (at level 61, m at next level, right associativity) : handler_scope.
Notation "m ;;; k" := (bind m (fun _ => k))
  (at level 61, right associativity) : handler_scope.
Local Open Scope handler_scope.

Definition get_store : M Store := fun s => (Returned (db s), s).

Definition put_store (st : Store) : M unit :=
  fun s => (Returned tt, mkSession st (now s) (fault s)).

Definition get_now : M Z := fun s => (Returned (now s), s).

(** One round trip to the datastore; it raises when the fault budget is
    exhausted. *)
Definition round_trip : M unit :=
  fun s =>
    match fault s with
    | None => (Returned tt, s)
    | Some O => (Raised OperationalError, mkSession (db s) (now s) None)
    | Some (S k) => (Returned tt, mkSession (db s) (now s) (Some k))
    end.

(** ** Store updates *)

Definition with_users (v : list User.t) (users_seq : Z) (st : Store) : Store :=
  mkStore v (orders st) (order_status_history st)
    (notification_preferences st) users_seq (orders_id_seq st)
    (order_status_history_id_seq st) (notification_preferences_id_seq st).

Definition with_orders (v : list Order.t) (orders_seq : Z) (st : Store)
    : Store :=
  mkStore (users st) v (order_status_history st)
    (notification_preferences st) (users_id_seq st) orders_seq
    (order_status_history_id_seq st) (notification_preferences_id_seq st).

Definition with_history (v : list OrderStatusHistory.t) (history_seq : Z)
    (st : Store) : Store :=
  mkStore (users st) (orders st) v (notification_preferences st)
    (users_id_seq st) (orders_id_seq st) history_seq
    (notification_preferences_id_seq st).

Definition with_preferences (v : list NotificationPreference.t)
    (preferences_seq : Z) (st : Store) : Store :=
  mkStore (users st) (orders st) (order_status_history st) v
    (users_id_seq st) (orders_id_seq st) (order_status_history_id_seq st)
    preferences_seq.

(** ** Queries

    [ORDER BY] is a stable insertion sort of the selected rows; a [select]
    without it returns them in heap order. *)

Fixpoint insert_by {A} (leb : A -> A -> bool) (x : A) (l : list A) : list A :=
  match l with
  | [] => [x]
  | y :: l' => if leb x y then x :: l else y :: insert_by leb x l'
  end.

Definition order_by {A} (leb : A -> A -> bool) (l : list A) : list A :=
  fold_right (insert_by leb) [] l.

(** [changed_at.asc(), id.asc()] *)
Definition changed_at_id_asc (a b : OrderStatusHistory.t) : bool :=
  (OrderStatusHistory.changed_at a <? OrderStatusHistory.changed_at b)
  || ((OrderStatusHistory.changed_at a =? OrderStatusHistory.changed_at b)
      && (OrderStatusHistory.id a <=? OrderStatusHistory.id b)).

(** [created_at.desc()] *)
Definition created_at_desc (a b : Order.t) : bool :=
  Order.created_at b <=? Order.created_at a.

(** [db.scalar(select(T).where(p))]: the first selected row, if any. *)
Definition scalar {A} (table : Store -> list A) (where_ : A -> bool)
    : M (option A) :=
  round_trip ;;;
  st <- get_store ;;
  ret (find where_ (table st)).

(** An [Integer] column is PostgreSQL's four-byte integer. *)
Definition int4 (n : Z) : bool := (-2147483648 <=? n) && (n <=? 2147483647).

(** [db.scalar(select(T).where(T.id == v))] for a [v] the request supplies.
    The psycopg driver binds [v] with a cast to the column's type, and the
    datastore refuses a value outside it ([DataError], integer out of
    range).  A row the lookup finds sits in an [Integer] column and has an
    id within the type, so the refusal is that of a lookup that finds no
    row. *)
Definition scalar_by_id {A} (table : Store -> list A) (id : A -> Z) (v : Z)
    : M (option A) :=
  found <- scalar table (fun row => Z.eqb (id row) v) ;;
  match found with
  | Some row => ret (Some row)
  | None => if int4 v then ret None else raise DataError
  end.

(** [db.scalars(select(T).where(p)).all()] *)
Definition scalars {A} (table : Store -> list A) (where_ : A -> bool)
    : M (list A) :=
  round_trip ;;;
  st <- get_store ;;
  ret (filter where_ (table st)).

(** [db.scalars(select(T).where(p).order_by(k)).all()] *)
Definition scalars_order_by {A} (table : Store -> list A)
    (where_ : A -> bool) (leb : A -> A -> bool) : M (list A) :=
  round_trip ;;;
  st <- get_store ;;
  ret (order_by leb (filter where_ (table st))).

(** ** Flushes

    [db.add(obj); db.flush()] of a new object is an INSERT: the constraints
    of the table are checked ([IntegrityError]), the primary key comes from
    the sequence, column defaults and [server_default=func.now()] are
    filled in.  The row goes to the end of the heap; the datastore may as
    well put it where a deleted row was ([Examples.reused_heap] is such a
    heap), so the place of a row in its table is nothing a reader of the
    table can count on. *)

(** orders: [uq_orders_order_number], [user_id] references [users.id]. *)
Definition flush_new_order (order_number : string) (user_id : Z)
    (title : string) (description : option string) : M Order.t :=
  round_trip ;;;
  st <- get_store ;;
  t <- get_now ;;
  if negb (existsb (fun u => Z.eqb (User.id u) user_id) (users st))
  then raise IntegrityError
  else if existsb (fun o => String.eqb (Order.order_number o) order_number)
            (orders st)
  then raise IntegrityError
  else
    let order := Order.mk (orders_id_seq st) order_number user_id title
                   description OrderStatus.created t t in
    put_store (with_orders (orders st ++ [order]) (orders_id_seq st + 1) st) ;;;
    ret order.

(** order_status_history: [order_id] references [orders.id],
    [changed_by_user_id] references [users.id] and is nullable. *)
Definition flush_new_history (order_id : Z) (old_status : option OrderStatus.t)
    (new_status : OrderStatus.t) (changed_by_user_id : option Z)
    (note : option string) : M OrderStatusHistory.t :=
  round_trip ;;;
  st <- get_store ;;
  t <- get_now ;;
  if negb (existsb (fun o => Z.eqb (Order.id o) order_id) (orders st))
  then raise IntegrityError
  else if match changed_by_user_id with
          | Some uid => negb (existsb (fun u => Z.eqb (User.id u) uid) (users st))
          | None => false
          end
  then raise IntegrityError
  else
    let h := OrderStatusHistory.mk (order_status_history_id_seq st) order_id
               old_status new_status changed_by_user_id note t in
    put_store (with_history (order_status_history st ++ [h])
                 (order_status_history_id_seq st + 1) st) ;;;
    ret h.

(** users: [email] is unique; [is_active] defaults to [True]. *)
Definition flush_new_user (email password_hash : string) (role : UserRole.t)
    : M User.t :=
  round_trip ;;;
  st <- get_store ;;
  t <- get_now ;;
  if existsb (fun u => String.eqb (User.email u) email) (users st)
  then raise IntegrityError
  else
    let user := User.mk (users_id_seq st) email password_hash role true t in
    put_store (with_users (users st ++ [user]) (users_id_seq st + 1) st) ;;;
    ret user.

(** notification_preferences: [user_id] is unique and references
    [users.id]; [enabled] defaults to [True] and [channel] to [email]. *)
Definition flush_new_preference (user_id : Z) (enabled : option bool)
    (channel : option NotificationChannel.t) (email : option string)
    : M NotificationPreference.t :=
  round_trip ;;;
  st <- get_store ;;
  t <- get_now ;;
  if negb (existsb (fun u => Z.eqb (User.id u) user_id) (users st))
  then raise IntegrityError
  else if existsb (fun p => Z.eqb (NotificationPreference.user_id p) user_id)
            (notification_preferences st)
  then raise IntegrityError
  else
    let pref := NotificationPreference.mk (notification_preferences_id_seq st)
                  user_id
                  (match enabled with Some b => b | None => true end)
                  (match channel with
                   | Some c => c
                   | None => NotificationChannel.email
                   end)
                  email None None t in
    put_store (with_preferences (notification_preferences st ++ [pref])
                 (notification_preferences_id_seq st + 1) st) ;;;
    ret pref.

Definition option_string_eqb (a b : option string) : bool :=
  match a, b with
  | Some x, Some y => String.eqb x y
  | None, None => true
  | _, _ => false
  end.

Definition channel_eqb (a b : NotificationChannel.t) : bool :=
  match a, b with
  | NotificationChannel.email, NotificationChannel.email
  | NotificationChannel.sms, NotificationChannel.sms
  | NotificationChannel.push, NotificationChannel.push => true
  | _, _ => false
  end.

(** [UPDATE ... WHERE id = row.id]: the row with that primary key is
    replaced. *)
Definition replace_order (row : Order.t) (l : list Order.t) : list Order.t :=
  map (fun o => if Z.eqb (Order.id o) (Order.id row) then row else o) l.

Definition replace_preference (row : NotificationPreference.t)
    (l : list NotificationPreference.t) : list NotificationPreference.t :=
  map (fun p =>
         if Z.eqb (NotificationPreference.id p) (NotificationPreference.id row)
         then row else p) l.

(** [db.add(obj); db.flush()] of a loaded object is an UPDATE of the
    attributes whose value differs from the loaded one, and nothing at all
    when none differs; [onupdate=func.now()] sets [updated_at] in the
    UPDATE.  [loaded] is the object as the session read it, [current] the
    object after the handler's assignments; the result is the object as the
    handler then reads it. *)
Definition order_modified (loaded current : Order.t) : bool :=
  negb (String.eqb (Order.title loaded) (Order.title current)
        && option_string_eqb (Order.description loaded)
             (Order.description current)
        && OrderStatus.eqb (Order.current_status loaded)
             (Order.current_status current)).

Definition flush_order (loaded current : Order.t) : M Order.t :=
  if order_modified loaded current then
    round_trip ;;;
    st <- get_store ;;
    t <- get_now ;;
    let row := Order.set_updated_at t current in
    put_store
      (with_orders (replace_order row (orders st)) (orders_id_seq st) st) ;;;
    ret row
  else ret current.

Definition preference_modified (loaded current : NotificationPreference.t)
    : bool :=
  negb (Bool.eqb (NotificationPreference.enabled loaded)
          (NotificationPreference.enabled current)
        && channel_eqb (NotificationPreference.channel loaded)
             (NotificationPreference.channel current)
        && option_string_eqb (NotificationPreference.email loaded)
             (NotificationPreference.email current)
        && option_string_eqb (NotificationPreference.phone loaded)
             (NotificationPreference.phone current)
        && option_string_eqb (NotificationPreference.push_token loaded)
             (NotificationPreference.push_token current)).

(** What a [String(n)] column stores for [v], a string of ASCII characters
    or null.  PostgreSQL refuses a string of more than [n] characters
    ([None]), unless the characters beyond the [n]-th are all spaces: then
    it stores the first [n]. *)
Definition varchar (n : nat) (v : option string) : option (option string) :=
  match v with
  | None => Some None
  | Some s =>
      if (String.length s <=? n)%nat then Some (Some s)
      else if forallb (Ascii.eqb " ")
                (list_ascii_of_string (substring n (String.length s - n) s))
      then Some (Some (substring 0 n s))
      else None
  end.

(** notification_preferences: [phone] is a [String(32)] and [push_token] a
    [String(512)], and [schemas.py] bounds neither, so the UPDATE can be
    refused ([DataError]) or store less than the handler assigned; the
    object in memory keeps what was assigned.  (An unchanged value was read
    from the column and fits.  The emails are [EmailStr]s of at most 254
    characters, within the [String(255)] of [email].) *)
Definition flush_preference (loaded current : NotificationPreference.t)
    : M NotificationPreference.t :=
  if preference_modified loaded current then
    round_trip ;;;
    st <- get_store ;;
    t <- get_now ;;
    match varchar 32 (NotificationPreference.phone current),
          varchar 512 (NotificationPreference.push_token current) with
    | Some phone, Some push_token =>
        let row := NotificationPreference.set_updated_at t current in
        let stored :=
          NotificationPreference.mk (NotificationPreference.id row)
            (NotificationPreference.user_id row)
            (NotificationPreference.enabled row)
            (NotificationPreference.channel row)
            (NotificationPreference.email row) phone push_token
            (NotificationPreference.updated_at row) in
        put_store
          (with_preferences
             (replace_preference stored (notification_preferences st))
             (notification_preferences_id_seq st) st) ;;;
        ret row
    | _, _ => raise DataError
    end
  else ret current.

(** [db.delete(order); db.flush()]: the [status_history] relationship
    cascades, so the order's history rows go with it. *)
Definition flush_delete_order (order : Order.t) : M unit :=
  round_trip ;;;
  st <- get_store ;;
  put_store
    (with_history
       (filter (fun h => negb (Z.eqb (OrderStatusHistory.order_id h)
                                 (Order.id order)))
          (order_status_history st))
       (order_status_history_id_seq st)
       (with_orders
          (filter (fun o => negb (Z.eqb (Order.id o) (Order.id order)))
             (orders st))
          (orders_id_seq st) st)).

(** ** [db/session.py]

    [session_scope] runs the body on a fresh session over the committed
    store; it commits when the body returns and rolls back on any exception,
    the commit's own included. *)
Definition commit : M unit := round_trip.

Definition session_scope {A} (body : M A) (now : Z) (fault : option nat)
    (st : Store) : outcome A * Store :=
  match (x <- body ;; commit ;;; ret x) (mkSession st now fault) with
  | (Returned a, s) => (Returned a, db s)
  | (Raised e, _) => (Raised e, st)
  end.

(** ** [schemas.py] *)

Module UserPublic.
Record t := mk {
  id : Z;
  email : string;
  role : UserRole.t;
  created_at : Z
}.
End UserPublic.

Module SignupRequest.
Record t := mk {
  email : string;
  password : string;
  role : option UserRole.t
}.
End SignupRequest.

Module OrderCreateRequest.
Record t := mk {
  order_number : string;
  title : string;
  description : option string
}.
End OrderCreateRequest.

Module OrderUpdateRequest.
Record t := mk {
  title : option string;
  description : option string
}.
End OrderUpdateRequest.

Module OrderStatusUpdateRequest.
Record t := mk {
  new_status : OrderStatus.t;
  note : option string
}.
End OrderStatusUpdateRequest.

Module OrderStatusHistoryItem.
Record t := mk {
  id : Z;
  old_status : option OrderStatus.t;
  new_status : OrderStatus.t;
  changed_by_user_id : option Z;
  note : option string;
  changed_at : Z
}.
End OrderStatusHistoryItem.

Module OrderResponse.
Record t := mk {
  id : Z;
  order_number : string;
  user_id : Z;
  title : string;
  description : option string;
  current_status : OrderStatus.t;
  created_at : Z;
  updated_at : Z
}.
End OrderResponse.

(** [OrderDetailResponse] extends [OrderResponse] with [history]. *)
Module OrderDetailResponse.
Record t := mk {
  order : OrderResponse.t;
  history : list OrderStatusHistoryItem.t
}.
End OrderDetailResponse.

Module NotificationPreferenceUpsertRequest.
Record t := mk {
  enabled : bool;
  channel : NotificationChannel.t;
  email : option string;
  phone : option string;
  push_token : option string
}.
End NotificationPreferenceUpsertRequest.

Module NotificationPreferenceResponse.
Record t := mk {
  enabled : bool;
  channel : NotificationChannel.t;
  email : option string;
  phone : option string;
  push_token : option string;
  updated_at : Z
}.
End NotificationPreferenceResponse.

(** ** [auth/security.py] and [auth/deps.py] *)

(** The values a decoded token payload holds. *)
Inductive JSON :=
| JStr (s : string)
| JNum (n : Z).

Definition dict := list (string * JSON).

Fixpoint dict_get (k : string) (d : dict) : option JSON :=
  match d with
  | [] => None
  | (k', v) :: d' => if String.eqb k' k then Some v else dict_get k d'
  end.

(** [not v] for the result of [payload.get(...)]. *)
Definition falsy (v : option JSON) : bool :=
  match v with
  | None => true
  | Some (JStr s) => String.eqb s ""
  | Some (JNum n) => Z.eqb n 0
  end.

(** The white space [str.strip] removes from a string of ASCII characters:
    tab to carriage return, the four separators 28 to 31, and the space. *)
Definition is_space (c : ascii) : bool :=
  let n := nat_of_ascii c in
  ((9 <=? n) && (n <=? 13) || (28 <=? n) && (n <=? 32))%nat.

(** The white space [int] skips in such a string ([Py_ISSPACE]): the same
    without the four separators. *)
Definition Py_ISSPACE (c : ascii) : bool :=
  let n := nat_of_ascii c in
  ((9 <=? n) && (n <=? 13) || (n =? 32))%nat.

Definition digit_of (c : ascii) : option Z :=
  let n := nat_of_ascii c in
  if ((48 <=? n) && (n <=? 57))%nat then Some (Z.of_nat n - 48) else None.

Fixpoint digits_value (acc : Z) (after_digit : bool) (l : list ascii)
    : option Z :=
  match l with
  | [] => if after_digit then Some acc else None
  | c :: l' =>
      match digit_of c with
      | Some d => digits_value (10 * acc + d) true l'
      | None =>
          if Ascii.eqb c "_" && after_digit
          then digits_value acc false l'
          else None
      end
  end.

Fixpoint lstrip (l : list ascii) : list ascii :=
  match l with
  | c :: l' => if is_space c then lstrip l' else l
  | [] => []
  end.

Definition strip (l : list ascii) : list ascii :=
  rev (lstrip (rev (lstrip l))).

Fixpoint skip_space (l : list ascii) : list ascii :=
  match l with
  | c :: l' => if Py_ISSPACE c then skip_space l' else l
  | [] => []
  end.

(** [int(s)] on a string of ASCII characters: surrounding white space, an
    optional sign, then decimal digits, single underscores allowed between
    digits.  [None] stands for [ValueError]. *)
Definition py_int (s : string) : option Z :=
  match rev (skip_space (rev (skip_space (list_ascii_of_string s)))) with
  | "-"%char :: l => option_map Z.opp (digits_value 0 false l)
  | "+"%char :: l => digits_value 0 false l
  | l => digits_value 0 false l
  end.

(** [int(v)] *)
Definition int (v : JSON) : option Z :=
  match v with
  | JStr s => py_int s
  | JNum n => Some n
  end.

(** The part of [core/config.py]'s [Settings] the token service reads. *)
Record Settings := mkSettings {
  jwt_secret : string;
  jwt_issuer : string;
  jwt_audience : string;
  access_token_exp_minutes : Z
}.

Definition _unauthorized (detail : string) : Exception :=
  HTTPException 401 detail.

Definition _forbidden (detail : string) : Exception :=
  HTTPException 403 detail.

Section Auth.

(** The settings the process was started with. *)
Variable settings : Settings.

(** PyJWT's [jwt.decode(token, key, algorithms=["HS256"], audience, issuer,
    options={"require": [...]})]: the payload of a token that verifies,
    [None] when it raises [InvalidTokenError]. *)
Variable jwt_decode : string -> string -> string -> string -> option dict.

(** passlib's [pwd_context.hash]. *)
Variable hash_password : string -> string.

Definition decode_token (token : string) : M dict :=
  if String.eqb (jwt_secret settings) "" then raise RuntimeError
  else
    match jwt_decode token (jwt_secret settings) (jwt_audience settings)
            (jwt_issuer settings) with
    | Some payload => ret payload
    | None => raise InvalidTokenError
    end.

(** [credentials] is the bearer credential of the request, [None] when the
    request carries none. *)
Definition get_current_user (credentials : option string) : M User.t :=
  match credentials with
  | None => raise (_unauthorized "Not authenticated")
  | Some token =>
      if String.eqb token "" then raise (_unauthorized "Not authenticated")
      else
        payload <- except_Exception (decode_token token)
                     (_unauthorized "Invalid token") ;;
        let user_id := dict_get "sub" payload in
        if falsy user_id then raise (_unauthorized "Invalid token subject")
        else
          match option_map int user_id with
          | Some (Some uid) =>
              user <- scalar_by_id users User.id uid ;;
              match user with
              | None => raise (_unauthorized "User not found or inactive")
              | Some u =>
                  if negb (User.is_active u)
                  then raise (_unauthorized "User not found or inactive")
                  else ret u
              end
          | _ => raise ValueError
          end
  end.

Definition require_admin (credentials : option string) : M User.t :=
  user <- get_current_user credentials ;;
  if negb (UserRole.eqb (User.role user) UserRole.admin)
  then raise (_forbidden "Admin role required")
  else ret user.

(** ** [api/routers/auth.py] *)

Definition signup (payload : SignupRequest.t) : M UserPublic.t :=
  existing <- scalar users
                (fun u => String.eqb (User.email u)
                            (SignupRequest.email payload)) ;;
  match existing with
  | Some _ => raise (HTTPException 409 "Email already registered")
  | None =>
      user <- flush_new_user (SignupRequest.email payload)
                (hash_password (SignupRequest.password payload))
                UserRole.customer ;;
      _ <- flush_new_preference (User.id user) (Some true)
             (Some NotificationChannel.email) (Some (User.email user)) ;;
      ret (UserPublic.mk (User.id user) (User.email user) (User.role user)
             (User.created_at user))
  end.

End Auth.

(** ** [api/routers/orders.py] *)

Definition _order_to_response (order : Order.t) : OrderResponse.t :=
  OrderResponse.mk (Order.id order) (Order.order_number order)
    (Order.user_id order) (Order.title order) (Order.description order)
    (Order.current_status order) (Order.created_at order)
    (Order.updated_at order).

Definition _history_item (item : OrderStatusHistory.t)
    : OrderStatusHistoryItem.t :=
  OrderStatusHistoryItem.mk (OrderStatusHistory.id item)
    (OrderStatusHistory.old_status item) (OrderStatusHistory.new_status item)
    (OrderStatusHistory.changed_by_user_id item)
    (OrderStatusHistory.note item) (OrderStatusHistory.changed_at item).

(** [user.role != UserRole.admin and order.user_id != user.id] *)
Definition not_admin_nor_owner (user : User.t) (order : Order.t) : bool :=
  negb (UserRole.eqb (User.role user) UserRole.admin)
  && negb (Z.eqb (Order.user_id order) (User.id user)).

(** [_admin] is the user [require_admin] resolved. *)
Definition create_order (payload : OrderCreateRequest.t) (user_id : Z)
    (_admin : User.t) : M OrderResponse.t :=
  order <- except_IntegrityError
             (flush_new_order (OrderCreateRequest.order_number payload)
                user_id (OrderCreateRequest.title payload)
                (OrderCreateRequest.description payload))
             (HTTPException 409 "Order number already exists") ;;
  _ <- flush_new_history (Order.id order) None (Order.current_status order)
         None None ;;
  ret (_order_to_response order).

Definition get_order (order_id : Z) (user : User.t)
    : M OrderDetailResponse.t :=
  found <- scalar_by_id orders Order.id order_id ;;
  match found with
  | None => raise (HTTPException 404 "Order not found")
  | Some order =>
      if not_admin_nor_owner user order
      then raise (HTTPException 403 "Not authorized to view this order")
      else
        history <- scalars_order_by order_status_history
                     (fun h => Z.eqb (OrderStatusHistory.order_id h)
                                 (Order.id order))
                     changed_at_id_asc ;;
        ret (OrderDetailResponse.mk (_order_to_response order)
               (map _history_item history))
  end.

Definition lookup_by_number (order_number : string) (user : User.t)
    : M OrderDetailResponse.t :=
  found <- scalar orders
             (fun o => String.eqb (Order.order_number o) order_number) ;;
  match found with
  | None => raise (HTTPException 404 "Order not found")
  | Some order =>
      if not_admin_nor_owner user order
      then raise (HTTPException 403 "Not authorized to view this order")
      else
        history <- scalars order_status_history
                     (fun h => Z.eqb (OrderStatusHistory.order_id h)
                                 (Order.id order)) ;;
        ret (OrderDetailResponse.mk (_order_to_response order)
               (map _history_item history))
  end.

Definition list_orders (user : User.t) : M (list OrderResponse.t) :=
  found <- (if UserRole.eqb (User.role user) UserRole.admin
            then scalars_order_by orders (fun _ => true) created_at_desc
            else scalars_order_by orders
                   (fun o => Z.eqb (Order.user_id o) (User.id user))
                   created_at_desc) ;;
  ret (map _order_to_response found).

Definition update_order (order_id : Z) (payload : OrderUpdateRequest.t)
    (user : User.t) : M OrderResponse.t :=
  found <- scalar_by_id orders Order.id order_id ;;
  match found with
  | None => raise (HTTPException 404 "Order not found")
  | Some order =>
      if not_admin_nor_owner user order
      then raise (HTTPException 403 "Not authorized")
      else
        let order1 :=
          match OrderUpdateRequest.title payload with
          | Some v => Order.set_title v order
          | None => order
          end in
        let order2 :=
          match OrderUpdateRequest.description payload with
          | Some v => Order.set_description (Some v) order1
          | None => order1
          end in
        order3 <- flush_order order order2 ;;
        ret (_order_to_response order3)
  end.

Definition delete_order (order_id : Z) (_admin : User.t) : M unit :=
  found <- scalar_by_id orders Order.id order_id ;;
  match found with
  | None => raise (HTTPException 404 "Order not found")
  | Some order => flush_delete_order order
  end.

Definition update_status (order_id : Z) (payload : OrderStatusUpdateRequest.t)
    (admin : User.t) : M OrderDetailResponse.t :=
  found <- scalar_by_id orders Order.id order_id ;;
  match found with
  | None => raise (HTTPException 404 "Order not found")
  | Some order =>
      let old := Order.current_status order in
      order1 <- flush_order order
                  (Order.set_current_status
                     (OrderStatusUpdateRequest.new_status payload) order) ;;
      _ <- flush_new_history (Order.id order1) (Some old)
             (OrderStatusUpdateRequest.new_status payload)
             (Some (User.id admin)) (OrderStatusUpdateRequest.note payload) ;;
      history_items <- scalars_order_by order_status_history
                         (fun h => Z.eqb (OrderStatusHistory.order_id h)
                                     (Order.id order1))
                         changed_at_id_asc ;;
      ret (OrderDetailResponse.mk (_order_to_response order1)
             (map _history_item history_items))
  end.

(** ** [api/routers/notifications.py] *)

Definition _preference_response (pref : NotificationPreference.t)
    : NotificationPreferenceResponse.t :=
  NotificationPreferenceResponse.mk (NotificationPreference.enabled pref)
    (NotificationPreference.channel pref) (NotificationPreference.email pref)
    (NotificationPreference.phone pref)
    (NotificationPreference.push_token pref)
    (NotificationPreference.updated_at pref).

Definition get_preferences (user : User.t)
    : M NotificationPreferenceResponse.t :=
  found <- scalar notification_preferences
             (fun p => Z.eqb (NotificationPreference.user_id p)
                         (User.id user)) ;;
  match found with
  | None => raise (HTTPException 404 "Notification preferences not found")
  | Some pref => ret (_preference_response pref)
  end.

Definition upsert_preferences (payload : NotificationPreferenceUpsertRequest.t)
    (user : User.t) : M NotificationPreferenceResponse.t :=
  found <- scalar notification_preferences
             (fun p => Z.eqb (NotificationPreference.user_id p)
                         (User.id user)) ;;
  pref <- match found with
          | Some pref => ret pref
          | None => flush_new_preference (User.id user) None None None
          end ;;
  let pref1 :=
    NotificationPreference.set_contact
      (NotificationPreferenceUpsertRequest.enabled payload)
      (NotificationPreferenceUpsertRequest.channel payload)
      (match NotificationPreferenceUpsertRequest.email payload with
       | Some v => Some v
       | None => NotificationPreference.email pref
       end)
      (NotificationPreferenceUpsertRequest.phone payload)
      (NotificationPreferenceUpsertRequest.push_token payload) pref in
  pref2 <- flush_preference pref pref1 ;;
  ret (_preference_response pref2).

(** * Specification *)

(** ** Order history *)

(** [h] is the entry of order [order_id] with the greatest
    [(changed_at, id)] in [hs]. *)
Definition latest_entry (h : OrderStatusHistory.t) (order_id : Z)
    (hs : list OrderStatusHistory.t) : Prop :=
  In h hs
  /\ OrderStatusHistory.order_id h = order_id
  /\ forall h', In h' hs -> OrderStatusHistory.order_id h' = order_id ->
       changed_at_id_asc h' h = true.

Definition status_matches_history (st : Store) : Prop :=
  forall o, In o (orders st) ->
    exists h, latest_entry h (Order.id o) (order_status_history st)
              /\ OrderStatusHistory.new_status h = Order.current_status o.

(** The same, as a check that runs: the greatest entry is found by a scan. *)
Definition latest_history (order_id : Z) (hs : list OrderStatusHistory.t)
    : option OrderStatusHistory.t :=
  fold_left
    (fun best h =>
       if Z.eqb (OrderStatusHistory.order_id h) order_id then
         match best with
         | Some b => if changed_at_id_asc b h then Some h else Some b
         | None => Some h
         end
       else best)
    hs None.

Definition status_consistent (st : Store) : bool :=
  forallb
    (fun o =>
       match latest_history (Order.id o) (order_status_history st) with
       | Some h =>
           OrderStatus.eqb (OrderStatusHistory.new_status h)
             (Order.current_status o)
       | None => false
       end)
    (orders st).

(** What the order store relies on between requests: primary keys come from
    the sequences, no history entry is later than the datastore's clock, and
    every order's status is that of its latest entry. *)
Definition store_inv (clock : Z) (st : Store) : Prop :=
  (forall h, In h (order_status_history st) ->
     OrderStatusHistory.id h < order_status_history_id_seq st)
  /\ (forall h, In h (order_status_history st) ->
        OrderStatusHistory.changed_at h <= clock)
  /\ (forall o, In o (orders st) -> Order.id o < orders_id_seq st)
  /\ NoDup (map Order.id (orders st))
  /\ status_matches_history st.

Fixpoint sorted_by {A} (leb : A -> A -> bool) (l : list A) : bool :=
  match l with
  | [] => true
  | x :: l' =>
      match l' with
      | [] => true
      | y :: _ => leb x y && sorted_by leb l'
      end
  end.

(** [changed_at_id_asc] on the items of a response. *)
Definition item_asc (a b : OrderStatusHistoryItem.t) : bool :=
  (OrderStatusHistoryItem.changed_at a <? OrderStatusHistoryItem.changed_at b)
  || ((OrderStatusHistoryItem.changed_at a
       =? OrderStatusHistoryItem.changed_at b)
      && (OrderStatusHistoryItem.id a <=? OrderStatusHistoryItem.id b)).

(** ** The writes of the order store *)

(** The entry [update_status] appends for [order]. *)
Definition status_entry (st : Store) (t : Z) (order : Order.t)
    (payload : OrderStatusUpdateRequest.t) (admin : User.t)
    : OrderStatusHistory.t :=
  OrderStatusHistory.mk (order_status_history_id_seq st) (Order.id order)
    (Some (Order.current_status order))
    (OrderStatusUpdateRequest.new_status payload) (Some (User.id admin))
    (OrderStatusUpdateRequest.note payload) t.

(** The store once [update_status] has written both the order and its
    entry. *)
Definition status_written (st : Store) (t : Z) (order : Order.t)
    (payload : OrderStatusUpdateRequest.t) (admin : User.t) : Store :=
  let current :=
    Order.set_current_status (OrderStatusUpdateRequest.new_status payload)
      order in
  let st1 :=
    if order_modified order current
    then with_orders
           (replace_order (Order.set_updated_at t current) (orders st))
           (orders_id_seq st) st
    else st in
  with_history
    (order_status_history st ++ [status_entry st t order payload admin])
    (order_status_history_id_seq st + 1) st1.

(** The order [create_order] inserts and its creation entry. *)
Definition new_order (st : Store) (t : Z) (payload : OrderCreateRequest.t)
    (user_id : Z) : Order.t :=
  Order.mk (orders_id_seq st) (OrderCreateRequest.order_number payload)
    user_id (OrderCreateRequest.title payload)
    (OrderCreateRequest.description payload) OrderStatus.created t t.

Definition creation_entry (st : Store) (t : Z) : OrderStatusHistory.t :=
  OrderStatusHistory.mk (order_status_history_id_seq st) (orders_id_seq st)
    None OrderStatus.created None None t.

Definition order_created (st : Store) (t : Z) (payload : OrderCreateRequest.t)
    (user_id : Z) : Store :=
  with_history (order_status_history st ++ [creation_entry st t])
    (order_status_history_id_seq st + 1)
    (with_orders (orders st ++ [new_order st t payload user_id])
       (orders_id_seq st + 1) st).

(** The row [update_order] leaves for [order]. *)
Definition patched (payload : OrderUpdateRequest.t) (order : Order.t)
    : Order.t :=
  let order1 :=
    match OrderUpdateRequest.title payload with
    | Some v => Order.set_title v order
    | None => order
    end in
  match OrderUpdateRequest.description payload with
  | Some v => Order.set_description (Some v) order1
  | None => order1
  end.

(** The contact fields [upsert_preferences] writes, given the email [prior]
    the row held before. *)
Definition upserted (payload : NotificationPreferenceUpsertRequest.t)
    (prior : option string) (pref : NotificationPreference.t) : Prop :=
  NotificationPreference.enabled pref
  = NotificationPreferenceUpsertRequest.enabled payload
  /\ NotificationPreference.channel pref
     = NotificationPreferenceUpsertRequest.channel payload
  /\ NotificationPreference.phone pref
     = NotificationPreferenceUpsertRequest.phone payload
  /\ NotificationPreference.push_token pref
     = NotificationPreferenceUpsertRequest.push_token payload
  /\ NotificationPreference.email pref
     = match NotificationPreferenceUpsertRequest.email payload with
       | Some v => Some v
       | None => prior
       end.

(** [v] is within a [String(n)] column. *)
Definition fits (n : nat) (v : option string) : Prop :=
  match v with
  | Some s => (String.length s <= n)%nat
  | None => True
  end.

(** ** Requests *)

(** A request of [api/main.py]'s routers, the acting user being the one the
    authorization dependency resolved. *)
Inductive Request :=
| PostSignup (payload : SignupRequest.t)
| PostOrder (payload : OrderCreateRequest.t) (user_id : Z) (admin : User.t)
| GetOrder (order_id : Z) (user : User.t)
| GetOrderByNumber (order_number : string) (user : User.t)
| GetOrders (user : User.t)
| PutOrder (order_id : Z) (payload : OrderUpdateRequest.t) (user : User.t)
| DeleteOrder (order_id : Z) (admin : User.t)
| PostOrderStatus (order_id : Z) (payload : OrderStatusUpdateRequest.t)
    (admin : User.t)
| GetPreferences (user : User.t)
| PutPreferences (payload : NotificationPreferenceUpsertRequest.t)
    (user : User.t).

(** The committed store after the request has run in its own
    [session_scope] at time [t]. *)
Definition serve (hash_password : string -> string) (r : Request) (t : Z)
    (fault : option nat) (st : Store) : Store :=
  match r with
  | PostSignup payload =>
      snd (session_scope (signup hash_password payload) t fault st)
  | PostOrder payload user_id admin =>
      snd (session_scope (create_order payload user_id admin) t fault st)
  | GetOrder order_id user =>
      snd (session_scope (get_order order_id user) t fault st)
  | GetOrderByNumber order_number user =>
      snd (session_scope (lookup_by_number order_number user) t fault st)
  | GetOrders user => snd (session_scope (list_orders user) t fault st)
  | PutOrder order_id payload user =>
      snd (session_scope (update_order order_id payload user) t fault st)
  | DeleteOrder order_id admin =>
      snd (session_scope (delete_order order_id admin) t fault st)
  | PostOrderStatus order_id payload admin =>
      snd (session_scope (update_status order_id payload admin) t fault st)
  | GetPreferences user =>
      snd (session_scope (get_preferences user) t fault st)
  | PutPreferences payload user =>
      snd (session_scope (upsert_preferences payload user) t fault st)
  end.

(** The stores the service reaches from one without orders, serving one
    request after the other, the datastore's clock never running backwards;
    the index is the time of the last request. *)
Inductive reachable (hash_password : string -> string) : Z -> Store -> Prop :=
| reachable_initial (clock : Z) (st : Store) :
    orders st = [] -> order_status_history st = [] ->
    reachable hash_password clock st
| reachable_serve (clock t : Z) (st : Store) (r : Request)
    (fault : option nat) :
    reachable hash_password clock st -> clock <= t ->
    reachable hash_password t (serve hash_password r t fault st).

(** [st'] has the order tables of [st]. *)
Definition same_orders (st st' : Store) : Prop :=
  orders st' = orders st
  /\ order_status_history st' = order_status_history st
  /\ orders_id_seq st' = orders_id_seq st
  /\ order_status_history_id_seq st' = order_status_history_id_seq st.

(** * The rest of the service *)

(** ** [str(n)] of an integer *)

Definition digit_char (d : Z) : ascii := ascii_of_nat (48 + Z.to_nat d).

(** The decimal digits of [n >= 0] in front of [acc]; [fuel] bounds the
    number of digits. *)
Fixpoint decimal (fuel : nat) (n : Z) (acc : list ascii) : list ascii :=
  match fuel with
  | O => acc
  | S fuel' =>
      let acc' := digit_char (n mod 10) :: acc in
      if n <? 10 then acc' else decimal fuel' (n / 10) acc'
  end.

Definition py_str (n : Z) : string :=
  if n <? 0
  then String "-"
         (string_of_list_ascii
            (decimal (S (Z.to_nat (Z.log2 (- n)))) (- n) []))
  else string_of_list_ascii (decimal (S (Z.to_nat (Z.log2 n))) n []).

(** ** [schemas.py], continued *)

Module LoginRequest.
Record t := mk {
  email : string;
  password : string
}.
End LoginRequest.

Module TokenResponse.
Record t := mk {
  access_token : string;
  token_type : string
}.
End TokenResponse.

(** ** [auth/security.py], continued, and the rest of [api/routers/auth.py] *)

(** [role.value] *)
Definition role_value (role : UserRole.t) : string :=
  match role with
  | UserRole.customer => "customer"
  | UserRole.admin => "admin"
  end.

Section Security.

Variable settings : Settings.

(** PyJWT's [jwt.encode(payload, key, algorithm="HS256")]. *)
Variable jwt_encode : dict -> string -> string.

(** passlib's [pwd_context.verify]. *)
Variable verify_password : string -> string -> bool.

(** [int(d.timestamp())] of a datetime [d], which is a number of
    microseconds since the epoch. *)
Variable timestamp : Z -> Z.

(** [utc_now] is [datetime.now(UTC)] at the call. *)
Definition create_access_token (utc_now : Z) (subject role : string)
    (expires_minutes : option Z) : M string :=
  if String.eqb (jwt_secret settings) "" then raise RuntimeError
  else
    let exp_minutes :=
      match expires_minutes with
      | Some m => if Z.eqb m 0 then access_token_exp_minutes settings else m
      | None => access_token_exp_minutes settings
      end in
    let payload :=
      [("sub", JStr subject); ("role", JStr role);
       ("iss", JStr (jwt_issuer settings));
       ("aud", JStr (jwt_audience settings));
       ("iat", JNum (timestamp utc_now));
       ("exp", JNum (timestamp (utc_now + exp_minutes * 60 * 1000000)))] in
    ret (jwt_encode payload (jwt_secret settings)).

Definition login (utc_now : Z) (payload : LoginRequest.t)
    : M TokenResponse.t :=
  found <- scalar users
             (fun u => String.eqb (User.email u)
                         (LoginRequest.email payload)) ;;
  match found with
  | None => raise (HTTPException 401 "Invalid credentials")
  | Some user =>
      if negb (User.is_active user)
      then raise (HTTPException 401 "Invalid credentials")
      else if negb (verify_password (LoginRequest.password payload)
                      (User.password_hash user))
      then raise (HTTPException 401 "Invalid credentials")
      else
        token <- create_access_token utc_now (py_str (User.id user))
                   (role_value (User.role user)) None ;;
        ret (TokenResponse.mk token "bearer")
  end.

End Security.

(** [user] is the user [get_current_user] resolved. *)
Definition me (user : User.t) : M UserPublic.t :=
  ret (UserPublic.mk (User.id user) (User.email user) (User.role user)
         (User.created_at user)).

(** ** [core/config.py] *)

(** [value.split(sep)] for a one-character separator. *)
Fixpoint split_on (sep : ascii) (l : list ascii) : list (list ascii) :=
  match l with
  | [] => [[]]
  | c :: l' =>
      if Ascii.eqb c sep then [] :: split_on sep l'
      else
        match split_on sep l' with
        | item :: items => (c :: item) :: items
        | [] => [[c]]
        end
  end.

Definition nonempty (l : list ascii) : bool :=
  match l with
  | [] => false
  | _ :: _ => true
  end.

Definition _split_csv (value : string) : list string :=
  map (fun item => string_of_list_ascii (strip item))
    (filter (fun item => nonempty (strip item))
       (split_on "," (list_ascii_of_string value))).

Module Config.

(** The [Settings] dataclass in full. *)
Record Settings := mk {
  app_name : string;
  app_version : string;
  allowed_origins : list string;
  allowed_methods : list string;
  allowed_headers : list string;
  cors_max_age : Z;
  postgres_url : option string;
  postgres_user : option string;
  postgres_password : option string;
  postgres_db : option string;
  postgres_port : option string;
  jwt_secret : string;
  jwt_issuer : string;
  jwt_audience : string;
  access_token_exp_minutes : Z
}.

End Config.

(** The part of the settings the token service reads. *)
Definition token_settings (s : Config.Settings) : Settings :=
  mkSettings (Config.jwt_secret s) (Config.jwt_issuer s)
    (Config.jwt_audience s) (Config.access_token_exp_minutes s).

(** [os.getenv(name, default)] on the environment [env]. *)
Definition getenv (env : string -> option string) (name default : string)
    : string :=
  match env name with
  | Some v => v
  | None => default
  end.

(** [get_settings] on the environment [env]; [int] raises [ValueError]. *)
Definition get_settings (env : string -> option string)
    : outcome Config.Settings :=
  match py_int (getenv env "CORS_MAX_AGE" "3600") with
  | None => Raised ValueError
  | Some cors_max_age =>
      match py_int (getenv env "ACCESS_TOKEN_EXP_MINUTES" "60") with
      | None => Raised ValueError
      | Some exp_minutes =>
          Returned
            (Config.mk
               (getenv env "APP_NAME" "Order Tracker Backend")
               (getenv env "APP_VERSION" "0.1.0")
               (_split_csv (getenv env "ALLOWED_ORIGINS" "*"))
               (_split_csv
                  (getenv env "ALLOWED_METHODS"
                     "GET,POST,PUT,DELETE,PATCH,OPTIONS"))
               (_split_csv
                  (getenv env "ALLOWED_HEADERS" "Content-Type,Authorization"))
               cors_max_age
               (env "POSTGRES_URL") (env "POSTGRES_USER")
               (env "POSTGRES_PASSWORD") (env "POSTGRES_DB")
               (env "POSTGRES_PORT")
               (getenv env "JWT_SECRET" "")
               (getenv env "JWT_ISSUER" "order-tracker")
               (getenv env "JWT_AUDIENCE" "order-tracker-clients")
               exp_minutes)
      end
  end.

(** ** [db/session.py], continued *)

(** The truth value of an optional string setting. *)
Definition is_set (v : option string) : bool :=
  match v with
  | Some s => negb (String.eqb s "")
  | None => false
  end.

Definition or_empty (v : option string) : string :=
  match v with
  | Some s => s
  | None => ""
  end.

Definition _build_sqlalchemy_url (settings : Config.Settings)
    : outcome string :=
  if is_set (Config.postgres_url settings)
     && (String.prefix "postgresql://"
           (or_empty (Config.postgres_url settings))
         || String.prefix "postgres://"
              (or_empty (Config.postgres_url settings)))
  then Returned (or_empty (Config.postgres_url settings))
  else if negb (is_set (Config.postgres_user settings)
                && is_set (Config.postgres_password settings)
                && is_set (Config.postgres_db settings)
                && is_set (Config.postgres_port settings))
  then Raised RuntimeError
  else
    let host := if is_set (Config.postgres_url settings)
                then or_empty (Config.postgres_url settings)
                else "localhost" in
    Returned
      (String.append "postgresql+psycopg://"
         (String.append (or_empty (Config.postgres_user settings))
            (String.append ":"
               (String.append (or_empty (Config.postgres_password settings))
                  (String.append "@"
                     (String.append host
                        (String.append ":"
                           (String.append
                              (or_empty (Config.postgres_port settings))
                              (String.append "/"
                                 (or_empty
                                    (Config.postgres_db settings))))))))))).

(** [create_engine(db_url, ...)] connects to nothing yet: an engine is the
    URL it was built from, and a session factory the engine it is bound
    to. *)
Record Engine := mkEngine { engine_url : string }.

Record sessionmaker := mkSessionmaker { bind_engine : Engine }.

(** The module's globals. *)
Record Globals := mkGlobals {
  _ENGINE : option Engine;
  _SessionLocal : option sessionmaker
}.

(** [settings] is what [get_settings()] returns at the call. *)
Definition init_engine (settings : Config.Settings) (g : Globals)
    : outcome unit * Globals :=
  match _ENGINE g, _SessionLocal g with
  | Some _, Some _ => (Returned tt, g)
  | _, _ =>
      match _build_sqlalchemy_url settings with
      | Raised e => (Raised e, g)
      | Returned db_url =>
          let engine := mkEngine db_url in
          (Returned tt,
           mkGlobals (Some engine) (Some (mkSessionmaker engine)))
      end
  end.

(** What a call of [get_engine] ends in; the last case is the failure of
    [assert _ENGINE is not None]. *)
Inductive engine_result :=
| EngineReturned (engine : Engine)
| EngineRaised (e : Exception)
| EngineAssertionError.

Definition get_engine (settings : Config.Settings) (g : Globals)
    : engine_result * Globals :=
  let '(r, g') :=
    match _ENGINE g with
    | None => init_engine settings g
    | Some _ => (Returned tt, g)
    end in
  match r with
  | Raised e => (EngineRaised e, g')
  | Returned _ =>
      match _ENGINE g' with
      | Some engine => (EngineReturned engine, g')
      | None => (EngineAssertionError, g')
      end
  end.

(** ** [api/main.py]: the CORS lists handed to the middleware *)

Definition allow_origins (settings : Config.Settings) : list string :=
  if list_eq_dec string_dec (Config.allowed_origins settings) ["*"]
  then ["*"]
  else Config.allowed_origins settings.

Definition allow_methods (settings : Config.Settings) : list string :=
  match Config.allowed_methods settings with
  | [] => ["*"]
  | l => l
  end.

Definition allow_headers (settings : Config.Settings) : list string :=
  match Config.allowed_headers settings with
  | [] => ["*"]
  | l => l
  end.

(** [created_at_desc] on the items of a listing. *)
Definition response_created_at_desc (a b : OrderResponse.t) : bool :=
  OrderResponse.created_at b <=? OrderResponse.created_at a.

(** The claims [login] has [create_access_token] sign for [user] at
    [utc_now]. *)
Definition login_claims (settings : Settings) (timestamp : Z -> Z)
    (utc_now : Z) (user : User.t) : dict :=
  [("sub", JStr (py_str (User.id user)));
   ("role", JStr (role_value (User.role user)));
   ("iss", JStr (jwt_issuer settings));
   ("aud", JStr (jwt_audience settings));
   ("iat", JNum (timestamp utc_now));
   ("exp",
    JNum (timestamp
            (utc_now + access_token_exp_minutes settings * 60 * 1000000)))].

(** [",".join(items)] *)
Fixpoint join_commas (items : list string) : string :=
  match items with
  | [] => ""
  | item :: rest =>
      match rest with
      | [] => item
      | _ :: _ => String.append item (String "," (join_commas rest))
      end
  end.

(** An item as [_split_csv] returns them: not empty, no white space at
    either end, no comma. *)
Definition clean_item (item : string) : Prop :=
  item <> ""
  /\ strip (list_ascii_of_string item) = list_ascii_of_string item
  /\ ~ In ","%char (list_ascii_of_string item).

(** [POSTGRES_URL] holds a full DSN. *)
Definition is_dsn (settings : Config.Settings) : bool :=
  is_set (Config.postgres_url settings)
  && (String.prefix "postgresql://" (or_empty (Config.postgres_url settings))
      || String.prefix "postgres://"
           (or_empty (Config.postgres_url settings))).

(** The four pieces a composed URL needs are all set. *)
Definition has_pieces (settings : Config.Settings) : bool :=
  is_set (Config.postgres_user settings)
  && is_set (Config.postgres_password settings)
  && is_set (Config.postgres_db settings)
  && is_set (Config.postgres_port settings).

(** The constraints [db/models.py] declares, on a store: serial primary
    keys below their sequence and unique, unique emails, order numbers and
    preference owners, and the foreign keys. *)
Definition users_ok (st : Store) : Prop :=
  NoDup (map User.id (users st))
  /\ (forall u, In u (users st) -> User.id u < users_id_seq st)
  /\ NoDup (map User.email (users st)).

Definition orders_ok (st : Store) : Prop :=
  NoDup (map Order.id (orders st))
  /\ (forall o, In o (orders st) -> Order.id o < orders_id_seq st)
  /\ NoDup (map Order.order_number (orders st))
  /\ (forall o, In o (orders st) ->
        In (Order.user_id o) (map User.id (users st))).

Definition history_ok (st : Store) : Prop :=
  NoDup (map OrderStatusHistory.id (order_status_history st))
  /\ (forall h, In h (order_status_history st) ->
        OrderStatusHistory.id h < order_status_history_id_seq st)
  /\ (forall h, In h (order_status_history st) ->
        In (OrderStatusHistory.order_id h) (map Order.id (orders st)))
  /\ (forall h uid, In h (order_status_history st) ->
        OrderStatusHistory.changed_by_user_id h = Some uid ->
        In uid (map User.id (users st))).

Definition preferences_ok (st : Store) : Prop :=
  NoDup (map NotificationPreference.id (notification_preferences st))
  /\ (forall p, In p (notification_preferences st) ->
        NotificationPreference.id p < notification_preferences_id_seq st)
  /\ NoDup (map NotificationPreference.user_id (notification_preferences st))
  /\ (forall p, In p (notification_preferences st) ->
        In (NotificationPreference.user_id p) (map User.id (users st))).

Definition schema_ok (st : Store) : Prop :=
  users_ok st /\ orders_ok st /\ history_ok st /\ preferences_ok st.

(** ** Example stores *)

Module Examples.

Definition root : User.t :=
  User.mk 1 "root@example.com" "$2b$12$root" UserRole.admin true 0.

Definition alice : User.t :=
  User.mk 7 "alice@example.com" "$2b$12$alice" UserRole.customer true 1.

Definition bob : User.t :=
  User.mk 8 "bob@example.com" "$2b$12$bob" UserRole.customer true 2.

Definition widget : Order.t :=
  Order.mk 1 "ORD-1" 8 "Widget" None OrderStatus.created 10 10.

Definition widget_created : OrderStatusHistory.t :=
  OrderStatusHistory.mk 1 1 None OrderStatus.created None None 10.

Definition alice_pref : NotificationPreference.t :=
  NotificationPreference.mk 1 7 true NotificationChannel.email
    (Some "a@b.com") None (Some "device-token") 1.

(** One admin and two customers, no order yet. *)
Definition opening : Store :=
  mkStore [root; alice; bob] [] [] [alice_pref] 9 1 1 2.

(** The same with Bob's order [ORD-1], as created at time 10. *)
Definition shop : Store :=
  mkStore [root; alice; bob] [widget] [widget_created] [alice_pref] 9 2 2 2.

(** A store whose history heap is not in insertion order: order 1 was
    deleted with its entry, and the slot it freed now holds the latest entry
    of order 2. *)
Definition gadget : Order.t :=
  Order.mk 2 "ORD-2" 7 "Gadget" None OrderStatus.shipped 11 20.

Definition gadget_created : OrderStatusHistory.t :=
  OrderStatusHistory.mk 2 2 None OrderStatus.created None None 11.

Definition gadget_shipped : OrderStatusHistory.t :=
  OrderStatusHistory.mk 3 2 (Some OrderStatus.created) OrderStatus.shipped
    (Some 1) None 20.

Definition reused_heap : Store :=
  mkStore [root; alice; bob] [gadget] [gadget_shipped; gadget_created]
    [alice_pref] 9 3 4 2.

(** Three orders of two customers: Bob's [ORD-1], Alice's [ORD-2] as shipped
    at time 20, and Bob's [ORD-3], created at time 25. *)
Definition gizmo : Order.t :=
  Order.mk 3 "ORD-3" 8 "Gizmo" None OrderStatus.created 25 25.

Definition gizmo_created : OrderStatusHistory.t :=
  OrderStatusHistory.mk 4 3 None OrderStatus.created None None 25.

Definition backlog : Store :=
  mkStore [root; alice; bob] [widget; gadget; gizmo]
    [widget_created; gadget_created; gadget_shipped; gizmo_created]
    [alice_pref] 9 4 5 2.

(** A phone number of 41 characters, as a client may send it with an
    extension and separators. *)
Definition long_phone : string :=
  "+1 (555) 010-0199 extension 4821 (office)".

(** A push token of 513 characters. *)
Definition long_token : string := string_of_list_ascii (repeat "t"%char 513).

(** The first 32 characters of the phone number, sent with two spaces after
    them. *)
Definition padded_phone : string := "+1 (555) 010-0199 extension 4821  ".

(** A token service over which the token below verifies and carries the
    subject ["abc"]. *)
Definition settings : Settings :=
  mkSettings "secret" "order-tracker" "order-tracker-clients" 60.

Definition abc_token : string := "header.sub-abc.signature".

Definition jwt_decode (token key audience issuer : string) : option dict :=
  if String.eqb token abc_token && String.eqb key "secret"
  then Some [("sub", JStr "abc"); ("role", JStr "customer");
             ("iss", JStr issuer); ("aud", JStr audience);
             ("exp", JNum 4102444800)]
  else None.

Definition hash_password (password : string) : string :=
  String.append "$2b$12$" password.

(** A token service for the users of [shop]: passwords hash to the stored
    hashes, and the tokens of Bob and of the admin, issued at second 100
    for 60 minutes, verify. *)
Definition verify_password (password hash : string) : bool :=
  String.eqb (hash_password password) hash.

Definition timestamp (d : Z) : Z := Z.quot d 1000000.

Definition jwt_encode (payload : dict) (key : string) : string :=
  match dict_get "sub" payload with
  | Some (JStr subject) =>
      String.append "header.sub-" (String.append subject ".signature")
  | _ => "header.signature"
  end.

Definition claims_of (subject role : string) : dict :=
  [("sub", JStr subject); ("role", JStr role);
   ("iss", JStr "order-tracker"); ("aud", JStr "order-tracker-clients");
   ("iat", JNum 100); ("exp", JNum 3700)].

Definition service_decode (token key audience issuer : string) : option dict :=
  if negb (String.eqb key "secret") then None
  else if String.eqb token "header.sub-8.signature"
  then Some (claims_of "8" "customer")
  else if String.eqb token "header.sub-1.signature"
  then Some (claims_of "1" "admin")
  else None.

(** A process environment that sets the datastore's pieces and nothing
    else. *)
Definition env (name : string) : option string :=
  if String.eqb name "POSTGRES_URL" then Some "db"
  else if String.eqb name "POSTGRES_USER" then Some "tracker"
  else if String.eqb name "POSTGRES_PASSWORD" then Some "s3cret"
  else if String.eqb name "POSTGRES_DB" then Some "orders"
  else if String.eqb name "POSTGRES_PORT" then Some "5432"
  else None.

(** The settings loaded from it. *)
Definition loaded : Config.Settings :=
  Config.mk "Order Tracker Backend" "0.1.0" ["*"]
    ["GET"; "POST"; "PUT"; "DELETE"; "PATCH"; "OPTIONS"]
    ["Content-Type"; "Authorization"] 3600 (Some "db") (Some "tracker")
    (Some "s3cret") (Some "orders") (Some "5432") "" "order-tracker"
    "order-tracker-clients" 60.

End Examples.

(** ** Proof automation *)

(** Unfolds the monad and the datastore primitives of a handler run. *)
Ltac run :=
  cbv beta iota zeta delta
    [session_scope commit bind ret raise scalar scalar_by_id scalars
     scalars_order_by
     round_trip get_store get_now put_store except_IntegrityError
     except_Exception flush_order flush_new_history flush_new_order
     flush_new_user flush_new_preference flush_preference flush_delete_order
     fault db now].

(** Runs a handler under an arbitrary fault budget, one case per branch. *)
Ltac split_run :=
  repeat (run;
    match goal with
    | |- context [match ?x with _ => _ end] => is_var x; destruct x
    | |- context [if ?b then _ else _] => destruct b eqn:?
    | |- context [match find ?p ?l with _ => _ end] =>
        destruct (find p l) eqn:?
    | |- context [match varchar ?n ?v with _ => _ end] =>
        destruct (varchar n v) eqn:?
    end).

(** Case analysis of a run of the authorization gate over the decoder
    [decode]. *)
Ltac gate_cases decode :=
  repeat (split_run;
          try match goal with
              | |- context [match decode ?a ?b ?c ?d with _ => _ end] =>
                  destruct (decode a b c d)
              | |- context [match option_map int ?v with _ => _ end] =>
                  destruct (option_map int v) as [[?|]|]
              end).

(** * Verification *)

(** ** Decidable equalities *)

Lemma OrderStatus_eqb_eq (a b : OrderStatus.t) :
  OrderStatus.eqb a b = true <-> a = b.
Proof. destruct a, b; simpl; split; congruence. Qed.

Lemma UserRole_eqb_eq (a b : UserRole.t) : UserRole.eqb a b = true <-> a = b.
Proof. destruct a, b; simpl; split; congruence. Qed.

Lemma channel_eqb_eq (a b : NotificationChannel.t) :
  channel_eqb a b = true <-> a = b.
Proof. destruct a, b; simpl; split; congruence. Qed.

Lemma option_string_eqb_eq (a b : option string) :
  option_string_eqb a b = true <-> a = b.
Proof.
  destruct a as [x|], b as [y|]; simpl; split; try congruence.
  - intros H. apply String.eqb_eq in H. congruence.
  - intros H. apply String.eqb_eq. congruence.
Qed.

(** ** Tables *)

Lemma find_some_existsb {A} (p : A -> bool) (l : list A) (x : A) :
  find p l = Some x -> existsb p l = true.
Proof.
  intros H. apply find_some in H. apply existsb_exists. exists x. exact H.
Qed.

Lemma find_none_existsb {A} (p : A -> bool) (l : list A) :
  find p l = None -> existsb p l = false.
Proof.
  induction l as [|x l IH]; simpl; [reflexivity|].
  destruct (p x); [discriminate | exact IH].
Qed.

Lemma existsb_false_find {A} (p : A -> bool) (l : list A) :
  existsb p l = false -> find p l = None.
Proof.
  induction l as [|x l IH]; simpl; [reflexivity|].
  destruct (p x); simpl; [discriminate | exact IH].
Qed.

Lemma find_by_id (order_id : Z) (l : list Order.t) (o : Order.t) :
  find (fun x => Z.eqb (Order.id x) order_id) l = Some o ->
  In o l /\ Order.id o = order_id.
Proof.
  intros H. apply find_some in H. destruct H as [Hin Hid].
  apply Z.eqb_eq in Hid. split; assumption.
Qed.

Lemma stored_user_exists (u : User.t) (l : list User.t) :
  In u l -> existsb (fun x => Z.eqb (User.id x) (User.id u)) l = true.
Proof.
  intros H. apply existsb_exists. exists u.
  split; [exact H | apply Z.eqb_refl].
Qed.

Lemma find_replace_order (l : list Order.t) (row o : Order.t) :
  find (fun x => Z.eqb (Order.id x) (Order.id row)) l = Some o ->
  find (fun x => Z.eqb (Order.id x) (Order.id row)) (replace_order row l)
  = Some row.
Proof.
  induction l as [|x l IH]; simpl; [discriminate|].
  destruct (Z.eqb (Order.id x) (Order.id row)) eqn:E.
  - intros _. rewrite Z.eqb_refl. reflexivity.
  - rewrite E. exact IH.
Qed.

Lemma existsb_replace_order (l : list Order.t) (row : Order.t) (k : Z) :
  existsb (fun x => Z.eqb (Order.id x) k) (replace_order row l)
  = existsb (fun x => Z.eqb (Order.id x) k) l.
Proof.
  induction l as [|x l IH]; simpl; [reflexivity|].
  rewrite IH.
  destruct (Z.eqb (Order.id x) (Order.id row)) eqn:E; [|reflexivity].
  apply Z.eqb_eq in E. rewrite E. reflexivity.
Qed.

Lemma map_id_replace_order (l : list Order.t) (row : Order.t) :
  map Order.id (replace_order row l) = map Order.id l.
Proof.
  induction l as [|x l IH]; simpl; [reflexivity|].
  rewrite IH.
  destruct (Z.eqb (Order.id x) (Order.id row)) eqn:E; [|reflexivity].
  apply Z.eqb_eq in E. rewrite E. reflexivity.
Qed.

Lemma In_replace_order (l : list Order.t) (row o : Order.t) :
  In o (replace_order row l) ->
  o = row \/ (In o l /\ Order.id o <> Order.id row).
Proof.
  induction l as [|x l IH]; simpl; [tauto|].
  destruct (Z.eqb (Order.id x) (Order.id row)) eqn:E.
  - intros [H|H]; [left; congruence|]. destruct (IH H) as [?|[? ?]]; auto.
  - apply Z.eqb_neq in E.
    intros [H|H]; [subst; auto|]. destruct (IH H) as [?|[? ?]]; auto.
Qed.

Lemma same_id_same_order (l : list Order.t) (a b : Order.t) :
  NoDup (map Order.id l) -> In a l -> In b l -> Order.id a = Order.id b ->
  a = b.
Proof.
  induction l as [|x l IH]; simpl; [tauto|].
  intros Hnd Ha Hb Hid. inversion Hnd as [|? ? Hx Hl]; subst.
  destruct Ha as [Ha|Ha], Hb as [Hb|Hb]; subst; auto.
  - exfalso. apply Hx. rewrite Hid. apply in_map. exact Hb.
  - exfalso. apply Hx. rewrite <- Hid. apply in_map. exact Ha.
Qed.

(** ** The ordering of history entries *)

Lemma changed_at_id_asc_refl (h : OrderStatusHistory.t) :
  changed_at_id_asc h h = true.
Proof.
  unfold changed_at_id_asc. rewrite Z.eqb_refl, Z.leb_refl.
  apply orb_true_r.
Qed.

Lemma changed_at_id_asc_later (a b : OrderStatusHistory.t) :
  OrderStatusHistory.changed_at a <= OrderStatusHistory.changed_at b ->
  OrderStatusHistory.id a <= OrderStatusHistory.id b ->
  changed_at_id_asc a b = true.
Proof.
  intros Ht Hi. unfold changed_at_id_asc.
  destruct (Z.ltb_spec (OrderStatusHistory.changed_at a)
              (OrderStatusHistory.changed_at b)); [reflexivity|].
  replace (OrderStatusHistory.changed_at a) with
    (OrderStatusHistory.changed_at b) by lia.
  rewrite Z.eqb_refl. simpl. apply Z.leb_le. exact Hi.
Qed.

Lemma changed_at_id_asc_total (a b : OrderStatusHistory.t) :
  changed_at_id_asc a b = false -> changed_at_id_asc b a = true.
Proof.
  unfold changed_at_id_asc. intros H.
  apply orb_false_iff in H. destruct H as [H1 H2].
  apply Z.ltb_ge in H1.
  destruct (Z.ltb_spec (OrderStatusHistory.changed_at b)
              (OrderStatusHistory.changed_at a)); [reflexivity|].
  assert (E : OrderStatusHistory.changed_at a
              = OrderStatusHistory.changed_at b) by lia.
  rewrite E, Z.eqb_refl in *. simpl in *.
  apply Z.leb_gt in H2. apply Z.leb_le. lia.
Qed.

(** An entry appended with the next id at a time no earlier than the clock
    is the latest of its order, and leaves the latest of the others. *)
Lemma latest_entry_appended (hs : list OrderStatusHistory.t)
    (h : OrderStatusHistory.t) (clock : Z) :
  (forall h', In h' hs -> OrderStatusHistory.id h' < OrderStatusHistory.id h) ->
  (forall h', In h' hs -> OrderStatusHistory.changed_at h' <= clock) ->
  clock <= OrderStatusHistory.changed_at h ->
  latest_entry h (OrderStatusHistory.order_id h) (hs ++ [h]).
Proof.
  intros Hids Hclock Ht. split; [|split].
  - apply in_or_app. right. left. reflexivity.
  - reflexivity.
  - intros h' Hin _. apply in_app_or in Hin. destruct Hin as [Hin|[<-|[]]].
    + apply changed_at_id_asc_later.
      * specialize (Hclock _ Hin). lia.
      * specialize (Hids _ Hin). lia.
    + apply changed_at_id_asc_refl.
Qed.

Lemma latest_entry_other (hs : list OrderStatusHistory.t)
    (h hn : OrderStatusHistory.t) (order_id : Z) :
  OrderStatusHistory.order_id hn <> order_id ->
  latest_entry h order_id hs -> latest_entry h order_id (hs ++ [hn]).
Proof.
  intros Hne (Hin & Hid & Hmax). split; [|split].
  - apply in_or_app. left. exact Hin.
  - exact Hid.
  - intros h' Hin' Hid'. apply in_app_or in Hin'.
    destruct Hin' as [Hin'|[<-|[]]]; [auto | contradiction].
Qed.

(** ** What a request leaves in the store, whatever the fault budget *)

Lemma session_scope_raised {A} (body : M A) (t : Z) (fault : option nat)
    (st st' : Store) (e : Exception) :
  session_scope body t fault st = (Raised e, st') -> st' = st.
Proof.
  unfold session_scope.
  destruct ((x <- body ;; commit ;;; ret x)%handler (mkSession st t fault))
    as [[a|e'] s]; congruence.
Qed.

Lemma update_status_effect (st : Store) (t : Z) (fault : option nat)
    (order_id : Z) (payload : OrderStatusUpdateRequest.t) (admin : User.t)
    (r : outcome OrderDetailResponse.t) (st' : Store) :
  session_scope (update_status order_id payload admin) t fault st = (r, st') ->
  (exists e, r = Raised e /\ st' = st)
  \/ (exists resp order,
        r = Returned resp
        /\ find (fun o => Z.eqb (Order.id o) order_id) (orders st) = Some order
        /\ st' = status_written st t order payload admin).
Proof.
  unfold update_status, status_written, status_entry.
  split_run; intros [= <- <-];
    try (left; eexists; split; reflexivity).
  all: right; eexists _, _; split; [reflexivity|]; split; [reflexivity|].
  all: match goal with H : order_modified _ _ = _ |- _ => rewrite H end.
  all: reflexivity.
Qed.

Lemma create_order_effect (st : Store) (t : Z) (fault : option nat)
    (payload : OrderCreateRequest.t) (user_id : Z) (admin : User.t)
    (r : outcome OrderResponse.t) (st' : Store) :
  session_scope (create_order payload user_id admin) t fault st = (r, st') ->
  (exists e, r = Raised e /\ st' = st)
  \/ (r = Returned (_order_to_response (new_order st t payload user_id))
      /\ st' = order_created st t payload user_id).
Proof.
  unfold create_order, order_created, new_order, creation_entry.
  split_run; intros [= <- <-];
    try (left; eexists; split; reflexivity).
  all: right; split; reflexivity.
Qed.

Lemma update_order_effect (st : Store) (t : Z) (fault : option nat)
    (order_id : Z) (payload : OrderUpdateRequest.t) (user : User.t)
    (r : outcome OrderResponse.t) (st' : Store) :
  session_scope (update_order order_id payload user) t fault st = (r, st') ->
  (exists e, r = Raised e /\ st' = st)
  \/ (exists order,
        find (fun o => Z.eqb (Order.id o) order_id) (orders st) = Some order
        /\ not_admin_nor_owner user order = false
        /\ ((order_modified order (patched payload order) = true
             /\ r = Returned (_order_to_response
                                (Order.set_updated_at t (patched payload order)))
             /\ st' = with_orders
                        (replace_order
                           (Order.set_updated_at t (patched payload order))
                           (orders st))
                        (orders_id_seq st) st)
            \/ (order_modified order (patched payload order) = false
                /\ r = Returned (_order_to_response (patched payload order))
                /\ st' = st))).
Proof.
  unfold update_order. fold (patched payload).
  split_run; intros [= <- <-];
    try (left; eexists; split; reflexivity).
  all: right; eexists; split; [reflexivity|]; split; [assumption|].
  all: try (left; split; [assumption|]; split; reflexivity).
  all: right; split; [assumption|]; split; reflexivity.
Qed.

Lemma delete_order_effect (st : Store) (t : Z) (fault : option nat)
    (order_id : Z) (admin : User.t) (r : outcome unit) (st' : Store) :
  session_scope (delete_order order_id admin) t fault st = (r, st') ->
  (exists e, r = Raised e /\ st' = st)
  \/ (exists order,
        find (fun o => Z.eqb (Order.id o) order_id) (orders st) = Some order
        /\ st' = with_history
                   (filter (fun h => negb (Z.eqb (OrderStatusHistory.order_id h)
                                             (Order.id order)))
                      (order_status_history st))
                   (order_status_history_id_seq st)
                   (with_orders
                      (filter (fun o => negb (Z.eqb (Order.id o)
                                                (Order.id order)))
                         (orders st))
                      (orders_id_seq st) st)).
Proof.
  unfold delete_order.
  split_run; intros [= <- <-];
    try (left; eexists; split; reflexivity).
  all: right; eexists; split; reflexivity.
Qed.

(** ** The invariant of the order store *)

Lemma store_inv_later (clock t : Z) (st : Store) :
  store_inv clock st -> clock <= t -> store_inv t st.
Proof.
  intros (Hids & Hclock & Hoids & Hnd & Hst) Hle.
  repeat split; auto.
  intros h Hin. specialize (Hclock _ Hin). lia.
Qed.

(** Appending the entry [hn] at time [t] keeps the invariant when the orders
    of [hn]'s order carry its new status and the other orders are as
    before. *)
Lemma store_inv_appended (clock t : Z) (st st' : Store)
    (hn : OrderStatusHistory.t) :
  store_inv clock st -> clock <= t ->
  OrderStatusHistory.id hn = order_status_history_id_seq st ->
  OrderStatusHistory.changed_at hn = t ->
  order_status_history st' = order_status_history st ++ [hn] ->
  order_status_history_id_seq st' = order_status_history_id_seq st + 1 ->
  (forall o, In o (orders st') -> Order.id o < orders_id_seq st') ->
  NoDup (map Order.id (orders st')) ->
  (forall o, In o (orders st') ->
     (Order.id o = OrderStatusHistory.order_id hn
      /\ Order.current_status o = OrderStatusHistory.new_status hn)
     \/ (Order.id o <> OrderStatusHistory.order_id hn /\ In o (orders st))) ->
  store_inv t st'.
Proof.
  intros (Hids & Hclock & Hoids & Hnd & Hst) Hle Hid Ht Hhs Hseq Hoids' Hnd'
    Horders.
  assert (Hlatest : latest_entry hn (OrderStatusHistory.order_id hn)
                      (order_status_history st ++ [hn])).
  { apply latest_entry_appended with (clock := clock).
    - intros h' Hin. rewrite Hid. auto.
    - exact Hclock.
    - lia. }
  split; [|split; [|split; [|split]]]; try assumption.
  - rewrite Hhs, Hseq. intros h Hin. apply in_app_or in Hin.
    destruct Hin as [Hin|[<-|[]]]; [specialize (Hids _ Hin)|]; lia.
  - rewrite Hhs. intros h Hin. apply in_app_or in Hin.
    destruct Hin as [Hin|[<-|[]]]; [specialize (Hclock _ Hin)|]; lia.
  - intros o Hin. rewrite Hhs.
    destruct (Horders o Hin) as [[Ho Hs]|[Ho Hold]].
    + exists hn. rewrite Ho. split; [exact Hlatest | congruence].
    + destruct (Hst o Hold) as (h & Hl & Hs).
      exists h. split; [|exact Hs].
      apply latest_entry_other; auto.
Qed.

Lemma status_written_inv (clock t : Z) (st : Store) (order_id : Z)
    (order : Order.t) (payload : OrderStatusUpdateRequest.t) (admin : User.t) :
  store_inv clock st -> clock <= t ->
  find (fun o => Z.eqb (Order.id o) order_id) (orders st) = Some order ->
  store_inv t (status_written st t order payload admin).
Proof.
  intros Hinv Hle Hfind.
  destruct (find_by_id _ _ _ Hfind) as [Hin _].
  pose proof Hinv as (Hids & Hclock & Hoids & Hnd & Hst).
  apply store_inv_appended
    with (clock := clock) (st := st)
         (hn := status_entry st t order payload admin);
    [exact Hinv | exact Hle | reflexivity | reflexivity | | | | | ].
  - unfold status_written.
    destruct (order_modified order _); reflexivity.
  - unfold status_written.
    destruct (order_modified order _); reflexivity.
  - unfold status_written.
    destruct (order_modified order _); cbn; [|exact Hoids].
    intros o Ho. apply In_replace_order in Ho.
    destruct Ho as [->|[Ho _]]; [cbn|]; auto.
  - unfold status_written.
    destruct (order_modified order _); cbn; [|exact Hnd].
    rewrite map_id_replace_order. exact Hnd.
  - unfold status_written.
    destruct (order_modified order _) eqn:Hmod; cbn.
    + intros o Ho. apply In_replace_order in Ho.
      destruct Ho as [->|[Ho Hne]]; [left|right]; cbn in *; auto.
    + intros o Ho.
      unfold order_modified in Hmod. cbn in Hmod.
      apply negb_false_iff in Hmod. apply andb_prop in Hmod.
      destruct Hmod as [_ Hs]. apply OrderStatus_eqb_eq in Hs.
      destruct (Z.eq_dec (Order.id o) (Order.id order)) as [E|E].
      * left. split; [exact E|].
        rewrite (same_id_same_order _ _ _ Hnd Ho Hin E). exact Hs.
      * right. split; assumption.
Qed.

Lemma order_created_inv (clock t : Z) (st : Store)
    (payload : OrderCreateRequest.t) (user_id : Z) :
  store_inv clock st -> clock <= t ->
  store_inv t (order_created st t payload user_id).
Proof.
  intros Hinv Hle.
  pose proof Hinv as (Hids & Hclock & Hoids & Hnd & Hst).
  apply store_inv_appended
    with (clock := clock) (st := st) (hn := creation_entry st t);
    [exact Hinv | exact Hle | reflexivity | reflexivity | reflexivity
    | reflexivity | | | ].
  - cbn. intros o Ho. apply in_app_or in Ho.
    destruct Ho as [Ho|[<-|[]]]; [specialize (Hoids _ Ho)|cbn]; lia.
  - cbn. rewrite map_app. cbn.
    apply NoDup_app; [exact Hnd | repeat constructor; intros [] |].
    intros x Hx [<-|[]]. apply in_map_iff in Hx.
    destruct Hx as (o & Ho & Hin). specialize (Hoids _ Hin). lia.
  - cbn. intros o Ho. apply in_app_or in Ho.
    destruct Ho as [Ho|[<-|[]]]; [right|left; cbn; auto].
    split; [specialize (Hoids _ Ho); lia | exact Ho].
Qed.

Lemma patched_id (payload : OrderUpdateRequest.t) (order : Order.t) :
  Order.id (patched payload order) = Order.id order.
Proof. destruct payload as [[x|] [y|]]; reflexivity. Qed.

Lemma patched_current_status (payload : OrderUpdateRequest.t)
    (order : Order.t) :
  Order.current_status (patched payload order) = Order.current_status order.
Proof. destruct payload as [[x|] [y|]]; reflexivity. Qed.

Lemma order_replaced_inv (clock : Z) (st : Store) (order row : Order.t) :
  store_inv clock st -> In order (orders st) ->
  Order.id row = Order.id order ->
  Order.current_status row = Order.current_status order ->
  store_inv clock
    (with_orders (replace_order row (orders st)) (orders_id_seq st) st).
Proof.
  intros (Hids & Hclock & Hoids & Hnd & Hst) Hin Hid Hs.
  split; [|split; [|split; [|split]]]; cbn; try assumption.
  - intros o Ho. apply In_replace_order in Ho.
    destruct Ho as [->|[Ho _]]; [rewrite Hid|]; auto.
  - rewrite map_id_replace_order. exact Hnd.
  - intros o Ho. cbn in Ho. apply In_replace_order in Ho.
    destruct Ho as [->|[Ho _]]; [|auto].
    destruct (Hst order Hin) as (h & Hl & Hh).
    exists h. rewrite Hid, Hs. split; assumption.
Qed.

Lemma filtered_order_ids_NoDup (keep : Order.t -> bool)
    (rows : list Order.t) :
  NoDup (map Order.id rows) -> NoDup (map Order.id (filter keep rows)).
Proof.
  induction rows as [|x rows IH]; simpl; [auto|].
  intros Hnd. inversion Hnd as [|? ? Hx Hl]; subst.
  destruct (keep x); simpl; [|auto].
  constructor; [|auto].
  intros Hin. apply Hx. apply in_map_iff in Hin.
  destruct Hin as (y & Hy & Hin). apply filter_In in Hin.
  rewrite <- Hy. apply in_map. tauto.
Qed.

Lemma order_deleted_inv (clock : Z) (st : Store) (k : Z) :
  store_inv clock st ->
  store_inv clock
    (with_history
       (filter (fun h => negb (Z.eqb (OrderStatusHistory.order_id h) k))
          (order_status_history st))
       (order_status_history_id_seq st)
       (with_orders
          (filter (fun o => negb (Z.eqb (Order.id o) k)) (orders st))
          (orders_id_seq st) st)).
Proof.
  intros (Hids & Hclock & Hoids & Hnd & Hst).
  split; [|split; [|split; [|split]]]; cbn.
  - intros h Hin. apply filter_In in Hin. apply Hids. tauto.
  - intros h Hin. apply filter_In in Hin. apply Hclock. tauto.
  - intros o Hin. apply filter_In in Hin. apply Hoids. tauto.
  - apply filtered_order_ids_NoDup. exact Hnd.
  - intros o Hin. cbn in Hin |- *. apply filter_In in Hin.
    destruct Hin as [Hin Hk].
    destruct (Hst o Hin) as (h & (Hh & Hid & Hmax) & Hs).
    exists h. split; [|exact Hs]. split; [|split].
    + apply filter_In. split; [exact Hh|]. rewrite Hid. exact Hk.
    + exact Hid.
    + intros h' Hin' Hid'. apply filter_In in Hin'. apply Hmax; tauto.
Qed.

(** ** The check [status_consistent] is sound *)

Lemma changed_at_id_asc_trans (a b c : OrderStatusHistory.t) :
  changed_at_id_asc a b = true -> changed_at_id_asc b c = true ->
  changed_at_id_asc a c = true.
Proof.
  unfold changed_at_id_asc. intros H1 H2.
  apply orb_true_iff in H1. apply orb_true_iff in H2.
  rewrite !andb_true_iff, !Z.ltb_lt, !Z.eqb_eq, !Z.leb_le in *.
  apply orb_true_iff.
  rewrite !andb_true_iff, !Z.ltb_lt, !Z.eqb_eq, !Z.leb_le. lia.
Qed.

Lemma latest_history_app (k : Z) (hs : list OrderStatusHistory.t)
    (x : OrderStatusHistory.t) :
  latest_history k (hs ++ [x])
  = if Z.eqb (OrderStatusHistory.order_id x) k then
      match latest_history k hs with
      | Some b => if changed_at_id_asc b x then Some x else Some b
      | None => Some x
      end
    else latest_history k hs.
Proof. unfold latest_history. rewrite fold_left_app. reflexivity. Qed.

Lemma latest_history_none (k : Z) (hs : list OrderStatusHistory.t) :
  latest_history k hs = None ->
  forall h, In h hs -> OrderStatusHistory.order_id h <> k.
Proof.
  induction hs as [|x hs IH] using rev_ind; [intros _ h []|].
  rewrite latest_history_app.
  destruct (Z.eqb_spec (OrderStatusHistory.order_id x) k) as [E|E].
  - destruct (latest_history k hs) as [b|]; [|discriminate].
    destruct (changed_at_id_asc b x); discriminate.
  - intros Hn h Hin. apply in_app_or in Hin.
    destruct Hin as [Hin|[<-|[]]]; auto.
Qed.

Lemma latest_history_sound (k : Z) (hs : list OrderStatusHistory.t)
    (h : OrderStatusHistory.t) :
  latest_history k hs = Some h -> latest_entry h k hs.
Proof.
  revert h. induction hs as [|x hs IH] using rev_ind; [discriminate|].
  intros h. rewrite latest_history_app.
  destruct (Z.eqb_spec (OrderStatusHistory.order_id x) k) as [E|E].
  - destruct (latest_history k hs) as [b|] eqn:Hb.
    + destruct (IH b eq_refl) as (Hin & Hid & Hmax).
      destruct (changed_at_id_asc b x) eqn:Hbx; intros [= <-].
      * split; [apply in_or_app; right; left; reflexivity|].
        split; [exact E|].
        intros h' Hin' Hid'. apply in_app_or in Hin'.
        destruct Hin' as [Hin'|[<-|[]]].
        -- apply changed_at_id_asc_trans with (b := b); auto.
        -- apply changed_at_id_asc_refl.
      * split; [apply in_or_app; left; exact Hin|].
        split; [exact Hid|].
        intros h' Hin' Hid'. apply in_app_or in Hin'.
        destruct Hin' as [Hin'|[<-|[]]]; [auto|].
        apply changed_at_id_asc_total. exact Hbx.
    + intros [= <-].
      split; [apply in_or_app; right; left; reflexivity|].
      split; [exact E|].
      intros h' Hin' Hid'. apply in_app_or in Hin'.
      destruct Hin' as [Hin'|[<-|[]]].
      * exfalso. exact (latest_history_none k hs Hb h' Hin' Hid').
      * apply changed_at_id_asc_refl.
  - intros Hh. destruct (IH h Hh) as (Hin & Hid & Hmax).
    split; [apply in_or_app; left; exact Hin|].
    split; [exact Hid|].
    intros h' Hin' Hid'. apply in_app_or in Hin'.
    destruct Hin' as [Hin'|[<-|[]]]; [auto | contradiction].
Qed.

Lemma status_consistent_sound (st : Store) :
  status_consistent st = true -> status_matches_history st.
Proof.
  unfold status_consistent. intros H o Hin.
  rewrite forallb_forall in H. specialize (H o Hin).
  destruct (latest_history (Order.id o) (order_status_history st)) as [h|]
    eqn:Hh; [|discriminate].
  exists h. split; [apply latest_history_sound; exact Hh|].
  apply OrderStatus_eqb_eq. exact H.
Qed.



(** ** The invariant on every reachable store *)

Lemma store_inv_same_orders (clock : Z) (st st' : Store) :
  same_orders st st' -> store_inv clock st -> store_inv clock st'.
Proof.
  intros (Ho & Hh & Hos & Hhs) Hinv.
  unfold store_inv, status_matches_history in *.
  rewrite Ho, Hh, Hos, Hhs. exact Hinv.
Qed.

Lemma reads_keep_orders (st : Store) (t : Z) (fault : option nat)
    (user : User.t) :
  (forall order_id,
     same_orders st (snd (session_scope (get_order order_id user) t fault st)))
  /\ (forall order_number,
        same_orders st
          (snd (session_scope (lookup_by_number order_number user)
                  t fault st)))
  /\ same_orders st (snd (session_scope (list_orders user) t fault st))
  /\ same_orders st (snd (session_scope (get_preferences user) t fault st)).
Proof.
  unfold get_order, lookup_by_number, list_orders, get_preferences.
  repeat split; split_run; reflexivity.
Qed.

Lemma signup_keeps_orders (hash_password : string -> string) (st : Store)
    (t : Z) (fault : option nat) (payload : SignupRequest.t) :
  same_orders st
    (snd (session_scope (signup hash_password payload) t fault st)).
Proof. unfold signup. repeat split; split_run; reflexivity. Qed.

Lemma upsert_preferences_keeps_orders (st : Store) (t : Z)
    (fault : option nat) (payload : NotificationPreferenceUpsertRequest.t)
    (user : User.t) :
  same_orders st
    (snd (session_scope (upsert_preferences payload user) t fault st)).
Proof. unfold upsert_preferences. repeat split; split_run; reflexivity. Qed.

Lemma serve_inv (hash_password : string -> string) (r : Request)
    (clock t : Z) (fault : option nat) (st : Store) :
  store_inv clock st -> clock <= t ->
  store_inv t (serve hash_password r t fault st).
Proof.
  intros Hinv Hle.
  pose proof (store_inv_later clock t st Hinv Hle) as Hinv'.
  destruct r; cbn [serve].
  - eapply store_inv_same_orders; [apply signup_keeps_orders | exact Hinv'].
  - destruct (session_scope _ t fault st) as [r st'] eqn:Hrun.
    apply create_order_effect in Hrun.
    destruct Hrun as [(e & _ & ->)|[_ ->]]; cbn; [exact Hinv'|].
    apply order_created_inv with (clock := clock); assumption.
  - eapply store_inv_same_orders; [apply reads_keep_orders | exact Hinv'].
  - eapply store_inv_same_orders; [apply reads_keep_orders | exact Hinv'].
  - eapply store_inv_same_orders; [apply reads_keep_orders | exact Hinv'].
  - destruct (session_scope _ t fault st) as [r st'] eqn:Hrun.
    apply update_order_effect in Hrun.
    destruct Hrun
      as [(e & _ & ->)|(order & Hfind & _ & [(_ & _ & ->)|(_ & _ & ->)])];
      cbn; try exact Hinv'.
    destruct (find_by_id _ _ _ Hfind) as [Hin _].
    apply order_replaced_inv with (order := order); auto.
    + cbn. apply patched_id.
    + cbn. apply patched_current_status.
  - destruct (session_scope _ t fault st) as [r st'] eqn:Hrun.
    apply delete_order_effect in Hrun.
    destruct Hrun as [(e & _ & ->)|(order & _ & ->)]; cbn; [exact Hinv'|].
    apply order_deleted_inv. exact Hinv'.
  - destruct (session_scope _ t fault st) as [r st'] eqn:Hrun.
    apply update_status_effect in Hrun.
    destruct Hrun as [(e & _ & ->)|(resp & order & _ & Hfind & ->)]; cbn;
      [exact Hinv'|].
    apply status_written_inv with (clock := clock) (order_id := order_id);
      assumption.
  - eapply store_inv_same_orders; [apply reads_keep_orders | exact Hinv'].
  - eapply store_inv_same_orders;
      [apply upsert_preferences_keeps_orders | exact Hinv'].
Qed.

(** On every store the service reaches, each order's [current_status] is the
    [new_status] of its latest history entry. *)
Lemma reachable_status_matches_history (hash_password : string -> string)
    (clock : Z) (st : Store) :
  reachable hash_password clock st -> status_matches_history st.
Proof.
  intros Hreach.
  assert (Hinv : store_inv clock st); [|apply Hinv].
  induction Hreach as [clock st Ho Hh|clock t st r fault Hreach IH Hle].
  - unfold store_inv, status_matches_history. rewrite Ho, Hh. cbn.
    repeat split; try (intros ? []). constructor.
  - apply serve_inv with (clock := clock); assumption.
Qed.

(** The admin creates [ORD-1] for Bob, then ships it with a note: the
    response carries the status [shipped] and the two entries in order. *)
Example create_then_ship :
  session_scope
    (create_order (OrderCreateRequest.mk "ORD-1" "Widget" None) 8
       Examples.root)
    10 None Examples.opening
  = (Returned (_order_to_response Examples.widget), Examples.shop)
  /\ fst (session_scope
            (update_status 1
               (OrderStatusUpdateRequest.mk OrderStatus.shipped
                  (Some "left warehouse"))
               Examples.root)
            20 None Examples.shop)
     = Returned
         (OrderDetailResponse.mk
            (OrderResponse.mk 1 "ORD-1" 8 "Widget" None OrderStatus.shipped
               10 20)
            [OrderStatusHistoryItem.mk 1 None OrderStatus.created None None
               10;
             OrderStatusHistoryItem.mk 2 (Some OrderStatus.created)
               OrderStatus.shipped (Some 1) (Some "left warehouse") 20]).
Proof. split; reflexivity. Qed.

Lemma shop_reachable (hash_password : string -> string) :
  reachable hash_password 10 Examples.shop.
Proof.
  apply (reachable_serve hash_password 0 10 Examples.opening
           (PostOrder (OrderCreateRequest.mk "ORD-1" "Widget" None) 8
              Examples.root)
           None).
  - apply reachable_initial; reflexivity.
  - lia.
Qed.

(** ** C1 *)




(** ** C2 and C7: [update_status] *)

Lemma status_written_order (st : Store) (t : Z) (order_id : Z)
    (order : Order.t) (payload : OrderStatusUpdateRequest.t) (admin : User.t) :
  find (fun o => Z.eqb (Order.id o) order_id) (orders st) = Some order ->
  exists order',
    find (fun o => Z.eqb (Order.id o) order_id)
      (orders (status_written st t order payload admin)) = Some order'
    /\ Order.current_status order'
       = OrderStatusUpdateRequest.new_status payload.
Proof.
  intros Hfind. destruct (find_by_id _ _ _ Hfind) as [_ Hid].
  unfold status_written.
  destruct (order_modified order _) eqn:Hmod; cbn.
  - exists (Order.set_updated_at t
              (Order.set_current_status
                 (OrderStatusUpdateRequest.new_status payload) order)).
    split; [|reflexivity]. rewrite <- Hid.
    apply (find_replace_order (orders st)
             (Order.set_updated_at t
                (Order.set_current_status
                   (OrderStatusUpdateRequest.new_status payload) order))
             order).
    cbn. rewrite Hid. exact Hfind.
  - exists order. split; [exact Hfind|].
    unfold order_modified in Hmod. cbn in Hmod.
    apply negb_false_iff in Hmod. apply andb_prop in Hmod.
    destruct Hmod as [_ Hs]. apply OrderStatus_eqb_eq in Hs. auto.
Qed.

(** C2. [update_status] is atomic: whatever datastore round trip fails, a
    request that raises leaves the committed store as it was, and a request
    that returns has persisted both the order's new [current_status] and the
    history entry of the change. *)
Theorem update_status_atomic (st : Store) (t : Z) (fault : option nat)
    (order_id : Z) (payload : OrderStatusUpdateRequest.t) (admin : User.t) :
  match session_scope (update_status order_id payload admin) t fault st with
  | (Raised _, st') => st' = st
  | (Returned _, st') =>
      exists order order',
        find (fun o => Z.eqb (Order.id o) order_id) (orders st) = Some order
        /\ find (fun o => Z.eqb (Order.id o) order_id) (orders st')
           = Some order'
        /\ Order.current_status order'
           = OrderStatusUpdateRequest.new_status payload
        /\ order_status_history st'
           = order_status_history st
             ++ [status_entry st t order payload admin]
  end.
Proof.
  destruct (session_scope _ t fault st) as [r st'] eqn:Hrun.
  apply update_status_effect in Hrun.
  destruct Hrun as [(e & -> & ->)|(resp & order & -> & Hfind & ->)];
    [reflexivity|].
  destruct (status_written_order st t order_id order payload admin Hfind)
    as (order' & Hfind' & Hs).
  exists order, order'.
  split; [exact Hfind|]. split; [exact Hfind'|]. split; [exact Hs|].
  unfold status_written. destruct (order_modified order _); reflexivity.
Qed.

(** The second flush of [update_status] fails: the order update of the first
    is rolled back with it. *)
Example update_status_fault_rolls_back :
  session_scope
    (update_status 1 (OrderStatusUpdateRequest.mk OrderStatus.shipped None)
       Examples.root)
    20 (Some 2%nat) Examples.shop
  = (Raised OperationalError, Examples.shop).
Proof. reflexivity. Qed.

(** C7. [update_status] by a stored admin on an existing order succeeds for
    every pair of old and new status, leaves the order with the requested
    status and appends the entry (old status as read, requested status, the
    admin's id, the note). *)
Theorem update_status_always_succeeds (st : Store) (t : Z) (order_id : Z)
    (payload : OrderStatusUpdateRequest.t) (admin : User.t) (order : Order.t) :
  In admin (users st) ->
  find (fun o => Z.eqb (Order.id o) order_id) (orders st) = Some order ->
  exists resp st' order',
    session_scope (update_status order_id payload admin) t None st
    = (Returned resp, st')
    /\ OrderResponse.current_status (OrderDetailResponse.order resp)
       = OrderStatusUpdateRequest.new_status payload
    /\ find (fun o => Z.eqb (Order.id o) order_id) (orders st') = Some order'
    /\ Order.current_status order'
       = OrderStatusUpdateRequest.new_status payload
    /\ order_status_history st'
       = order_status_history st
         ++ [OrderStatusHistory.mk (order_status_history_id_seq st) order_id
               (Some (Order.current_status order))
               (OrderStatusUpdateRequest.new_status payload)
               (Some (User.id admin))
               (OrderStatusUpdateRequest.note payload) t].
Proof.
  intros Hadmin Hfind.
  destruct (find_by_id _ _ _ Hfind) as [_ Hid].
  assert (E : existsb (fun x => Z.eqb (Order.id x) (Order.id order))
                (orders st) = true).
  { rewrite Hid. eapply find_some_existsb; eauto. }
  destruct (status_written_order st t order_id order payload admin Hfind)
    as (order' & Hfind' & Hs).
  assert (Hrun : exists resp,
            session_scope (update_status order_id payload admin) t None st
            = (Returned resp, status_written st t order payload admin)
            /\ OrderResponse.current_status (OrderDetailResponse.order resp)
               = OrderStatusUpdateRequest.new_status payload).
  { unfold update_status, status_written. run. rewrite Hfind.
    destruct (order_modified order _) eqn:Hmod; run;
      cbn [orders with_orders users Order.id Order.set_updated_at
           Order.set_current_status];
      rewrite ?existsb_replace_order, E, (stored_user_exists _ _ Hadmin);
      cbn [negb]; eexists; split; reflexivity. }
  destruct Hrun as (resp & Hrun & Hresp).
  exists resp, (status_written st t order payload admin), order'.
  split; [exact Hrun|]. split; [exact Hresp|]. split; [exact Hfind'|].
  split; [exact Hs|].
  unfold status_written, status_entry. rewrite Hid.
  destruct (order_modified order _); reflexivity.
Qed.

Lemma update_status_always_succeeds_witness :
  exists resp st' order',
    session_scope
      (update_status 1
         (OrderStatusUpdateRequest.mk OrderStatus.created (Some "again"))
         Examples.root)
      20 None Examples.shop
    = (Returned resp, st')
    /\ OrderResponse.current_status (OrderDetailResponse.order resp)
       = OrderStatus.created
    /\ find (fun o => Z.eqb (Order.id o) 1) (orders st') = Some order'
    /\ Order.current_status order' = OrderStatus.created
    /\ order_status_history st'
       = order_status_history Examples.shop
         ++ [OrderStatusHistory.mk 2 1 (Some OrderStatus.created)
               OrderStatus.created (Some 1) (Some "again") 20].
Proof.
  apply (update_status_always_succeeds Examples.shop 20 1
           (OrderStatusUpdateRequest.mk OrderStatus.created (Some "again"))
           Examples.root Examples.widget).
  - simpl. auto.
  - reflexivity.
Defined.

(** ** [ORDER BY] keeps the selected rows *)

Lemma In_insert_by {A} (leb : A -> A -> bool) (x y : A) (l : list A) :
  In x (insert_by leb y l) <-> x = y \/ In x l.
Proof.
  induction l as [|z l IH]; simpl; [intuition congruence|].
  destruct (leb y z); simpl; [intuition congruence|].
  rewrite IH. intuition congruence.
Qed.

Lemma In_order_by {A} (leb : A -> A -> bool) (x : A) (l : list A) :
  In x (order_by leb l) <-> In x l.
Proof.
  induction l as [|y l IH]; simpl; [tauto|].
  rewrite In_insert_by, IH. intuition congruence.
Qed.

(** ** C3 and C8: reading and patching orders *)

Lemma update_order_run (st : Store) (t : Z) (order_id : Z)
    (payload : OrderUpdateRequest.t) (user : User.t) (order : Order.t) :
  find (fun o => Z.eqb (Order.id o) order_id) (orders st) = Some order ->
  not_admin_nor_owner user order = false ->
  session_scope (update_order order_id payload user) t None st
  = if order_modified order (patched payload order)
    then (Returned (_order_to_response
                      (Order.set_updated_at t (patched payload order))),
          with_orders
            (replace_order (Order.set_updated_at t (patched payload order))
               (orders st))
            (orders_id_seq st) st)
    else (Returned (_order_to_response (patched payload order)), st).
Proof.
  intros Hfind Hperm. unfold update_order, patched.
  run. rewrite Hfind, Hperm.
  destruct (order_modified order _); run; reflexivity.
Qed.

Lemma customer_not_admin_nor_owner (user : User.t) (order : Order.t) :
  User.role user = UserRole.customer ->
  Order.user_id order <> User.id user ->
  not_admin_nor_owner user order = true.
Proof.
  intros Hrole Hne. unfold not_admin_nor_owner. rewrite Hrole. simpl.
  apply negb_true_iff. apply Z.eqb_neq. exact Hne.
Qed.

Lemma admin_not_restricted (user : User.t) (order : Order.t) :
  User.role user = UserRole.admin -> not_admin_nor_owner user order = false.
Proof. intros Hrole. unfold not_admin_nor_owner. rewrite Hrole. reflexivity. Qed.

(** C3. A customer gets Forbidden from [get_order] and [update_order] on an
    order of another user, the store staying as it was, and [list_orders]
    returns the customer's own orders only; an admin reads, patches and lists
    every order. *)
Theorem customer_scoped_to_own_orders (st : Store) (t : Z) (order_id : Z)
    (order : Order.t) (customer : User.t) :
  User.role customer = UserRole.customer ->
  find (fun o => Z.eqb (Order.id o) order_id) (orders st) = Some order ->
  Order.user_id order <> User.id customer ->
  session_scope (get_order order_id customer) t None st
  = (Raised (HTTPException 403 "Not authorized to view this order"), st)
  /\ (forall payload,
        session_scope (update_order order_id payload customer) t None st
        = (Raised (HTTPException 403 "Not authorized"), st))
  /\ (exists listed,
        session_scope (list_orders customer) t None st = (Returned listed, st)
        /\ ~ In (_order_to_response order) listed
        /\ (forall r, In r listed -> OrderResponse.user_id r = User.id customer)
        /\ (forall o, In o (orders st) -> Order.user_id o = User.id customer ->
              In (_order_to_response o) listed))
  /\ (forall admin, User.role admin = UserRole.admin ->
        (exists history,
           session_scope (get_order order_id admin) t None st
           = (Returned (OrderDetailResponse.mk (_order_to_response order)
                          history), st))
        /\ (forall payload, exists resp st',
              session_scope (update_order order_id payload admin) t None st
              = (Returned resp, st')
              /\ OrderResponse.title resp = Order.title (patched payload order)
              /\ OrderResponse.description resp
                 = Order.description (patched payload order))
        /\ (exists listed,
              session_scope (list_orders admin) t None st
              = (Returned listed, st)
              /\ forall o, In o (orders st) ->
                   In (_order_to_response o) listed)).
Proof.
  intros Hrole Hfind Hne.
  pose proof (customer_not_admin_nor_owner _ _ Hrole Hne) as Hdeny.
  split; [|split; [|split]].
  - unfold get_order. run. rewrite Hfind, Hdeny. reflexivity.
  - intros payload. unfold update_order. run. rewrite Hfind, Hdeny.
    reflexivity.
  - unfold list_orders. rewrite Hrole. run. simpl UserRole.eqb. cbv iota. run.
    eexists. split; [reflexivity|].
    assert (Hown : forall r,
              In r (map _order_to_response
                      (order_by created_at_desc
                         (filter (fun o => Z.eqb (Order.user_id o)
                                             (User.id customer))
                            (orders st)))) ->
              OrderResponse.user_id r = User.id customer).
    { intros r Hin. apply in_map_iff in Hin. destruct Hin as (o & <- & Hin).
      apply In_order_by in Hin. apply filter_In in Hin.
      destruct Hin as [_ Hu]. apply Z.eqb_eq in Hu. exact Hu. }
    split; [|split].
    + intros Hin. apply Hne. exact (Hown _ Hin).
    + exact Hown.
    + intros o Hin Hu. apply in_map. apply In_order_by. apply filter_In.
      split; [exact Hin | apply Z.eqb_eq; exact Hu].
  - intros admin Hadmin.
    pose proof (admin_not_restricted admin order Hadmin) as Hperm.
    split; [|split].
    + unfold get_order. run. rewrite Hfind, Hperm. run.
      eexists. reflexivity.
    + intros payload. rewrite (update_order_run _ _ _ _ _ _ Hfind Hperm).
      destruct (order_modified order (patched payload order));
        eexists _, _; split; [reflexivity | split; reflexivity
                             | reflexivity | split; reflexivity].
    + unfold list_orders. rewrite Hadmin. run. simpl UserRole.eqb. cbv iota.
      run. eexists. split; [reflexivity|].
      intros o Hin. apply in_map. apply In_order_by. apply filter_In.
      split; [exact Hin | reflexivity].
Qed.

Lemma customer_scoped_to_own_orders_witness :
  session_scope (get_order 1 Examples.alice) 20 None Examples.shop
  = (Raised (HTTPException 403 "Not authorized to view this order"),
     Examples.shop).
Proof.
  apply (customer_scoped_to_own_orders Examples.shop 20 1 Examples.widget
           Examples.alice).
  - reflexivity.
  - reflexivity.
  - simpl. lia.
Defined.

(** C8, as amended. [update_order] is a partial patch: on a permitted call a
    null title or description leaves the stored one, a non-null one
    overwrites it, the other fields stay, and [updated_at] becomes the time
    of the request exactly when the title or the description changes. *)
Theorem update_order_partial_patch (st : Store) (t : Z) (order_id : Z)
    (payload : OrderUpdateRequest.t) (user : User.t) (order : Order.t) :
  find (fun o => Z.eqb (Order.id o) order_id) (orders st) = Some order ->
  not_admin_nor_owner user order = false ->
  exists st' order',
    session_scope (update_order order_id payload user) t None st
    = (Returned (_order_to_response order'), st')
    /\ find (fun o => Z.eqb (Order.id o) order_id) (orders st') = Some order'
    /\ Order.title order'
       = match OrderUpdateRequest.title payload with
         | Some v => v
         | None => Order.title order
         end
    /\ Order.description order'
       = match OrderUpdateRequest.description payload with
         | Some v => Some v
         | None => Order.description order
         end
    /\ Order.id order' = Order.id order
    /\ Order.order_number order' = Order.order_number order
    /\ Order.user_id order' = Order.user_id order
    /\ Order.current_status order' = Order.current_status order
    /\ Order.created_at order' = Order.created_at order
    /\ Order.updated_at order'
       = if String.eqb (Order.title order) (Order.title order')
            && option_string_eqb (Order.description order)
                 (Order.description order')
         then Order.updated_at order
         else t.
Proof.
  intros Hfind Hperm.
  destruct (find_by_id _ _ _ Hfind) as [_ Hid].
  rewrite (update_order_run _ _ _ _ _ _ Hfind Hperm).
  assert (Hmod : order_modified order (patched payload order)
                 = negb (String.eqb (Order.title order)
                           (Order.title (patched payload order))
                         && option_string_eqb (Order.description order)
                              (Order.description (patched payload order)))).
  { unfold order_modified. rewrite patched_current_status.
    replace (OrderStatus.eqb (Order.current_status order)
               (Order.current_status order)) with true
      by (symmetry; apply OrderStatus_eqb_eq; reflexivity).
    rewrite andb_true_r. reflexivity. }
  destruct (order_modified order (patched payload order)) eqn:E.
  - exists (with_orders
              (replace_order (Order.set_updated_at t (patched payload order))
                 (orders st))
              (orders_id_seq st) st),
           (Order.set_updated_at t (patched payload order)).
    split; [reflexivity|]. split.
    { cbn [orders with_orders]. rewrite <- Hid.
      rewrite <- (patched_id payload order).
      apply (find_replace_order (orders st)
               (Order.set_updated_at t (patched payload order)) order).
      cbn. rewrite patched_id, Hid. exact Hfind. }
    symmetry in Hmod. apply negb_true_iff in Hmod.
    cbn [Order.title Order.description Order.updated_at Order.set_updated_at].
    rewrite Hmod.
    destruct payload as [[x|] [y|]]; cbn; repeat split; reflexivity.
  - exists st, (patched payload order).
    split; [reflexivity|].
    symmetry in Hmod. apply negb_false_iff in Hmod. rewrite Hmod.
    apply andb_prop in Hmod. destruct Hmod as [Ht Hd].
    apply String.eqb_eq in Ht. apply option_string_eqb_eq in Hd.
    assert (Hsame : patched payload order = order).
    { destruct order; destruct payload as [[x|] [y|]];
        unfold patched, Order.set_description, Order.set_title in *;
        cbn in *; congruence. }
    split; [rewrite Hsame; exact Hfind|].
    destruct payload as [[x|] [y|]]; cbn; repeat split; reflexivity.
Qed.

Lemma update_order_partial_patch_witness :
  exists st' order',
    session_scope
      (update_order 1 (OrderUpdateRequest.mk None (Some "blue")) Examples.bob)
      30 None Examples.shop
    = (Returned (_order_to_response order'), st')
    /\ find (fun o => Z.eqb (Order.id o) 1) (orders st') = Some order'
    /\ Order.title order' = "Widget"
    /\ Order.description order' = Some "blue"
    /\ Order.updated_at order' = 30.
Proof.
  destruct (update_order_partial_patch Examples.shop 30 1
              (OrderUpdateRequest.mk None (Some "blue")) Examples.bob
              Examples.widget eq_refl eq_refl)
    as (st' & order' & Hrun & Hfind & Ht & Hd & _ & _ & _ & _ & _ & Hu).
  exists st', order'.
  split; [exact Hrun|]. split; [exact Hfind|]. split; [exact Ht|].
  split; [exact Hd|].
  rewrite Hu, Ht, Hd. reflexivity.
Defined.

(** C8 as stated fails: a permitted call that changes nothing, here the
    empty patch at time 99 on an order last updated at 10, leaves
    [updated_at] at 10. *)
Lemma update_order_empty_patch_keeps_updated_at :
  exists resp,
    session_scope
      (update_order 1 (OrderUpdateRequest.mk None None) Examples.root)
      99 None Examples.shop
    = (Returned resp, Examples.shop)
    /\ OrderResponse.updated_at resp = 10
    /\ find (fun o => Z.eqb (Order.id o) 1) (orders Examples.shop)
       = Some Examples.widget
    /\ Order.updated_at Examples.widget = 10.
Proof. eexists. repeat split. Qed.

(** ** C5: [create_order] *)




(** ** C9: [upsert_preferences] *)

Lemma find_replace_preference (q : NotificationPreference.t -> bool)
    (l : list NotificationPreference.t) (row pref : NotificationPreference.t) :
  find q l = Some pref -> q row = true ->
  NotificationPreference.id row = NotificationPreference.id pref ->
  find q (replace_preference row l) = Some row.
Proof.
  intros Hfind Hrow Hid.
  induction l as [|x l IH]; simpl in *; [discriminate|].
  destruct (q x) eqn:Hx.
  - injection Hfind as ->. rewrite Hid, Z.eqb_refl, Hrow. reflexivity.
  - destruct (Z.eqb (NotificationPreference.id x)
                (NotificationPreference.id row)).
    + rewrite Hrow. reflexivity.
    + rewrite Hx. apply IH. exact Hfind.
Qed.

Lemma find_app_new {A} (q : A -> bool) (l : list A) (x : A) :
  find q l = None -> q x = true -> find q (l ++ [x]) = Some x.
Proof.
  intros Hnone Hx. induction l as [|y l IH]; simpl in *.
  - rewrite Hx. reflexivity.
  - destruct (q y); [discriminate | auto].
Qed.

Lemma preference_unmodified (pref : NotificationPreference.t) (en : bool)
    (ch : NotificationChannel.t) (em ph pt : option string) :
  preference_modified pref
    (NotificationPreference.set_contact en ch em ph pt pref) = false ->
  NotificationPreference.set_contact en ch em ph pt pref = pref.
Proof.
  unfold preference_modified, NotificationPreference.set_contact.
  destruct pref as [i u e c m p k a]. cbn.
  intros H. apply negb_false_iff in H.
  repeat (apply andb_prop in H; destruct H as [H ?]).
  apply Bool.eqb_prop in H.
  repeat match goal with
         | X : channel_eqb _ _ = true |- _ => apply channel_eqb_eq in X
         | X : option_string_eqb _ _ = true |- _ =>
             apply option_string_eqb_eq in X
         end.
  congruence.
Qed.

Lemma varchar_fits (n : nat) (v : option string) :
  fits n v -> varchar n v = Some v.
Proof.
  destruct v as [s|]; [|reflexivity]. cbn [fits varchar]. intros H.
  apply Nat.leb_le in H. rewrite H. reflexivity.
Qed.

(** C9, as amended. For a phone of at most 32 characters and a push token of
    at most 512, the bounds of their columns, [upsert_preferences] replaces
    every contact field but the email: the stored row takes the request's
    [enabled], [channel], [phone] and [push_token] (null when omitted), and
    keeps its email when the request omits it; a user without a row first
    gets one. *)
Theorem upsert_preferences_replaces_all_but_email (st : Store) (t : Z)
    (payload : NotificationPreferenceUpsertRequest.t) (user : User.t) :
  fits 32 (NotificationPreferenceUpsertRequest.phone payload) ->
  fits 512 (NotificationPreferenceUpsertRequest.push_token payload) ->
  (forall pref,
     find (fun p => Z.eqb (NotificationPreference.user_id p) (User.id user))
       (notification_preferences st) = Some pref ->
     exists st' pref',
       session_scope (upsert_preferences payload user) t None st
       = (Returned (_preference_response pref'), st')
       /\ find (fun p => Z.eqb (NotificationPreference.user_id p)
                           (User.id user))
            (notification_preferences st') = Some pref'
       /\ List.length (notification_preferences st')
          = List.length (notification_preferences st)
       /\ upserted payload (NotificationPreference.email pref) pref')
  /\ (find (fun p => Z.eqb (NotificationPreference.user_id p) (User.id user))
        (notification_preferences st) = None ->
      In user (users st) ->
      exists st' pref',
        session_scope (upsert_preferences payload user) t None st
        = (Returned (_preference_response pref'), st')
        /\ find (fun p => Z.eqb (NotificationPreference.user_id p)
                            (User.id user))
             (notification_preferences st') = Some pref'
        /\ List.length (notification_preferences st')
           = S (List.length (notification_preferences st))
        /\ upserted payload None pref').
Proof.
  intros Hphone Hpush.
  apply varchar_fits in Hphone, Hpush.
  split.
  - intros pref Hfind.
    assert (Hu : NotificationPreference.user_id pref = User.id user).
    { apply find_some in Hfind. apply Z.eqb_eq. tauto. }
    unfold upsert_preferences. run. rewrite Hfind. run.
    match goal with
    | |- context [preference_modified pref ?p1] =>
        destruct (preference_modified pref p1) eqn:E
    end.
    + cbn [NotificationPreference.phone NotificationPreference.push_token
           NotificationPreference.set_contact].
      rewrite Hphone, Hpush.
      eexists _, _. split; [reflexivity|]. split; [|split].
      * cbn [notification_preferences with_preferences].
        apply find_replace_preference with (pref := pref);
          [exact Hfind | cbn; rewrite Hu; apply Z.eqb_refl | reflexivity].
      * cbn [notification_preferences with_preferences].
        unfold replace_preference. apply List.length_map.
      * repeat split; reflexivity.
    + apply preference_unmodified in E.
      exists st, pref. split; [rewrite E; reflexivity|].
      split; [exact Hfind|]. split; [reflexivity|].
      unfold upserted. rewrite <- E.
      unfold NotificationPreference.set_contact. cbn.
      destruct (NotificationPreferenceUpsertRequest.email payload);
        repeat split; reflexivity.
  - intros Hnone Huser.
    unfold upsert_preferences. run. rewrite Hnone.
    rewrite (stored_user_exists _ _ Huser), (find_none_existsb _ _ Hnone).
    cbn [negb]. run.
    set (pref0 := NotificationPreference.mk
                    (notification_preferences_id_seq st) (User.id user) true
                    NotificationChannel.email None None None t).
    assert (Hfind0 : find (fun p => Z.eqb (NotificationPreference.user_id p)
                                      (User.id user))
                       (notification_preferences st ++ [pref0]) = Some pref0).
    { apply find_app_new; [exact Hnone | apply Z.eqb_refl]. }
    match goal with
    | |- context [preference_modified pref0 ?p1] =>
        destruct (preference_modified pref0 p1) eqn:E
    end.
    + cbn [NotificationPreference.phone NotificationPreference.push_token
           NotificationPreference.set_contact].
      rewrite Hphone, Hpush.
      eexists _, _. split; [reflexivity|]. split; [|split].
      * cbn [notification_preferences with_preferences].
        apply find_replace_preference with (pref := pref0);
          [exact Hfind0 | apply Z.eqb_refl | reflexivity].
      * cbn [notification_preferences with_preferences].
        unfold replace_preference. rewrite List.length_map, List.length_app.
        cbn. lia.
      * repeat split; reflexivity.
    + apply preference_unmodified in E.
      eexists _, pref0. split; [rewrite E; reflexivity|].
      split; [exact Hfind0|].
      split; [cbn; rewrite List.length_app; cbn; lia|].
      unfold upserted. rewrite <- E.
      unfold NotificationPreference.set_contact. cbn.
      destruct (NotificationPreferenceUpsertRequest.email payload);
        repeat split; reflexivity.
Qed.

Lemma upsert_preferences_replaces_all_but_email_witness :
  exists st' pref',
    session_scope
      (upsert_preferences
         (NotificationPreferenceUpsertRequest.mk true NotificationChannel.sms
            None (Some "+15550100") None)
         Examples.alice)
      40 None Examples.shop
    = (Returned (_preference_response pref'), st')
    /\ NotificationPreference.email pref' = Some "a@b.com"
    /\ NotificationPreference.phone pref' = Some "+15550100"
    /\ NotificationPreference.push_token pref' = None.
Proof.
  destruct (upsert_preferences_replaces_all_but_email Examples.shop 40
              (NotificationPreferenceUpsertRequest.mk true
                 NotificationChannel.sms None (Some "+15550100") None)
              Examples.alice)
    as [Hexisting _].
  - simpl. lia.
  - simpl. lia.
  - destruct (Hexisting Examples.alice_pref eq_refl)
      as (st' & pref' & Hrun & _ & _ & _ & _ & Hphone & Hpush & Hemail).
    exists st', pref'. split; [exact Hrun|]. split; [exact Hemail|].
    split; [exact Hphone | exact Hpush].
Defined.

(** C9 as stated fails: Alice has a preference row, her request names a
    phone of 41 characters, and the row keeps the phone it had (none): the
    datastore refuses the value for the [String(32)] column and the request
    is rolled back.  The same with a push token of 513 characters, for the
    [String(512)] column. *)
Lemma upsert_preferences_long_phone_not_stored :
  find (fun p => Z.eqb (NotificationPreference.user_id p)
                   (User.id Examples.alice))
    (notification_preferences Examples.shop) = Some Examples.alice_pref
  /\ String.length Examples.long_phone = 41%nat
  /\ session_scope
       (upsert_preferences
          (NotificationPreferenceUpsertRequest.mk true NotificationChannel.sms
             None (Some Examples.long_phone) None)
          Examples.alice)
       40 None Examples.shop
     = (Raised DataError, Examples.shop)
  /\ NotificationPreference.phone Examples.alice_pref
     <> Some Examples.long_phone
  /\ String.length Examples.long_token = 513%nat
  /\ session_scope
       (upsert_preferences
          (NotificationPreferenceUpsertRequest.mk true
             NotificationChannel.push None None (Some Examples.long_token))
          Examples.alice)
       40 None Examples.shop
     = (Raised DataError, Examples.shop)
  /\ NotificationPreference.push_token Examples.alice_pref
     <> Some Examples.long_token.
Proof.
  split; [reflexivity|]. split; [reflexivity|]. split; [reflexivity|].
  split; [discriminate|]. split; [reflexivity|]. split; [reflexivity|].
  intros H. vm_compute in H. discriminate.
Qed.

(** ** C10: [signup] *)

(** C10. Whatever role the request names, [signup] of an unregistered email
    stores the user as a customer and that user's preference row with
    [enabled] true, the email channel and the user's email. *)
Theorem signup_creates_customer_with_default_preference
    (hash_password : string -> string) (st : Store) (t : Z)
    (payload : SignupRequest.t) :
  find (fun u => String.eqb (User.email u) (SignupRequest.email payload))
    (users st) = None ->
  (forall p, In p (notification_preferences st) ->
     NotificationPreference.user_id p < users_id_seq st) ->
  exists resp st',
    session_scope (signup hash_password payload) t None st
    = (Returned resp, st')
    /\ UserPublic.role resp = UserRole.customer
    /\ UserPublic.email resp = SignupRequest.email payload
    /\ users st'
       = users st
         ++ [User.mk (users_id_seq st) (SignupRequest.email payload)
               (hash_password (SignupRequest.password payload))
               UserRole.customer true t]
    /\ notification_preferences st'
       = notification_preferences st
         ++ [NotificationPreference.mk (notification_preferences_id_seq st)
               (users_id_seq st) true NotificationChannel.email
               (Some (SignupRequest.email payload)) None None t].
Proof.
  intros Hnew Hfresh.
  assert (Hnopref : existsb
                      (fun p => Z.eqb (NotificationPreference.user_id p)
                                  (users_id_seq st))
                      (notification_preferences st) = false).
  { apply not_true_is_false. intros H. apply existsb_exists in H.
    destruct H as (p & Hin & Hp). apply Z.eqb_eq in Hp.
    specialize (Hfresh p Hin). lia. }
  unfold signup. run. rewrite Hnew. run.
  rewrite (find_none_existsb _ _ Hnew). run.
  cbn [users with_users notification_preferences User.id].
  rewrite existsb_app. cbn [existsb User.id]. rewrite Z.eqb_refl, orb_true_r.
  cbn [negb]. rewrite Hnopref.
  eexists _, _. split; [reflexivity|]. repeat split.
Qed.

Lemma signup_creates_customer_with_default_preference_witness :
  exists resp st',
    session_scope
      (signup Examples.hash_password
         (SignupRequest.mk "carol@example.com" "correct horse"
            (Some UserRole.admin)))
      50 None Examples.shop
    = (Returned resp, st')
    /\ UserPublic.role resp = UserRole.customer
    /\ notification_preferences st'
       = [Examples.alice_pref;
          NotificationPreference.mk 2 9 true NotificationChannel.email
            (Some "carol@example.com") None None 50].
Proof.
  destruct (signup_creates_customer_with_default_preference
              Examples.hash_password Examples.shop 50
              (SignupRequest.mk "carol@example.com" "correct horse"
                 (Some UserRole.admin)))
    as (resp & st' & Hrun & Hrole & _ & _ & Hprefs).
  - reflexivity.
  - intros p [<-|[]]. cbn. lia.
  - exists resp, st'. split; [exact Hrun|]. split; [exact Hrole|].
    exact Hprefs.
Defined.

(** ** C4: history order of the two lookups *)

Lemma insert_by_sorted {A} (leb : A -> A -> bool) (x : A) (l : list A) :
  (forall a b, leb a b = false -> leb b a = true) ->
  sorted_by leb l = true -> sorted_by leb (insert_by leb x l) = true.
Proof.
  intros Htotal. induction l as [|y l IH]; [reflexivity|].
  intros Hs. cbn [insert_by]. destruct (leb x y) eqn:Hxy.
  - cbn [sorted_by]. cbn [sorted_by] in Hs. rewrite Hxy. exact Hs.
  - destruct l as [|z l].
    + cbn. rewrite (Htotal _ _ Hxy). reflexivity.
    + cbn [sorted_by] in Hs. apply andb_prop in Hs. destruct Hs as [Hyz Hs].
      specialize (IH Hs). cbn [insert_by] in IH |- *.
      destruct (leb x z) eqn:Hxz.
      * change (sorted_by leb (y :: x :: z :: l))
          with (leb y x && sorted_by leb (x :: z :: l)).
        rewrite (Htotal _ _ Hxy). exact IH.
      * change (sorted_by leb (y :: z :: insert_by leb x l))
          with (leb y z && sorted_by leb (z :: insert_by leb x l)).
        rewrite Hyz. exact IH.
Qed.

Lemma order_by_sorted {A} (leb : A -> A -> bool) (l : list A) :
  (forall a b, leb a b = false -> leb b a = true) ->
  sorted_by leb (order_by leb l) = true.
Proof.
  intros Htotal. induction l as [|x l IH]; [reflexivity|].
  cbn [order_by fold_right]. apply insert_by_sorted; assumption.
Qed.

Lemma sorted_by_items (l : list OrderStatusHistory.t) :
  sorted_by item_asc (map _history_item l) = sorted_by changed_at_id_asc l.
Proof.
  induction l as [|x [|y l] IH]; [reflexivity | reflexivity |].
  change (item_asc (_history_item x) (_history_item y)
          && sorted_by item_asc (map _history_item (y :: l))
          = changed_at_id_asc x y && sorted_by changed_at_id_asc (y :: l)).
  rewrite IH. reflexivity.
Qed.

(** The id-based lookup returns the history in [(changed_at, id)] order on
    every store. *)
Lemma get_order_history_sorted (st st' : Store) (t : Z) (fault : option nat)
    (order_id : Z) (user : User.t) (resp : OrderDetailResponse.t) :
  session_scope (get_order order_id user) t fault st = (Returned resp, st') ->
  sorted_by item_asc (OrderDetailResponse.history resp) = true.
Proof.
  unfold get_order.
  split_run; intros [= <- <-]; cbn [OrderDetailResponse.history];
    rewrite sorted_by_items; apply order_by_sorted;
    apply changed_at_id_asc_total.
Qed.

(** C4 fails on the code: on a store whose history heap holds the later
    entry first, [lookup_by_number] returns the history in heap order, not
    in [(changed_at, id)] order, while [get_order] returns the same order's
    history sorted. *)
Theorem lookup_by_number_history_unordered :
  store_inv 20 Examples.reused_heap
  /\ exists by_number by_id,
    session_scope (lookup_by_number "ORD-2" Examples.alice) 30 None
      Examples.reused_heap
    = (Returned by_number, Examples.reused_heap)
    /\ session_scope (get_order 2 Examples.alice) 30 None Examples.reused_heap
       = (Returned by_id, Examples.reused_heap)
    /\ OrderDetailResponse.order by_number = OrderDetailResponse.order by_id
    /\ OrderDetailResponse.history by_number
       = [_history_item Examples.gadget_shipped;
          _history_item Examples.gadget_created]
    /\ OrderDetailResponse.history by_id
       = [_history_item Examples.gadget_created;
          _history_item Examples.gadget_shipped]
    /\ sorted_by item_asc (OrderDetailResponse.history by_number) = false
    /\ sorted_by item_asc (OrderDetailResponse.history by_id) = true.
Proof.
  split.
  - split; [|split; [|split; [|split]]].
    + intros h [<-|[<-|[]]]; cbn; lia.
    + intros h [<-|[<-|[]]]; cbn; lia.
    + intros o [<-|[]]. cbn. lia.
    + cbn. repeat constructor. intros [].
    + apply status_consistent_sound. reflexivity.
  - eexists _, _. repeat split.
Qed.

(** ** C6: the authorization gate *)

(** [int] takes white space around the digits and underscores between
    them, and refuses letters and the separators [str.strip] removes. *)
Example py_int_reads :
  py_int " 42 " = Some 42 /\ py_int "-1_000" = Some (-1000)
  /\ py_int "abc" = None /\ py_int "1__0" = None
  /\ py_int (String (ascii_of_nat 28) "7") = None.
Proof. repeat split. Qed.

Section Gate.

Variable settings : Settings.
Variable jwt_decode : string -> string -> string -> string -> option dict.

(** Without a datastore fault the gate has four outcomes: an active stored
    user, a 401, the [ValueError] of [int] on the subject, or the
    [DataError] of a subject outside the ids' type. *)
Lemma get_current_user_outcomes (credentials : option string) (st : Store)
    (t : Z) :
  match session_scope (get_current_user settings jwt_decode credentials)
          t None st with
  | (Returned u, st') =>
      st' = st /\ In u (users st) /\ User.is_active u = true
  | (Raised (HTTPException code _), st') => st' = st /\ code = 401
  | (Raised e, st') => st' = st /\ (e = ValueError \/ e = DataError)
  end.
Proof.
  unfold get_current_user, decode_token.
  destruct credentials as [token|]; [|cbn; auto].
  destruct (String.eqb token ""); [cbn; auto|].
  run. destruct (String.eqb (jwt_secret settings) ""); [cbn; auto|].
  destruct (jwt_decode token _ _ _) as [payload|]; [|cbn; auto].
  run. destruct (falsy (dict_get "sub" payload)); [cbn; auto|].
  destruct (option_map int (dict_get "sub" payload)) as [[uid|]|];
    [|cbn; auto|cbn; auto].
  run.
  destruct (find (fun u => Z.eqb (User.id u) uid) (users st)) as [u|] eqn:Hu;
    [|destruct (int4 uid); cbn; auto].
  destruct (User.is_active u) eqn:Ha; cbn; [|auto].
  apply find_some in Hu. tauto.
Qed.

(** The three rejections of the gate: no credential, a token that does not
    decode, a subject that names no active user (an id of the users' type
    that no user has, or the id of an inactive user). *)
Lemma get_current_user_rejections (st : Store) (t : Z) :
  session_scope (get_current_user settings jwt_decode None) t None st
  = (Raised (_unauthorized "Not authenticated"), st)
  /\ (forall token,
        token <> "" ->
        jwt_decode token (jwt_secret settings) (jwt_audience settings)
          (jwt_issuer settings) = None ->
        session_scope (get_current_user settings jwt_decode (Some token))
          t None st
        = (Raised (_unauthorized "Invalid token"), st))
  /\ (forall token payload subject uid,
        token <> "" ->
        jwt_secret settings <> "" ->
        jwt_decode token (jwt_secret settings) (jwt_audience settings)
          (jwt_issuer settings) = Some payload ->
        dict_get "sub" payload = Some subject ->
        falsy (Some subject) = false ->
        int subject = Some uid ->
        match find (fun u => Z.eqb (User.id u) uid) (users st) with
        | Some u => User.is_active u = false
        | None => int4 uid = true
        end ->
        session_scope (get_current_user settings jwt_decode (Some token))
          t None st
        = (Raised (_unauthorized "User not found or inactive"), st)).
Proof.
  split; [reflexivity|]. split.
  - intros token Htoken Hdecode. apply String.eqb_neq in Htoken.
    unfold get_current_user, decode_token. rewrite Htoken. run.
    rewrite Hdecode.
    destruct (String.eqb (jwt_secret settings) ""); reflexivity.
  - intros token payload subject uid Htoken Hsecret Hdecode Hsub Hfalsy Hint
      Huser.
    apply String.eqb_neq in Htoken, Hsecret.
    unfold get_current_user, decode_token.
    rewrite Htoken. run. rewrite Hsecret, Hdecode. run.
    rewrite Hsub, Hfalsy. cbn [option_map]. rewrite Hint. run.
    destruct (find (fun u => Z.eqb (User.id u) uid) (users st)) as [u|];
      rewrite Huser; reflexivity.
Qed.

(** C6 fails on the code: a token that verifies and whose subject is a
    non-empty string [int] rejects makes the gate raise [ValueError], which
    is not an Unauthenticated failure. *)
Theorem get_current_user_non_numeric_subject (token : string)
    (payload : dict) (subject : string) (st : Store) (t : Z) :
  token <> "" ->
  jwt_secret settings <> "" ->
  jwt_decode token (jwt_secret settings) (jwt_audience settings)
    (jwt_issuer settings) = Some payload ->
  dict_get "sub" payload = Some (JStr subject) ->
  subject <> "" ->
  py_int subject = None ->
  session_scope (get_current_user settings jwt_decode (Some token)) t None st
  = (Raised ValueError, st).
Proof.
  intros Htoken Hsecret Hdecode Hsub Hsubject Hint.
  apply String.eqb_neq in Htoken, Hsecret, Hsubject.
  unfold get_current_user, decode_token.
  rewrite Htoken. run. rewrite Hsecret, Hdecode. run. rewrite Hsub.
  cbn [falsy option_map int]. rewrite Hsubject, Hint. reflexivity.
Qed.

End Gate.

Lemma get_current_user_non_numeric_subject_witness :
  session_scope
    (get_current_user Examples.settings Examples.jwt_decode
       (Some Examples.abc_token))
    60 None Examples.shop
  = (Raised ValueError, Examples.shop).
Proof.
  apply (get_current_user_non_numeric_subject Examples.settings
           Examples.jwt_decode Examples.abc_token
           [("sub", JStr "abc"); ("role", JStr "customer");
            ("iss", JStr "order-tracker");
            ("aud", JStr "order-tracker-clients"); ("exp", JNum 4102444800)]
           "abc" Examples.shop 60).
  - discriminate.
  - discriminate.
  - reflexivity.
  - reflexivity.
  - discriminate.
  - reflexivity.
Defined.

Section Requests.

Variable settings : Settings.
Variable jwt_decode : string -> string -> string -> string -> option dict.

(** The whole request [POST /orders/{order_id}/status], its dependencies
    resolved on the handler's session, is atomic as well. *)
Lemma update_status_request_atomic (st : Store) (t : Z) (fault : option nat)
    (credentials : option string) (order_id : Z)
    (payload : OrderStatusUpdateRequest.t) :
  match session_scope
          (admin <- require_admin settings jwt_decode credentials ;;
           update_status order_id payload admin)%handler
          t fault st with
  | (Raised _, st') => st' = st
  | (Returned _, st') =>
      exists admin order,
        In admin (users st)
        /\ User.role admin = UserRole.admin
        /\ find (fun o => Z.eqb (Order.id o) order_id) (orders st) = Some order
        /\ st' = status_written st t order payload admin
  end.
Proof.
  unfold require_admin, get_current_user, decode_token, update_status,
    status_written, status_entry.
  destruct credentials as [token|]; [|reflexivity].
  destruct (String.eqb token ""); [reflexivity|].
  repeat (split_run;
          try match goal with
              | |- context [match jwt_decode ?a ?b ?c ?d with _ => _ end] =>
                  destruct (jwt_decode a b c d)
              | |- context [match option_map int ?v with _ => _ end] =>
                  destruct (option_map int v) as [[uid|]|]
              end);
    try reflexivity.
  all: eexists _, _; split; [eapply find_some; eassumption|].
  all: split;
    [apply UserRole_eqb_eq; apply negb_false_iff; assumption|].
  all: split; [reflexivity|].
  all: match goal with H : order_modified _ _ = _ |- _ => rewrite H end.
  all: reflexivity.
Qed.

End Requests.

(** * More of the order store *)

(** ** [ORDER BY] permutes and puts a greatest row last *)

Lemma insert_by_Permutation {A} (leb : A -> A -> bool) (x : A) (l : list A) :
  Permutation (insert_by leb x l) (x :: l).
Proof.
  induction l as [|y l IH]; cbn [insert_by]; [reflexivity|].
  destruct (leb x y); [reflexivity|].
  rewrite IH. apply perm_swap.
Qed.

Lemma order_by_Permutation {A} (leb : A -> A -> bool) (l : list A) :
  Permutation (order_by leb l) l.
Proof.
  induction l as [|x l IH]; [reflexivity|].
  cbn [order_by fold_right]. rewrite insert_by_Permutation.
  constructor. exact IH.
Qed.

Lemma insert_by_before_greatest {A} (leb : A -> A -> bool) (x m : A)
    (l : list A) :
  leb x m = true -> insert_by leb x (l ++ [m]) = insert_by leb x l ++ [m].
Proof.
  intros Hxm. induction l as [|y l IH]; cbn [insert_by app].
  - rewrite Hxm. reflexivity.
  - destruct (leb x y); [reflexivity|]. rewrite IH. reflexivity.
Qed.

Lemma order_by_greatest_last {A} (leb : A -> A -> bool) (m : A) (l : list A) :
  (forall x, In x l -> leb x m = true) ->
  order_by leb (l ++ [m]) = order_by leb l ++ [m].
Proof.
  induction l as [|x l IH]; intros Hle; [reflexivity|].
  cbn [order_by fold_right app].
  change (fold_right (insert_by leb) [] (l ++ [m]))
    with (order_by leb (l ++ [m])).
  rewrite IH by (intros y Hy; apply Hle; right; exact Hy).
  apply insert_by_before_greatest. apply Hle. left. reflexivity.
Qed.

Lemma created_at_desc_total (a b : Order.t) :
  created_at_desc a b = false -> created_at_desc b a = true.
Proof.
  unfold created_at_desc. intros H. apply Z.leb_gt in H. apply Z.leb_le. lia.
Qed.

Lemma sorted_by_responses (l : list Order.t) :
  sorted_by response_created_at_desc (map _order_to_response l)
  = sorted_by created_at_desc l.
Proof.
  induction l as [|x [|y l] IH]; [reflexivity | reflexivity |].
  change (response_created_at_desc (_order_to_response x)
            (_order_to_response y)
          && sorted_by response_created_at_desc
               (map _order_to_response (y :: l))
          = created_at_desc x y && sorted_by created_at_desc (y :: l)).
  rewrite IH. reflexivity.
Qed.

(** ** [delete_order] *)

(** X1. [delete_order] changes nothing when no order has the id: it answers
    404 for an id of the type of [orders.id] and fails with [DataError] for
    one outside it.  Otherwise it removes the order and exactly the history
    entries of that order, leaves users and preferences alone, and a later
    [get_order] of the id answers 404. *)
Theorem delete_order_removes_order_and_history (st : Store) (t : Z)
    (order_id : Z) (admin : User.t) :
  (find (fun o => Z.eqb (Order.id o) order_id) (orders st) = None ->
   session_scope (delete_order order_id admin) t None st
   = (Raised (if int4 order_id then HTTPException 404 "Order not found"
              else DataError), st))
  /\ (forall order,
        find (fun o => Z.eqb (Order.id o) order_id) (orders st) = Some order ->
        exists st',
          session_scope (delete_order order_id admin) t None st
          = (Returned tt, st')
          /\ (forall o, In o (orders st') <->
                        In o (orders st) /\ Order.id o <> order_id)
          /\ (forall h, In h (order_status_history st') <->
                        In h (order_status_history st)
                        /\ OrderStatusHistory.order_id h <> order_id)
          /\ users st' = users st
          /\ notification_preferences st' = notification_preferences st
          /\ forall t' reader,
               int4 order_id = true ->
               session_scope (get_order order_id reader) t' None st'
               = (Raised (HTTPException 404 "Order not found"), st')).
Proof.
  split.
  - intros Hnone. unfold delete_order. run. rewrite Hnone.
    destruct (int4 order_id); reflexivity.
  - intros order Hfind. destruct (find_by_id _ _ _ Hfind) as [_ Hid].
    unfold delete_order. run. rewrite Hfind. run. rewrite Hid.
    eexists. split; [reflexivity|]. cbn [orders order_status_history users
      notification_preferences with_history with_orders].
    split; [|split; [|split; [|split]]]; try reflexivity.
    + intros o. rewrite filter_In, negb_true_iff, Z.eqb_neq. tauto.
    + intros h. rewrite filter_In, negb_true_iff, Z.eqb_neq. tauto.
    + intros t' reader Hint. unfold get_order. run.
      cbn [orders with_history with_orders].
      rewrite (existsb_false_find
                 (fun o => Z.eqb (Order.id o) order_id));
        [rewrite Hint; reflexivity|].
      apply not_true_is_false. intros H. apply existsb_exists in H.
      destruct H as (o & Hin & Ho). apply filter_In in Hin.
      destruct Hin as [_ Hne]. rewrite Ho in Hne. discriminate.
Qed.

Lemma delete_order_removes_order_and_history_witness :
  session_scope (delete_order 2147483648 Examples.root) 30 None
    Examples.backlog
  = (Raised DataError, Examples.backlog)
  /\ exists st',
       session_scope (delete_order 2 Examples.root) 30 None Examples.backlog
       = (Returned tt, st')
       /\ orders st' = [Examples.widget; Examples.gizmo]
       /\ order_status_history st'
          = [Examples.widget_created; Examples.gizmo_created]
       /\ session_scope (get_order 2 Examples.alice) 31 None st'
          = (Raised (HTTPException 404 "Order not found"), st').
Proof.
  split.
  - apply (delete_order_removes_order_and_history Examples.backlog 30
             2147483648 Examples.root).
    reflexivity.
  - destruct (delete_order_removes_order_and_history Examples.backlog 30 2
                Examples.root) as [_ H].
    destruct (H Examples.gadget eq_refl) as (st' & Hrun & _ & _ & _ & _ & Hget).
    exists st'. split; [exact Hrun|].
    split; [cbv in Hrun; injection Hrun as <-; reflexivity|].
    split; [cbv in Hrun; injection Hrun as <-; reflexivity|].
    apply Hget. reflexivity.
Defined.

(** ** [get_order], [lookup_by_number], [list_orders] *)

(** X2. When no order has the id, [get_order] answers 404 for an id of the
    type of [orders.id] and fails with [DataError] for one outside it; a
    permitted caller gets the order with exactly the history entries of that
    order, in [(changed_at, id)] order. *)
Theorem get_order_returns_sorted_history (st : Store) (t : Z) (order_id : Z)
    (user : User.t) :
  (find (fun o => Z.eqb (Order.id o) order_id) (orders st) = None ->
   session_scope (get_order order_id user) t None st
   = (Raised (if int4 order_id then HTTPException 404 "Order not found"
              else DataError), st))
  /\ (forall order,
        find (fun o => Z.eqb (Order.id o) order_id) (orders st) = Some order ->
        not_admin_nor_owner user order = false ->
        exists history,
          session_scope (get_order order_id user) t None st
          = (Returned (OrderDetailResponse.mk (_order_to_response order)
                         history), st)
          /\ sorted_by item_asc history = true
          /\ Permutation history
               (map _history_item
                  (filter (fun h => Z.eqb (OrderStatusHistory.order_id h)
                                      order_id)
                     (order_status_history st)))).
Proof.
  split.
  - intros Hnone. unfold get_order. run. rewrite Hnone.
    destruct (int4 order_id); reflexivity.
  - intros order Hfind Hperm. destruct (find_by_id _ _ _ Hfind) as [_ Hid].
    unfold get_order. run. rewrite Hfind, Hperm. run. rewrite Hid.
    eexists. split; [reflexivity|]. split.
    + rewrite sorted_by_items. apply order_by_sorted.
      apply changed_at_id_asc_total.
    + apply Permutation_map. apply order_by_Permutation.
Qed.

Lemma get_order_returns_sorted_history_witness :
  session_scope (get_order 9 Examples.alice) 30 None Examples.reused_heap
  = (Raised (HTTPException 404 "Order not found"), Examples.reused_heap)
  /\ session_scope (get_order 2147483648 Examples.alice) 30 None
       Examples.reused_heap
     = (Raised DataError, Examples.reused_heap)
  /\ exists history,
       session_scope (get_order 2 Examples.alice) 30 None Examples.reused_heap
       = (Returned (OrderDetailResponse.mk (_order_to_response Examples.gadget)
                      history), Examples.reused_heap)
       /\ sorted_by item_asc history = true.
Proof.
  split; [|split].
  - apply (get_order_returns_sorted_history Examples.reused_heap 30 9
             Examples.alice).
    reflexivity.
  - apply (get_order_returns_sorted_history Examples.reused_heap 30
             2147483648 Examples.alice).
    reflexivity.
  - destruct (get_order_returns_sorted_history Examples.reused_heap 30 2
                Examples.alice) as [_ H].
    destruct (H Examples.gadget eq_refl eq_refl) as (history & Hrun & Hs & _).
    exists history. split; assumption.
Defined.

(** X3. [lookup_by_number] answers 404 when no order has the number and 403,
    changing nothing, to a customer who does not own the order. *)
Theorem lookup_by_number_not_found_or_forbidden (st : Store) (t : Z)
    (order_number : string) (user : User.t) :
  (find (fun o => String.eqb (Order.order_number o) order_number) (orders st)
   = None ->
   session_scope (lookup_by_number order_number user) t None st
   = (Raised (HTTPException 404 "Order not found"), st))
  /\ (forall order,
        find (fun o => String.eqb (Order.order_number o) order_number)
          (orders st) = Some order ->
        User.role user = UserRole.customer ->
        Order.user_id order <> User.id user ->
        session_scope (lookup_by_number order_number user) t None st
        = (Raised (HTTPException 403 "Not authorized to view this order"),
           st)).
Proof.
  split.
  - intros Hnone. unfold lookup_by_number. run. rewrite Hnone. reflexivity.
  - intros order Hfind Hrole Hne. unfold lookup_by_number. run.
    rewrite Hfind, (customer_not_admin_nor_owner _ _ Hrole Hne). reflexivity.
Qed.

Lemma lookup_by_number_not_found_or_forbidden_witness :
  session_scope (lookup_by_number "ORD-7" Examples.alice) 30 None
    Examples.shop
  = (Raised (HTTPException 404 "Order not found"), Examples.shop)
  /\ session_scope (lookup_by_number "ORD-1" Examples.alice) 30 None
       Examples.shop
     = (Raised (HTTPException 403 "Not authorized to view this order"),
        Examples.shop).
Proof.
  split.
  - apply (lookup_by_number_not_found_or_forbidden Examples.shop 30 "ORD-7"
             Examples.alice).
    reflexivity.
  - apply (lookup_by_number_not_found_or_forbidden Examples.shop 30 "ORD-1"
             Examples.alice) with (order := Examples.widget).
    + reflexivity.
    + reflexivity.
    + cbn. lia.
Defined.

(** X4. For an order its number finds and its id finds too, a permitted
    caller gets from [lookup_by_number] the same order as from [get_order]
    and the same history entries, up to their order. *)
Theorem lookup_by_number_same_entries_as_get_order (st : Store) (t : Z)
    (user : User.t) (order : Order.t) :
  find (fun o => String.eqb (Order.order_number o) (Order.order_number order))
    (orders st) = Some order ->
  find (fun o => Z.eqb (Order.id o) (Order.id order)) (orders st)
  = Some order ->
  not_admin_nor_owner user order = false ->
  exists by_number by_id,
    session_scope (lookup_by_number (Order.order_number order) user) t None st
    = (Returned by_number, st)
    /\ session_scope (get_order (Order.id order) user) t None st
       = (Returned by_id, st)
    /\ OrderDetailResponse.order by_number = OrderDetailResponse.order by_id
    /\ Permutation (OrderDetailResponse.history by_number)
         (OrderDetailResponse.history by_id).
Proof.
  intros Hnumber Hid Hperm.
  unfold lookup_by_number, get_order. run.
  rewrite Hnumber, Hid, Hperm. run.
  eexists _, _. split; [reflexivity|]. split; [reflexivity|].
  split; [reflexivity|].
  cbn [OrderDetailResponse.history]. apply Permutation_map.
  symmetry. apply order_by_Permutation.
Qed.

Lemma lookup_by_number_same_entries_as_get_order_witness :
  exists by_number by_id,
    session_scope (lookup_by_number "ORD-2" Examples.alice) 30 None
      Examples.reused_heap
    = (Returned by_number, Examples.reused_heap)
    /\ session_scope (get_order 2 Examples.alice) 30 None Examples.reused_heap
       = (Returned by_id, Examples.reused_heap)
    /\ OrderDetailResponse.order by_number = OrderDetailResponse.order by_id
    /\ Permutation (OrderDetailResponse.history by_number)
         (OrderDetailResponse.history by_id).
Proof.
  apply (lookup_by_number_same_entries_as_get_order Examples.reused_heap 30
           Examples.alice Examples.gadget); reflexivity.
Defined.

(** X5. Whatever [list_orders] returns is sorted by [created_at], newest
    first, and holds every order for an admin and exactly the caller's own
    orders for anyone else; the store is as before. *)
Theorem list_orders_newest_first (st st' : Store) (t : Z)
    (fault : option nat) (user : User.t) (listed : list OrderResponse.t) :
  session_scope (list_orders user) t fault st = (Returned listed, st') ->
  st' = st
  /\ sorted_by response_created_at_desc listed = true
  /\ Permutation listed
       (map _order_to_response
          (if UserRole.eqb (User.role user) UserRole.admin
           then orders st
           else filter (fun o => Z.eqb (Order.user_id o) (User.id user))
                  (orders st))).
Proof.
  unfold list_orders.
  destruct (UserRole.eqb (User.role user) UserRole.admin);
    split_run; intros [= <- <-]; (split; [reflexivity|]); split.
  all: try (rewrite sorted_by_responses; apply order_by_sorted;
            apply created_at_desc_total).
  all: apply Permutation_map; rewrite order_by_Permutation.
  all: try reflexivity.
  all: induction (orders st) as [|o l IH]; cbn; [reflexivity|];
    constructor; exact IH.
Qed.

Lemma list_orders_newest_first_witness :
  session_scope (list_orders Examples.bob) 30 None Examples.backlog
  = (Returned [_order_to_response Examples.gizmo;
               _order_to_response Examples.widget], Examples.backlog)
  /\ sorted_by response_created_at_desc
       [_order_to_response Examples.gizmo; _order_to_response Examples.widget]
     = true
  /\ Permutation
       [_order_to_response Examples.gizmo; _order_to_response Examples.widget]
       (map _order_to_response [Examples.widget; Examples.gizmo]).
Proof.
  split; [reflexivity|].
  apply (list_orders_newest_first Examples.backlog Examples.backlog 30 None
           Examples.bob
           [_order_to_response Examples.gizmo;
            _order_to_response Examples.widget]).
  reflexivity.
Defined.

(** ** How the writes and the reads of the order store compose *)

Lemma no_order_with_id (l : list Order.t) (k : Z) :
  (forall o, In o l -> Order.id o <> k) ->
  find (fun o => Z.eqb (Order.id o) k) l = None.
Proof.
  intros H. apply existsb_false_find. apply not_true_is_false.
  intros E. apply existsb_exists in E. destruct E as (o & Hin & Ho).
  apply Z.eqb_eq in Ho. exact (H o Hin Ho).
Qed.

Lemma no_entry_of_order (l : list OrderStatusHistory.t) (k : Z) :
  (forall h, In h l -> OrderStatusHistory.order_id h <> k) ->
  filter (fun h => Z.eqb (OrderStatusHistory.order_id h) k) l = [].
Proof.
  induction l as [|h l IH]; intros H; [reflexivity|].
  cbn [filter].
  destruct (Z.eqb_spec (OrderStatusHistory.order_id h) k) as [E|E].
  - exfalso. apply (H h); [left; reflexivity | exact E].
  - apply IH. intros h' Hin. apply H. right. exact Hin.
Qed.

Lemma find_app_miss {A} (q : A -> bool) (l l' : list A) :
  find q l = None -> find q (l ++ l') = find q l'.
Proof.
  induction l as [|x l IH]; cbn [find app]; [reflexivity|].
  destruct (q x); [discriminate | exact IH].
Qed.

(** X6. After [create_order] has inserted an order, with the sequences ahead
    of the stored ids, [get_order] by the new id and [lookup_by_number] by
    the new number both return, to the owner or an admin, the created order
    and a history of exactly its creation entry. *)
Theorem create_order_then_read (st : Store) (t t' : Z)
    (payload : OrderCreateRequest.t) (user_id : Z) (admin reader : User.t) :
  existsb (fun o => String.eqb (Order.order_number o)
                      (OrderCreateRequest.order_number payload))
    (orders st) = false ->
  existsb (fun u => Z.eqb (User.id u) user_id) (users st) = true ->
  (forall o, In o (orders st) -> Order.id o <> orders_id_seq st) ->
  (forall h, In h (order_status_history st) ->
     OrderStatusHistory.order_id h <> orders_id_seq st) ->
  User.role reader = UserRole.admin \/ User.id reader = user_id ->
  exists st',
    session_scope (create_order payload user_id admin) t None st
    = (Returned (_order_to_response (new_order st t payload user_id)), st')
    /\ session_scope (get_order (orders_id_seq st) reader) t' None st'
       = (Returned
            (OrderDetailResponse.mk
               (_order_to_response (new_order st t payload user_id))
               [_history_item (creation_entry st t)]), st')
    /\ session_scope
         (lookup_by_number (OrderCreateRequest.order_number payload) reader)
         t' None st'
       = (Returned
            (OrderDetailResponse.mk
               (_order_to_response (new_order st t payload user_id))
               [_history_item (creation_entry st t)]), st').
Proof.
  intros Hfree Howner Hids Hentries Hreader.
  assert (Hperm : not_admin_nor_owner reader (new_order st t payload user_id)
                  = false).
  { unfold not_admin_nor_owner. cbn [new_order Order.user_id].
    destruct Hreader as [-> | <-]; [reflexivity|].
    rewrite Z.eqb_refl. apply andb_false_r. }
  exists (order_created st t payload user_id). split; [|split].
  - unfold create_order. run. rewrite Hfree, Howner.
    cbn [negb orders with_orders Order.id]. rewrite existsb_app.
    cbn [existsb]. rewrite Z.eqb_refl, orb_true_r. reflexivity.
  - unfold get_order. run.
    cbn [orders order_status_history order_created with_history with_orders].
    rewrite (find_app_miss _ _ _ (no_order_with_id _ _ Hids)).
    cbn [find new_order Order.id]. rewrite Z.eqb_refl.
    fold (new_order st t payload user_id). rewrite Hperm. run.
    unfold order_created at 1.
    cbn [new_order Order.id order_status_history with_history].
    rewrite filter_app, (no_entry_of_order _ _ Hentries).
    cbn [filter creation_entry OrderStatusHistory.order_id app].
    rewrite Z.eqb_refl. reflexivity.
  - unfold lookup_by_number. run.
    cbn [orders order_status_history order_created with_history with_orders].
    rewrite (find_app_miss _ _ _ (existsb_false_find _ _ Hfree)).
    cbn [find new_order Order.order_number]. rewrite String.eqb_refl.
    fold (new_order st t payload user_id). rewrite Hperm. run.
    unfold order_created at 1.
    cbn [new_order Order.id order_status_history with_history].
    rewrite filter_app, (no_entry_of_order _ _ Hentries).
    cbn [filter creation_entry OrderStatusHistory.order_id app].
    rewrite Z.eqb_refl. reflexivity.
Qed.

Lemma create_order_then_read_witness :
  exists st',
    session_scope
      (create_order (OrderCreateRequest.mk "ORD-2" "Gadget" None) 7
         Examples.root)
      30 None Examples.shop
    = (Returned
         (OrderResponse.mk 2 "ORD-2" 7 "Gadget" None OrderStatus.created
            30 30), st')
    /\ session_scope (get_order 2 Examples.alice) 31 None st'
       = (Returned
            (OrderDetailResponse.mk
               (OrderResponse.mk 2 "ORD-2" 7 "Gadget" None OrderStatus.created
                  30 30)
               [OrderStatusHistoryItem.mk 2 None OrderStatus.created None
                  None 30]), st').
Proof.
  destruct (create_order_then_read Examples.shop 30 31
              (OrderCreateRequest.mk "ORD-2" "Gadget" None) 7 Examples.root
              Examples.alice)
    as (st' & Hcreate & Hget & _).
  - reflexivity.
  - reflexivity.
  - intros o [<-|[]]. cbn. lia.
  - intros h [<-|[]]. cbn. lia.
  - right. reflexivity.
  - exists st'. split; [exact Hcreate | exact Hget].
Defined.

(** X7. With the history sequence ahead of the stored entry ids and no
    stored entry later than the request, the history [update_status]
    returns is the order's history as [get_order] sorts it, followed by the
    entry just written. *)
Theorem update_status_returns_new_entry_last (st : Store) (t : Z)
    (order_id : Z) (payload : OrderStatusUpdateRequest.t) (admin : User.t)
    (order : Order.t) :
  In admin (users st) ->
  find (fun o => Z.eqb (Order.id o) order_id) (orders st) = Some order ->
  (forall h, In h (order_status_history st) ->
     OrderStatusHistory.id h < order_status_history_id_seq st) ->
  (forall h, In h (order_status_history st) ->
     OrderStatusHistory.changed_at h <= t) ->
  exists resp st',
    session_scope (update_status order_id payload admin) t None st
    = (Returned resp, st')
    /\ OrderDetailResponse.history resp
       = map _history_item
           (order_by changed_at_id_asc
              (filter (fun h => Z.eqb (OrderStatusHistory.order_id h) order_id)
                 (order_status_history st)))
         ++ [_history_item (status_entry st t order payload admin)].
Proof.
  intros Hadmin Hfind Hids Hclock.
  destruct (find_by_id _ _ _ Hfind) as [_ Hid].
  assert (E : existsb (fun x => Z.eqb (Order.id x) (Order.id order))
                (orders st) = true).
  { rewrite Hid. eapply find_some_existsb; eauto. }
  assert (Hlast : forall x,
            In x (filter (fun h => Z.eqb (OrderStatusHistory.order_id h)
                                     order_id)
                    (order_status_history st)) ->
            changed_at_id_asc x (status_entry st t order payload admin)
            = true).
  { intros x Hx. apply filter_In in Hx. destruct Hx as [Hx _].
    apply changed_at_id_asc_later; cbn.
    - apply Hclock. exact Hx.
    - specialize (Hids x Hx). lia. }
  unfold update_status. run. rewrite Hfind.
  destruct (order_modified order _) eqn:Hmod; run;
    cbn [orders with_orders users Order.id Order.set_updated_at
         Order.set_current_status order_status_history with_history];
    rewrite ?existsb_replace_order, E, (stored_user_exists _ _ Hadmin);
    cbn [negb orders with_orders users Order.id Order.set_updated_at
         Order.set_current_status order_status_history with_history].
  - eexists _, _. split; [reflexivity|].
    cbn [OrderDetailResponse.history].
    change (OrderStatusHistory.mk _ _ _ _ _ _ _)
      with (status_entry st t order payload admin).
    rewrite Hid, filter_app. cbn [filter].
    replace (OrderStatusHistory.order_id
               (status_entry st t order payload admin) =? order_id)
      with true by (cbn; rewrite Hid; symmetry; apply Z.eqb_refl).
    rewrite order_by_greatest_last by exact Hlast.
    rewrite map_app. reflexivity.
  - eexists _, _. split; [reflexivity|].
    cbn [OrderDetailResponse.history].
    change (OrderStatusHistory.mk _ _ _ _ _ _ _)
      with (status_entry st t order payload admin).
    rewrite Hid, filter_app. cbn [filter].
    replace (OrderStatusHistory.order_id
               (status_entry st t order payload admin) =? order_id)
      with true by (cbn; rewrite Hid; symmetry; apply Z.eqb_refl).
    rewrite order_by_greatest_last by exact Hlast.
    rewrite map_app. reflexivity.
Qed.

Lemma update_status_returns_new_entry_last_witness :
  exists resp st',
    session_scope
      (update_status 1
         (OrderStatusUpdateRequest.mk OrderStatus.shipped None) Examples.root)
      20 None Examples.shop
    = (Returned resp, st')
    /\ OrderDetailResponse.history resp
       = [_history_item Examples.widget_created;
          OrderStatusHistoryItem.mk 2 (Some OrderStatus.created)
            OrderStatus.shipped (Some 1) None 20].
Proof.
  apply (update_status_returns_new_entry_last Examples.shop 20 1
           (OrderStatusUpdateRequest.mk OrderStatus.shipped None)
           Examples.root Examples.widget).
  - cbn. auto.
  - reflexivity.
  - intros h [<-|[]]. cbn. lia.
  - intros h [<-|[]]. cbn. lia.
Defined.

(** * More of the token service and the auth router *)

(** ** [int(str(n))] *)

Lemma digit_of_digit_char (d : Z) :
  0 <= d < 10 -> digit_of (digit_char d) = Some d.
Proof.
  intros H.
  assert (E : d = 0 \/ d = 1 \/ d = 2 \/ d = 3 \/ d = 4 \/ d = 5 \/ d = 6
              \/ d = 7 \/ d = 8 \/ d = 9) by lia.
  repeat (destruct E as [->|E]; [reflexivity|]). subst. reflexivity.
Qed.

Lemma digit_char_not_space (d : Z) :
  0 <= d < 10 -> is_space (digit_char d) = false.
Proof.
  intros H.
  assert (E : d = 0 \/ d = 1 \/ d = 2 \/ d = 3 \/ d = 4 \/ d = 5 \/ d = 6
              \/ d = 7 \/ d = 8 \/ d = 9) by lia.
  repeat (destruct E as [->|E]; [reflexivity|]). subst. reflexivity.
Qed.

(** Reading the digits [decimal] writes gives the number back. *)
Lemma digits_value_decimal (fuel : nat) :
  forall n acc, 0 <= n < 2 ^ Z.of_nat (S fuel) ->
    exists k, 0 <= k
      /\ forall a flag,
           digits_value a flag (decimal (S fuel) n acc)
           = digits_value (a * 10 ^ (k + 1) + n) true acc.
Proof.
  induction fuel as [|fuel IH]; intros n acc Hn.
  - exists 0. split; [lia|]. intros a flag.
    change (2 ^ Z.of_nat 1) with 2 in Hn.
    cbn [decimal]. replace (n <? 10) with true by (symmetry; apply Z.ltb_lt; lia).
    cbn [digits_value].
    rewrite digit_of_digit_char by (apply Z.mod_pos_bound; lia).
    rewrite Z.mod_small by lia. f_equal.
      change (10 ^ (0 + 1)) with 10. lia.
  - change (decimal (S (S fuel)) n acc)
      with (if n <? 10 then digit_char (n mod 10) :: acc
            else decimal (S fuel) (n / 10) (digit_char (n mod 10) :: acc)).
    destruct (Z.ltb_spec n 10) as [Hlt|Hge].
    + exists 0. split; [lia|]. intros a flag. cbn [digits_value].
      rewrite digit_of_digit_char by (apply Z.mod_pos_bound; lia).
      rewrite Z.mod_small by lia. f_equal.
      change (10 ^ (0 + 1)) with 10. lia.
    + assert (Hq : 0 <= n / 10 < 2 ^ Z.of_nat (S fuel)).
      { split; [apply Z.div_pos; lia|].
        apply Z.div_lt_upper_bound; [lia|].
        rewrite (Nat2Z.inj_succ (S fuel)), Z.pow_succ_r in Hn by lia. lia. }
      destruct (IH (n / 10) (digit_char (n mod 10) :: acc) Hq)
        as (k & Hk & Hread).
      exists (k + 1). split; [lia|]. intros a flag.
      rewrite Hread. cbn [digits_value].
      rewrite digit_of_digit_char by (apply Z.mod_pos_bound; lia).
      f_equal. rewrite (Z.pow_add_r 10 (k + 1) 1) by lia.
      pose proof (Z.div_mod n 10 ltac:(lia)). change (10 ^ 1) with 10.
      lia.
Qed.

Lemma decimal_not_space (fuel : nat) :
  forall n acc, 0 <= n ->
    Forall (fun c => is_space c = false) acc ->
    Forall (fun c => is_space c = false) (decimal fuel n acc).
Proof.
  induction fuel as [|fuel IH]; intros n acc Hn Hacc; [exact Hacc|].
  cbn [decimal].
  assert (Hacc' : Forall (fun c => is_space c = false)
                    (digit_char (n mod 10) :: acc)).
  { constructor; [|exact Hacc].
    apply digit_char_not_space. apply Z.mod_pos_bound. lia. }
  destruct (n <? 10); [exact Hacc'|].
  apply IH; [apply Z.div_pos; lia | exact Hacc'].
Qed.

Lemma decimal_starts_with_digit (fuel : nat) :
  forall n acc, 0 <= n ->
    exists d rest, 0 <= d < 10
      /\ decimal (S fuel) n acc = digit_char d :: rest.
Proof.
  induction fuel as [|fuel IH]; intros n acc Hn.
  - exists (n mod 10). cbn [decimal].
    destruct (n <? 10); eexists; (split; [apply Z.mod_pos_bound; lia|]);
      reflexivity.
  - change (decimal (S (S fuel)) n acc)
      with (if n <? 10 then digit_char (n mod 10) :: acc
            else decimal (S fuel) (n / 10) (digit_char (n mod 10) :: acc)).
    destruct (n <? 10).
    + exists (n mod 10), acc. split; [apply Z.mod_pos_bound; lia|].
      reflexivity.
    + apply IH. apply Z.div_pos; lia.
Qed.

Lemma Py_ISSPACE_is_space (c : ascii) :
  is_space c = false -> Py_ISSPACE c = false.
Proof.
  unfold is_space, Py_ISSPACE. intros H.
  apply orb_false_iff in H. destruct H as [H1 H2]. rewrite H1. cbn [orb].
  apply Nat.eqb_neq. intros E. rewrite E in H2. discriminate.
Qed.

Lemma skip_space_no_space (l : list ascii) :
  Forall (fun c => is_space c = false) l ->
  rev (skip_space (rev (skip_space l))) = l.
Proof.
  intros H.
  assert (Hl : forall l', Forall (fun c => is_space c = false) l' ->
                 skip_space l' = l').
  { intros l' Hl'. destruct Hl' as [|c l' Hc _]; [reflexivity|].
    cbn [skip_space]. rewrite (Py_ISSPACE_is_space c Hc). reflexivity. }
  rewrite (Hl l H).
  rewrite Hl by (apply Forall_rev; exact H).
  apply rev_involutive.
Qed.

Lemma log2_fuel (n : Z) :
  0 <= n -> 0 <= n < 2 ^ Z.of_nat (S (Z.to_nat (Z.log2 n))).
Proof.
  intros Hn. split; [exact Hn|].
  rewrite Nat2Z.inj_succ, Z2Nat.id by apply Z.log2_nonneg.
  destruct (Z.eq_dec n 0) as [->|Hne]; [cbn; lia|].
  apply Z.log2_spec. lia.
Qed.

Lemma unsigned_digits (d : Z) (rest : list ascii) :
  0 <= d < 10 ->
  match digit_char d :: rest with
  | "-"%char :: l => option_map Z.opp (digits_value 0 false l)
  | "+"%char :: l => digits_value 0 false l
  | l => digits_value 0 false l
  end
  = digits_value 0 false (digit_char d :: rest).
Proof.
  intros H.
  assert (E : d = 0 \/ d = 1 \/ d = 2 \/ d = 3 \/ d = 4 \/ d = 5 \/ d = 6
              \/ d = 7 \/ d = 8 \/ d = 9) by lia.
  repeat (destruct E as [->|E]; [reflexivity|]). subst. reflexivity.
Qed.

Lemma py_str_read (n : Z) : py_int (py_str n) = Some n /\ py_str n <> "".
Proof.
  unfold py_int, py_str. destruct (Z.ltb_spec n 0) as [Hneg|Hpos].
  - split; [|discriminate].
    cbn [list_ascii_of_string]. rewrite list_ascii_of_string_of_list_ascii.
    rewrite skip_space_no_space
      by (constructor; [reflexivity|];
          apply decimal_not_space; [lia | constructor]).
    destruct (digits_value_decimal _ (- n) [] (log2_fuel (- n) ltac:(lia)))
      as (k & _ & Hread).
    rewrite Hread. cbn [digits_value option_map]. f_equal; lia.
  - destruct (decimal_starts_with_digit (Z.to_nat (Z.log2 n)) n [] Hpos)
      as (d & rest & Hd & Hshape).
    split.
    + rewrite list_ascii_of_string_of_list_ascii.
      rewrite skip_space_no_space
        by (apply decimal_not_space; [lia|constructor]).
      rewrite Hshape, (unsigned_digits d rest Hd), <- Hshape.
      destruct (digits_value_decimal _ n [] (log2_fuel n Hpos))
        as (k & _ & Hread).
      rewrite Hread. cbn [digits_value]. f_equal; lia.
    + rewrite Hshape. discriminate.
Qed.

(** X8. [int(str(n)) == n] for every integer [n], and [str(n)] is never the
    empty string. *)
Theorem py_int_py_str (n : Z) : py_int (py_str n) = Some n /\ py_str n <> "".
Proof. exact (py_str_read n). Qed.

(** ** The gate, [signup], [login] and [me] *)

Section AuthRouter.

Variable settings : Settings.
Variable jwt_decode : string -> string -> string -> string -> option dict.
Variable jwt_encode : dict -> string -> string.
Variable verify_password : string -> string -> bool.
Variable hash_password : string -> string.
Variable timestamp : Z -> Z.

(** X9. [require_admin] returns only stored, active users whose role is
    admin, and changes nothing; when the credential resolves to a user of
    another role, the request answers 403 and the guarded handler is not
    run. *)
Theorem require_admin_admits_admins_only (credentials : option string)
    (st : Store) (t : Z) :
  (forall fault u st',
     session_scope (require_admin settings jwt_decode credentials) t fault st
     = (Returned u, st') ->
     st' = st /\ In u (users st) /\ User.is_active u = true
     /\ User.role u = UserRole.admin)
  /\ (forall u (A : Type) (handler : User.t -> M A),
        session_scope (get_current_user settings jwt_decode credentials)
          t None st = (Returned u, st) ->
        User.role u <> UserRole.admin ->
        session_scope
          (admin <- require_admin settings jwt_decode credentials ;;
           handler admin)%handler t None st
        = (Raised (HTTPException 403 "Admin role required"), st)).
Proof.
  split.
  - intros fault u st'.
    unfold require_admin, get_current_user, decode_token.
    destruct credentials as [token|]; [|cbn; discriminate].
    destruct (String.eqb token ""); [cbn; discriminate|].
    gate_cases jwt_decode; intros [= <- <-].
    all: repeat split;
      try (eapply find_some; eassumption);
      try (apply negb_false_iff; assumption);
      try (apply UserRole_eqb_eq; apply negb_false_iff; assumption).
  - intros u A handler.
    unfold require_admin, get_current_user, decode_token.
    destruct credentials as [token|]; [|cbn; discriminate].
    destruct (String.eqb token ""); [cbn; discriminate|].
    gate_cases jwt_decode; intros [= <-] Hrole; try reflexivity.
    all: exfalso; apply Hrole; apply UserRole_eqb_eq;
      match goal with
      | H : negb (UserRole.eqb _ _) = false |- _ =>
          apply negb_false_iff in H; exact H
      end.
Qed.

(** X10. [signup] of a registered email answers 409 and stores nothing; and
    once a signup has succeeded, every later signup with that email, whatever
    its password and role, is refused the same way. *)
Theorem signup_refuses_registered_email (st : Store) (t : Z)
    (payload : SignupRequest.t) :
  (forall u,
     find (fun u => String.eqb (User.email u) (SignupRequest.email payload))
       (users st) = Some u ->
     session_scope (signup hash_password payload) t None st
     = (Raised (HTTPException 409 "Email already registered"), st))
  /\ (find (fun u => String.eqb (User.email u) (SignupRequest.email payload))
        (users st) = None ->
      (forall p, In p (notification_preferences st) ->
         NotificationPreference.user_id p < users_id_seq st) ->
      exists resp st',
        session_scope (signup hash_password payload) t None st
        = (Returned resp, st')
        /\ forall t2 payload2,
             SignupRequest.email payload2 = SignupRequest.email payload ->
             session_scope (signup hash_password payload2) t2 None st'
             = (Raised (HTTPException 409 "Email already registered"), st')).
Proof.
  split.
  - intros u Hfound. unfold signup. run. rewrite Hfound. reflexivity.
  - intros Hnew Hfresh.
    assert (Hnopref : existsb
                        (fun p => Z.eqb (NotificationPreference.user_id p)
                                    (users_id_seq st))
                        (notification_preferences st) = false).
    { apply not_true_is_false. intros H. apply existsb_exists in H.
      destruct H as (p & Hin & Hp). apply Z.eqb_eq in Hp.
      specialize (Hfresh p Hin). lia. }
    unfold signup at 1. run. rewrite Hnew. run.
    rewrite (find_none_existsb _ _ Hnew). run.
    cbn [users with_users notification_preferences User.id].
    rewrite existsb_app. cbn [existsb User.id].
    rewrite Z.eqb_refl, orb_true_r. cbn [negb]. rewrite Hnopref.
    eexists _, _. split; [reflexivity|].
    intros t2 payload2 Hsame. unfold signup. run.
    cbn [users with_preferences with_users]. rewrite Hsame.
    rewrite (find_app_miss _ _ _ Hnew). cbn [find User.email].
    rewrite String.eqb_refl. reflexivity.
Qed.

(** X11. [login] answers 401 with one and the same detail when no user has
    the email, when the user is inactive and when the password does not
    verify, and changes nothing. *)
Theorem login_rejects_bad_credentials (st : Store) (t utc_now : Z)
    (payload : LoginRequest.t) :
  match find (fun u => String.eqb (User.email u) (LoginRequest.email payload))
          (users st) with
  | None => True
  | Some u =>
      User.is_active u = false
      \/ verify_password (LoginRequest.password payload)
           (User.password_hash u) = false
  end ->
  session_scope
    (login settings jwt_encode verify_password timestamp utc_now payload)
    t None st
  = (Raised (HTTPException 401 "Invalid credentials"), st).
Proof.
  unfold login. run.
  destruct (find _ (users st)) as [u|]; [|reflexivity].
  intros [Hu|Hp].
  - rewrite Hu. reflexivity.
  - rewrite Hp. destruct (User.is_active u); reflexivity.
Qed.

Lemma login_run (st : Store) (t utc_now : Z) (payload : LoginRequest.t)
    (u : User.t) :
  jwt_secret settings <> "" ->
  find (fun u => String.eqb (User.email u) (LoginRequest.email payload))
    (users st) = Some u ->
  User.is_active u = true ->
  verify_password (LoginRequest.password payload) (User.password_hash u)
  = true ->
  session_scope
    (login settings jwt_encode verify_password timestamp utc_now payload)
    t None st
  = (Returned
       (TokenResponse.mk
          (jwt_encode (login_claims settings timestamp utc_now u)
             (jwt_secret settings))
          "bearer"), st).
Proof.
  intros Hsecret Hfound Hactive Hpw. apply String.eqb_neq in Hsecret.
  unfold login, create_access_token, login_claims. run.
  rewrite Hfound, Hactive, Hpw. cbn [negb]. rewrite Hsecret. reflexivity.
Qed.

(** X12. [login] of an active user with the right password returns a bearer
    token over the user's id and role; when that token verifies with the
    claims that were signed and the id finds the user, [get_current_user]
    resolves it to that user and [me] returns the user's public profile. *)
Theorem login_token_resolves_to_user (st : Store) (t t' utc_now : Z)
    (payload : LoginRequest.t) (u : User.t) :
  let claims := login_claims settings timestamp utc_now u in
  let token := jwt_encode claims (jwt_secret settings) in
  jwt_secret settings <> "" ->
  find (fun u => String.eqb (User.email u) (LoginRequest.email payload))
    (users st) = Some u ->
  User.is_active u = true ->
  verify_password (LoginRequest.password payload) (User.password_hash u)
  = true ->
  find (fun x => Z.eqb (User.id x) (User.id u)) (users st) = Some u ->
  token <> "" ->
  jwt_decode token (jwt_secret settings) (jwt_audience settings)
    (jwt_issuer settings) = Some claims ->
  session_scope
    (login settings jwt_encode verify_password timestamp utc_now payload)
    t None st
  = (Returned (TokenResponse.mk token "bearer"), st)
  /\ session_scope (get_current_user settings jwt_decode (Some token))
       t' None st
     = (Returned u, st)
  /\ session_scope
       (user <- get_current_user settings jwt_decode (Some token) ;;
        me user)%handler t' None st
     = (Returned (UserPublic.mk (User.id u) (User.email u) (User.role u)
                    (User.created_at u)), st).
Proof.
  intros claims token Hsecret Hfound Hactive Hpw Hid Htoken Hdecode.
  split; [apply login_run; assumption|].
  apply String.eqb_neq in Hsecret, Htoken.
  destruct (py_str_read (User.id u)) as [Hint Hne].
  apply String.eqb_neq in Hne.
  unfold get_current_user, decode_token, me.
  rewrite Htoken. run. rewrite Hsecret, Hdecode. run.
  cbn [claims login_claims dict_get String.eqb Ascii.eqb Bool.eqb].
  cbn [falsy option_map int]. rewrite Hne, Hint. run.
  rewrite Hid, Hactive. split; reflexivity.
Qed.

(** X13. No read changes the committed store, whatever round trip fails:
    not the gate, [require_admin], [me] or [login], nor [get_order],
    [lookup_by_number], [list_orders] or [get_preferences]. *)
Theorem reads_never_write (st : Store) (t : Z) (fault : option nat)
    (credentials : option string) (user : User.t) :
  snd (session_scope (get_current_user settings jwt_decode credentials)
         t fault st) = st
  /\ snd (session_scope (require_admin settings jwt_decode credentials)
            t fault st) = st
  /\ snd (session_scope (me user) t fault st) = st
  /\ (forall utc_now payload,
        snd (session_scope
               (login settings jwt_encode verify_password timestamp utc_now
                  payload)
               t fault st) = st)
  /\ (forall order_id,
        snd (session_scope (get_order order_id user) t fault st) = st)
  /\ (forall order_number,
        snd (session_scope (lookup_by_number order_number user) t fault st)
        = st)
  /\ snd (session_scope (list_orders user) t fault st) = st
  /\ snd (session_scope (get_preferences user) t fault st) = st.
Proof.
  unfold require_admin, get_current_user, decode_token, me, login,
    create_access_token, get_order, lookup_by_number, list_orders,
    get_preferences.
  repeat split; intros;
    try (destruct credentials as [token|]; [|reflexivity];
         destruct (String.eqb token ""); [reflexivity|]);
    gate_cases jwt_decode; reflexivity.
Qed.

(** ** Without [JWT_SECRET] *)

Lemma empty_secret_blocks_authentication (st : Store) (t : Z) :
  jwt_secret settings = "" ->
  (forall credentials, exists detail,
     session_scope (get_current_user settings jwt_decode credentials)
       t None st
     = (Raised (HTTPException 401 detail), st))
  /\ (forall utc_now payload u,
        find (fun u => String.eqb (User.email u) (LoginRequest.email payload))
          (users st) = Some u ->
        User.is_active u = true ->
        verify_password (LoginRequest.password payload) (User.password_hash u)
        = true ->
        session_scope
          (login settings jwt_encode verify_password timestamp utc_now
             payload)
          t None st
        = (Raised RuntimeError, st)).
Proof.
  intros Hsecret. split.
  - intros credentials. unfold get_current_user, decode_token.
    rewrite Hsecret.
    destruct credentials as [token|]; [|eexists; reflexivity].
    destruct (String.eqb token ""); eexists; reflexivity.
  - intros utc_now payload u Hfound Hactive Hpw.
    unfold login, create_access_token. run.
    rewrite Hfound, Hactive, Hpw, Hsecret. reflexivity.
Qed.

End AuthRouter.

(** X14. When the environment sets no [JWT_SECRET] nobody authenticates:
    with the settings [get_settings] loads, the gate answers 401 to every
    credential, and [login] raises [RuntimeError] for an active user with
    the right password. *)
Theorem missing_JWT_SECRET_blocks_authentication
    (env : string -> option string) (s : Config.Settings)
    (jwt_decode : string -> string -> string -> string -> option dict)
    (jwt_encode : dict -> string -> string)
    (verify_password : string -> string -> bool) (timestamp : Z -> Z)
    (st : Store) (t : Z) :
  env "JWT_SECRET" = None ->
  get_settings env = Returned s ->
  (forall credentials, exists detail,
     session_scope
       (get_current_user (token_settings s) jwt_decode credentials) t None st
     = (Raised (HTTPException 401 detail), st))
  /\ (forall utc_now payload u,
        find (fun u => String.eqb (User.email u) (LoginRequest.email payload))
          (users st) = Some u ->
        User.is_active u = true ->
        verify_password (LoginRequest.password payload) (User.password_hash u)
        = true ->
        session_scope
          (login (token_settings s) jwt_encode verify_password timestamp
             utc_now payload)
          t None st
        = (Raised RuntimeError, st)).
Proof.
  intros Henv Hs. apply empty_secret_blocks_authentication.
  unfold get_settings in Hs.
  destruct (py_int (getenv env "CORS_MAX_AGE" "3600")); [|discriminate].
  destruct (py_int (getenv env "ACCESS_TOKEN_EXP_MINUTES" "60"));
    [|discriminate].
  injection Hs as <-. cbn. unfold getenv. rewrite Henv. reflexivity.
Qed.

Lemma missing_JWT_SECRET_blocks_authentication_witness :
  get_settings Examples.env = Returned Examples.loaded
  /\ session_scope
       (login (token_settings Examples.loaded) Examples.jwt_encode
          Examples.verify_password Examples.timestamp 100000000
          (LoginRequest.mk "bob@example.com" "bob"))
       30 None Examples.shop
     = (Raised RuntimeError, Examples.shop).
Proof.
  split; [reflexivity|].
  apply (missing_JWT_SECRET_blocks_authentication Examples.env
           Examples.loaded Examples.service_decode Examples.jwt_encode
           Examples.verify_password Examples.timestamp Examples.shop 30
           eq_refl eq_refl)
    with (u := Examples.bob); reflexivity.
Defined.

Lemma require_admin_admits_admins_only_witness :
  session_scope
    (admin <- require_admin Examples.settings Examples.service_decode
                (Some "header.sub-8.signature") ;;
     delete_order 1 admin)%handler 30 None Examples.shop
  = (Raised (HTTPException 403 "Admin role required"), Examples.shop).
Proof.
  apply (require_admin_admits_admins_only Examples.settings
           Examples.service_decode (Some "header.sub-8.signature")
           Examples.shop 30)
    with (u := Examples.bob).
  - reflexivity.
  - discriminate.
Defined.

Lemma signup_refuses_registered_email_witness :
  session_scope
    (signup Examples.hash_password
       (SignupRequest.mk "bob@example.com" "another one" None))
    30 None Examples.shop
  = (Raised (HTTPException 409 "Email already registered"), Examples.shop).
Proof.
  apply (signup_refuses_registered_email Examples.hash_password Examples.shop
           30 (SignupRequest.mk "bob@example.com" "another one" None))
    with (u := Examples.bob).
  reflexivity.
Defined.

Lemma login_rejects_bad_credentials_witness :
  session_scope
    (login Examples.settings Examples.jwt_encode Examples.verify_password
       Examples.timestamp 100000000
       (LoginRequest.mk "bob@example.com" "not bob"))
    30 None Examples.shop
  = (Raised (HTTPException 401 "Invalid credentials"), Examples.shop).
Proof.
  apply (login_rejects_bad_credentials Examples.settings Examples.jwt_encode
           Examples.verify_password Examples.timestamp Examples.shop 30
           100000000 (LoginRequest.mk "bob@example.com" "not bob")).
  right. reflexivity.
Defined.

Lemma login_token_resolves_to_user_witness :
  session_scope
    (login Examples.settings Examples.jwt_encode Examples.verify_password
       Examples.timestamp 100000000 (LoginRequest.mk "bob@example.com" "bob"))
    30 None Examples.shop
  = (Returned (TokenResponse.mk "header.sub-8.signature" "bearer"),
     Examples.shop)
  /\ session_scope
       (get_current_user Examples.settings Examples.service_decode
          (Some "header.sub-8.signature"))
       31 None Examples.shop
     = (Returned Examples.bob, Examples.shop).
Proof.
  destruct (login_token_resolves_to_user Examples.settings
              Examples.service_decode Examples.jwt_encode
              Examples.verify_password Examples.timestamp Examples.shop 30 31
              100000000 (LoginRequest.mk "bob@example.com" "bob")
              Examples.bob)
    as (Hlogin & Hgate & _).
  - discriminate.
  - reflexivity.
  - reflexivity.
  - reflexivity.
  - reflexivity.
  - discriminate.
  - reflexivity.
  - split; [exact Hlogin | exact Hgate].
Defined.

(** * More of the preference store *)

Lemma upsert_preferences_run (st : Store) (t : Z)
    (payload : NotificationPreferenceUpsertRequest.t) (user : User.t) :
  fits 32 (NotificationPreferenceUpsertRequest.phone payload) ->
  fits 512 (NotificationPreferenceUpsertRequest.push_token payload) ->
  (exists pref,
     find (fun p => Z.eqb (NotificationPreference.user_id p) (User.id user))
       (notification_preferences st) = Some pref)
  \/ In user (users st) ->
  exists st' pref',
    session_scope (upsert_preferences payload user) t None st
    = (Returned (_preference_response pref'), st')
    /\ find (fun p => Z.eqb (NotificationPreference.user_id p) (User.id user))
         (notification_preferences st') = Some pref'.
Proof.
  intros Hphone Hpush Hcase.
  apply varchar_fits in Hphone, Hpush.
  destruct (find (fun p => Z.eqb (NotificationPreference.user_id p)
                             (User.id user))
              (notification_preferences st)) as [pref|] eqn:Hfind.
  - assert (Hu : NotificationPreference.user_id pref = User.id user).
    { apply find_some in Hfind. apply Z.eqb_eq. tauto. }
    unfold upsert_preferences. run. rewrite Hfind. run.
    match goal with
    | |- context [preference_modified pref ?p1] =>
        destruct (preference_modified pref p1) eqn:E
    end.
    + cbn [NotificationPreference.phone NotificationPreference.push_token
           NotificationPreference.set_contact].
      rewrite Hphone, Hpush.
      eexists _, _. split; [reflexivity|].
      cbn [notification_preferences with_preferences].
      apply find_replace_preference with (pref := pref);
        [exact Hfind | cbn; rewrite Hu; apply Z.eqb_refl | reflexivity].
    + apply preference_unmodified in E.
      exists st, pref. split; [rewrite E; reflexivity | exact Hfind].
  - destruct Hcase as [(pref & Hp)|Huser]; [discriminate|].
    unfold upsert_preferences. run. rewrite Hfind.
    rewrite (stored_user_exists _ _ Huser), (find_none_existsb _ _ Hfind).
    cbn [negb]. run.
    set (pref0 := NotificationPreference.mk
                    (notification_preferences_id_seq st) (User.id user) true
                    NotificationChannel.email None None None t).
    assert (Hfind0 : find (fun p => Z.eqb (NotificationPreference.user_id p)
                                      (User.id user))
                       (notification_preferences st ++ [pref0]) = Some pref0).
    { apply find_app_new; [exact Hfind | apply Z.eqb_refl]. }
    match goal with
    | |- context [preference_modified pref0 ?p1] =>
        destruct (preference_modified pref0 p1) eqn:E
    end.
    + cbn [NotificationPreference.phone NotificationPreference.push_token
           NotificationPreference.set_contact].
      rewrite Hphone, Hpush.
      eexists _, _. split; [reflexivity|].
      cbn [notification_preferences with_preferences].
      apply find_replace_preference with (pref := pref0);
        [exact Hfind0 | apply Z.eqb_refl | reflexivity].
    + apply preference_unmodified in E.
      eexists _, pref0. split; [rewrite E; reflexivity | exact Hfind0].
Qed.

(** X15. [get_preferences] answers 404 to a user without a preference row;
    and for a phone of at most 32 characters and a push token of at most
    512, the bounds of their columns, what [upsert_preferences] returns to a
    user is what that user's next [get_preferences] returns. *)
Theorem upsert_then_get_preferences (st : Store) (t t' : Z)
    (payload : NotificationPreferenceUpsertRequest.t) (user : User.t) :
  (find (fun p => Z.eqb (NotificationPreference.user_id p) (User.id user))
     (notification_preferences st) = None ->
   session_scope (get_preferences user) t None st
   = (Raised (HTTPException 404 "Notification preferences not found"), st))
  /\ (fits 32 (NotificationPreferenceUpsertRequest.phone payload) ->
      fits 512 (NotificationPreferenceUpsertRequest.push_token payload) ->
      (exists pref,
         find (fun p => Z.eqb (NotificationPreference.user_id p)
                          (User.id user))
           (notification_preferences st) = Some pref)
      \/ In user (users st) ->
      exists resp st',
        session_scope (upsert_preferences payload user) t None st
        = (Returned resp, st')
        /\ session_scope (get_preferences user) t' None st'
           = (Returned resp, st')).
Proof.
  split.
  - intros Hnone. unfold get_preferences. run. rewrite Hnone. reflexivity.
  - intros Hphone Hpush Hcase.
    destruct (upsert_preferences_run st t payload user Hphone Hpush Hcase)
      as (st' & pref' & Hrun & Hfind).
    exists (_preference_response pref'), st'. split; [exact Hrun|].
    unfold get_preferences. run. rewrite Hfind. reflexivity.
Qed.

Lemma upsert_then_get_preferences_witness :
  session_scope (get_preferences Examples.bob) 40 None Examples.shop
  = (Raised (HTTPException 404 "Notification preferences not found"),
     Examples.shop)
  /\ exists resp st',
       session_scope
         (upsert_preferences
            (NotificationPreferenceUpsertRequest.mk false
               NotificationChannel.push None None (Some "device"))
            Examples.bob)
         40 None Examples.shop
       = (Returned resp, st')
       /\ session_scope (get_preferences Examples.bob) 41 None st'
          = (Returned resp, st').
Proof.
  destruct (upsert_then_get_preferences Examples.shop 40 41
              (NotificationPreferenceUpsertRequest.mk false
                 NotificationChannel.push None None (Some "device"))
              Examples.bob) as [Hmissing Hround].
  split.
  - apply Hmissing. reflexivity.
  - apply Hround.
    + simpl. lia.
    + simpl. lia.
    + right. simpl. auto.
Defined.

(** Beyond the bound the two differ: of a phone of 34 characters whose last
    two are spaces the datastore stores the first 32, while the response of
    the upsert carries all 34. *)
Example upsert_preferences_padded_phone_cut :
  exists resp st' resp',
    session_scope
      (upsert_preferences
         (NotificationPreferenceUpsertRequest.mk true NotificationChannel.sms
            None (Some Examples.padded_phone) None)
         Examples.alice)
      40 None Examples.shop
    = (Returned resp, st')
    /\ session_scope (get_preferences Examples.alice) 41 None st'
       = (Returned resp', st')
    /\ NotificationPreferenceResponse.phone resp = Some Examples.padded_phone
    /\ NotificationPreferenceResponse.phone resp'
       = Some "+1 (555) 010-0199 extension 4821".
Proof. eexists _, _, _. repeat split. Qed.

(** * [signup], then the rest *)

Section AfterSignup.

Variable settings : Settings.
Variable jwt_encode : dict -> string -> string.
Variable verify_password : string -> string -> bool.
Variable hash_password : string -> string.
Variable timestamp : Z -> Z.

(** X16. After a successful [signup], with hashes that verify against their
    password, the new user logs in with the email and password of the
    signup, and the user's [get_preferences] returns the default row:
    enabled, email channel, the signup's email. *)
Theorem signup_then_login_and_preferences (st : Store) (t t' utc_now : Z)
    (payload : SignupRequest.t) :
  let user :=
    User.mk (users_id_seq st) (SignupRequest.email payload)
      (hash_password (SignupRequest.password payload)) UserRole.customer true
      t in
  find (fun u => String.eqb (User.email u) (SignupRequest.email payload))
    (users st) = None ->
  (forall p, In p (notification_preferences st) ->
     NotificationPreference.user_id p < users_id_seq st) ->
  jwt_secret settings <> "" ->
  verify_password (SignupRequest.password payload)
    (hash_password (SignupRequest.password payload)) = true ->
  exists resp st',
    session_scope (signup hash_password payload) t None st
    = (Returned resp, st')
    /\ session_scope
         (login settings jwt_encode verify_password timestamp utc_now
            (LoginRequest.mk (SignupRequest.email payload)
               (SignupRequest.password payload)))
         t' None st'
       = (Returned
            (TokenResponse.mk
               (jwt_encode (login_claims settings timestamp utc_now user)
                  (jwt_secret settings))
               "bearer"), st')
    /\ session_scope (get_preferences user) t' None st'
       = (Returned
            (NotificationPreferenceResponse.mk true NotificationChannel.email
               (Some (SignupRequest.email payload)) None None t), st').
Proof.
  intros user Hnew Hfresh Hsecret Hverify.
  assert (Hnopref : existsb
                      (fun p => Z.eqb (NotificationPreference.user_id p)
                                  (users_id_seq st))
                      (notification_preferences st) = false).
  { apply not_true_is_false. intros H. apply existsb_exists in H.
    destruct H as (p & Hin & Hp). apply Z.eqb_eq in Hp.
    specialize (Hfresh p Hin). lia. }
  apply String.eqb_neq in Hsecret.
  unfold signup at 1. run. rewrite Hnew. run.
  rewrite (find_none_existsb _ _ Hnew). run.
  cbn [users with_users notification_preferences User.id].
  rewrite existsb_app. cbn [existsb User.id].
  rewrite Z.eqb_refl, orb_true_r. cbn [negb]. rewrite Hnopref.
  eexists _, _. split; [reflexivity|]. split.
  - unfold login, create_access_token, login_claims. run.
    cbn [users with_preferences with_users LoginRequest.email
         LoginRequest.password].
    rewrite (find_app_miss _ _ _ Hnew). cbn [find User.email].
    rewrite String.eqb_refl. cbn [User.is_active User.password_hash negb].
    rewrite Hverify. cbn [negb]. rewrite Hsecret. reflexivity.
  - unfold get_preferences. run.
    cbn [notification_preferences with_preferences with_users user User.id].
    rewrite (find_app_miss _ _ _ (existsb_false_find _ _ Hnopref)).
    cbn [find NotificationPreference.user_id]. rewrite Z.eqb_refl.
    reflexivity.
Qed.

End AfterSignup.

Lemma signup_then_login_and_preferences_witness :
  exists resp st',
    session_scope
      (signup Examples.hash_password
         (SignupRequest.mk "carol@example.com" "correct horse" None))
      50 None Examples.shop
    = (Returned resp, st')
    /\ session_scope
         (get_preferences
            (User.mk 9 "carol@example.com" "$2b$12$correct horse"
               UserRole.customer true 50))
         51 None st'
       = (Returned
            (NotificationPreferenceResponse.mk true NotificationChannel.email
               (Some "carol@example.com") None None 50), st').
Proof.
  destruct (signup_then_login_and_preferences Examples.settings
              Examples.jwt_encode Examples.verify_password
              Examples.hash_password Examples.timestamp Examples.shop 50 51
              100000000
              (SignupRequest.mk "carol@example.com" "correct horse" None))
    as (resp & st' & Hsignup & _ & Hprefs).
  - reflexivity.
  - intros p [<-|[]]. cbn. lia.
  - discriminate.
  - reflexivity.
  - exists resp, st'. split; [exact Hsignup | exact Hprefs].
Defined.

(** * Configuration and engine *)

(** ** [_split_csv] *)

Lemma lstrip_suffix (l : list ascii) : exists pre, l = pre ++ lstrip l.
Proof.
  induction l as [|c l IH]; [exists []; reflexivity|].
  cbn [lstrip]. destruct (is_space c); [|exists []; reflexivity].
  destruct IH as (pre & Hpre). exists (c :: pre). cbn. congruence.
Qed.

Lemma lstrip_head (l : list ascii) :
  lstrip l = [] \/ exists c r, lstrip l = c :: r /\ is_space c = false.
Proof.
  induction l as [|c l IH]; [left; reflexivity|].
  cbn [lstrip]. destruct (is_space c) eqn:E; [exact IH|].
  right. exists c, l. split; [reflexivity | exact E].
Qed.

Lemma lstrip_fixed (l : list ascii) :
  l = [] \/ (exists c r, l = c :: r /\ is_space c = false) -> lstrip l = l.
Proof.
  intros [->|(c & r & -> & Hc)]; [reflexivity|].
  cbn [lstrip]. rewrite Hc. reflexivity.
Qed.

Lemma strip_idempotent (l : list ascii) : strip (strip l) = strip l.
Proof.
  unfold strip.
  set (a := lstrip l). set (b := lstrip (rev a)).
  assert (Hb : lstrip b = b) by (apply lstrip_fixed; apply lstrip_head).
  assert (Hrb : lstrip (rev b) = rev b).
  { apply lstrip_fixed.
    destruct (lstrip_suffix (rev a)) as (pre & Hpre). fold b in Hpre.
    assert (Ha : a = rev b ++ rev pre).
    { rewrite <- rev_app_distr, <- Hpre. symmetry. apply rev_involutive. }
    destruct (rev b) as [|c r] eqn:Erb; [left; reflexivity|].
    right. exists c, r. split; [reflexivity|].
    destruct (lstrip_head l) as [E|(c' & r' & E & Hc')]; fold a in E.
    - rewrite E in Ha. discriminate.
    - rewrite E in Ha. cbn in Ha. injection Ha as -> _. exact Hc'. }
  rewrite Hrb, rev_involutive, Hb. reflexivity.
Qed.

Lemma In_lstrip (c : ascii) (l : list ascii) : In c (lstrip l) -> In c l.
Proof.
  destruct (lstrip_suffix l) as (pre & Hpre). intros H.
  rewrite Hpre. apply in_or_app. right. exact H.
Qed.

Lemma In_strip (c : ascii) (l : list ascii) : In c (strip l) -> In c l.
Proof.
  unfold strip. intros H. apply In_lstrip. apply in_rev.
  apply In_lstrip. apply in_rev. exact H.
Qed.

Lemma split_on_no_separator (sep : ascii) (l : list ascii) :
  Forall (fun item => ~ In sep item) (split_on sep l).
Proof.
  induction l as [|c l IH]; [repeat constructor; intros []|].
  cbn [split_on]. destruct (Ascii.eqb_spec c sep) as [E|E].
  - constructor; [intros [] | exact IH].
  - destruct (split_on sep l) as [|item items].
    + repeat constructor. intros [H|[]]. congruence.
    + inversion IH as [|? ? Hitem Hitems]; subst.
      constructor; [|exact Hitems].
      intros [H|H]; [congruence | exact (Hitem H)].
Qed.

Lemma split_on_item (sep : ascii) (item : list ascii) :
  ~ In sep item -> split_on sep item = [item].
Proof.
  induction item as [|c item IH]; intros H; [reflexivity|].
  cbn [split_on]. destruct (Ascii.eqb_spec c sep) as [E|E].
  - exfalso. apply H. left. exact E.
  - rewrite IH by (intros Hin; apply H; right; exact Hin). reflexivity.
Qed.

Lemma split_on_cons_item (sep : ascii) (item rest : list ascii) :
  ~ In sep item ->
  split_on sep (item ++ sep :: rest) = item :: split_on sep rest.
Proof.
  induction item as [|c item IH]; intros H.
  - cbn [app split_on]. rewrite Ascii.eqb_refl. reflexivity.
  - cbn [app split_on]. destruct (Ascii.eqb_spec c sep) as [E|E].
    + exfalso. apply H. left. exact E.
    + rewrite IH by (intros Hin; apply H; right; exact Hin). reflexivity.
Qed.

Lemma list_ascii_of_append (a b : string) :
  list_ascii_of_string (String.append a b)
  = list_ascii_of_string a ++ list_ascii_of_string b.
Proof. induction a as [|c a IH]; cbn; [reflexivity | rewrite IH; reflexivity]. Qed.

Lemma split_on_join (items : list string) :
  Forall clean_item items -> items <> [] ->
  split_on "," (list_ascii_of_string (join_commas items))
  = map list_ascii_of_string items.
Proof.
  induction items as [|item rest IH]; intros Hclean Hne; [congruence|].
  inversion Hclean as [|? ? (_ & _ & Hcomma) Hrest]; subst.
  destruct rest as [|item' rest].
  - cbn [join_commas map]. apply split_on_item. exact Hcomma.
  - change (join_commas (item :: item' :: rest))
      with (String.append item (String "," (join_commas (item' :: rest)))).
    rewrite list_ascii_of_append. cbn [list_ascii_of_string].
    rewrite split_on_cons_item by exact Hcomma.
    rewrite IH by (assumption || discriminate). reflexivity.
Qed.

Lemma clean_items_kept (items : list string) :
  Forall clean_item items ->
  map (fun item => string_of_list_ascii (strip item))
    (filter (fun item => nonempty (strip item))
       (map list_ascii_of_string items))
  = items.
Proof.
  induction items as [|item rest IH]; intros Hclean; [reflexivity|].
  inversion Hclean as [|? ? (Hne & Hstrip & _) Hrest]; subst.
  cbn [map filter]. rewrite Hstrip.
  destruct (list_ascii_of_string item) as [|c l] eqn:E.
  - exfalso. apply Hne. rewrite <- (string_of_list_ascii_of_string item), E.
    reflexivity.
  - cbn [nonempty map]. rewrite Hstrip, <- E, string_of_list_ascii_of_string.
    rewrite IH by exact Hrest. reflexivity.
Qed.

Lemma _split_csv_items (value : string) :
  Forall clean_item (_split_csv value).
Proof.
  unfold _split_csv. apply Forall_forall. intros s Hs.
  apply in_map_iff in Hs. destruct Hs as (item & <- & Hin).
  apply filter_In in Hin. destruct Hin as [Hin Hne].
  pose proof (split_on_no_separator ","%char (list_ascii_of_string value))
    as Hsep.
  rewrite Forall_forall in Hsep. specialize (Hsep item Hin).
  unfold clean_item. rewrite list_ascii_of_string_of_list_ascii.
  split; [|split].
  - destruct (strip item); [discriminate | discriminate].
  - apply strip_idempotent.
  - intros H. apply Hsep. apply In_strip. exact H.
Qed.

Lemma _split_csv_join (items : list string) :
  Forall clean_item items -> _split_csv (join_commas items) = items.
Proof.
  intros Hclean. unfold _split_csv.
  destruct items as [|item rest]; [reflexivity|].
  rewrite split_on_join by (assumption || discriminate).
  apply clean_items_kept. exact Hclean.
Qed.

(** X17. Every item [_split_csv] returns is not empty, has no white space
    at either end and holds no comma; and a list of such items is what
    [_split_csv] reads back from the items joined by commas. *)
Theorem split_csv_clean_items (value : string) (items : list string) :
  Forall clean_item (_split_csv value)
  /\ (Forall clean_item items -> _split_csv (join_commas items) = items).
Proof. split; [apply _split_csv_items | apply _split_csv_join]. Qed.

Lemma split_csv_clean_items_witness :
  _split_csv (join_commas ["GET"; "POST"; "Content-Type"])
  = ["GET"; "POST"; "Content-Type"].
Proof.
  apply (split_csv_clean_items "" ["GET"; "POST"; "Content-Type"]).
  repeat constructor; try discriminate;
    cbn; intros H; repeat (destruct H as [H|H]; [discriminate|]); exact H.
Defined.

(** ** [_build_sqlalchemy_url], [init_engine], [get_engine] *)

Lemma prefix_of_longer (a b s : string) :
  String.prefix (String.append a b) s = true -> String.prefix a s = true.
Proof.
  revert s. induction a as [|c a IH]; intros s H; [destruct s; reflexivity|].
  destruct s as [|d s]; [discriminate|].
  cbn [String.append String.prefix] in *.
  destruct (ascii_dec c d); [apply IH; exact H | discriminate].
Qed.

(** X18. [_build_sqlalchemy_url] returns a DSN in [POSTGRES_URL] as it is,
    whatever else is set; otherwise it raises [RuntimeError] exactly when
    one of user, password, database and port is missing or empty, even with
    a host in [POSTGRES_URL]; and every URL it returns starts with
    [postgres]. *)
Theorem build_sqlalchemy_url_cases (settings : Config.Settings) :
  (is_dsn settings = true ->
   _build_sqlalchemy_url settings
   = Returned (or_empty (Config.postgres_url settings)))
  /\ (is_dsn settings = false ->
      (_build_sqlalchemy_url settings = Raised RuntimeError
       <-> has_pieces settings = false))
  /\ (forall url, _build_sqlalchemy_url settings = Returned url ->
        String.prefix "postgres" url = true).
Proof.
  unfold _build_sqlalchemy_url. fold (is_dsn settings) (has_pieces settings).
  split; [|split].
  - intros ->. reflexivity.
  - intros ->. destruct (has_pieces settings); cbn; split; congruence.
  - intros url. destruct (is_dsn settings) eqn:Hdsn.
    + intros [= <-]. unfold is_dsn in Hdsn.
      apply andb_prop in Hdsn. destruct Hdsn as [_ Hp].
      apply orb_prop in Hp. destruct Hp as [Hp|Hp].
      * apply (prefix_of_longer "postgres" "ql://"). exact Hp.
      * apply (prefix_of_longer "postgres" "://"). exact Hp.
    + destruct (has_pieces settings); cbn [negb]; [|discriminate].
      intros [= <-]. reflexivity.
Qed.

Lemma build_sqlalchemy_url_cases_witness :
  get_settings Examples.env = Returned Examples.loaded
  /\ _build_sqlalchemy_url Examples.loaded
     = Returned "postgresql+psycopg://tracker:s3cret@db:5432/orders"
  /\ String.prefix "postgres"
       "postgresql+psycopg://tracker:s3cret@db:5432/orders" = true.
Proof.
  split; [reflexivity|]. split; [reflexivity|].
  apply (build_sqlalchemy_url_cases Examples.loaded). reflexivity.
Defined.

(** X19. [init_engine] is idempotent: a call that returns leaves both
    globals set, after which every later call, whatever the settings then,
    returns and changes nothing; a call that raises leaves the globals as
    they were. *)
Theorem init_engine_idempotent (settings : Config.Settings) (g : Globals) :
  match init_engine settings g with
  | (Returned _, g') =>
      (exists engine factory,
         _ENGINE g' = Some engine /\ _SessionLocal g' = Some factory)
      /\ forall settings', init_engine settings' g' = (Returned tt, g')
  | (Raised e, g') => g' = g /\ e = RuntimeError
  end.
Proof.
  unfold init_engine.
  destruct g as [[engine|] [factory|]]; cbn [_ENGINE _SessionLocal].
  - split; [eexists _, _; split; reflexivity | reflexivity].
  - destruct (_build_sqlalchemy_url settings) as [url|e] eqn:Hurl.
    + split; [eexists _, _; split; reflexivity | reflexivity].
    + split; [reflexivity|]. unfold _build_sqlalchemy_url in Hurl.
      destruct (_ && _); [discriminate|].
      destruct (negb _); congruence.
  - destruct (_build_sqlalchemy_url settings) as [url|e] eqn:Hurl.
    + split; [eexists _, _; split; reflexivity | reflexivity].
    + split; [reflexivity|]. unfold _build_sqlalchemy_url in Hurl.
      destruct (_ && _); [discriminate|].
      destruct (negb _); congruence.
  - destruct (_build_sqlalchemy_url settings) as [url|e] eqn:Hurl.
    + split; [eexists _, _; split; reflexivity | reflexivity].
    + split; [reflexivity|]. unfold _build_sqlalchemy_url in Hurl.
      destruct (_ && _); [discriminate|].
      destruct (negb _); congruence.
Qed.

(** X20. The assertion of [get_engine] never fails; from uninitialised
    globals [get_engine] returns the engine of the URL the settings build,
    or raises what building it raises, and later calls return that same
    engine whatever the settings then. *)
Theorem get_engine_returns_first_engine (settings : Config.Settings)
    (g : Globals) :
  fst (get_engine settings g) <> EngineAssertionError
  /\ (_ENGINE g = None ->
      match _build_sqlalchemy_url settings with
      | Returned url =>
          exists g',
            get_engine settings g = (EngineReturned (mkEngine url), g')
            /\ forall settings',
                 get_engine settings' g'
                 = (EngineReturned (mkEngine url), g')
      | Raised e => get_engine settings g = (EngineRaised e, g)
      end).
Proof.
  unfold get_engine, init_engine. split.
  - destruct g as [[engine|] [factory|]]; cbn [_ENGINE _SessionLocal];
      try discriminate;
      destruct (_build_sqlalchemy_url settings); discriminate.
  - destruct g as [engine factory]. cbn [_ENGINE _SessionLocal].
    intros ->.
    destruct (_build_sqlalchemy_url settings) as [url|e].
    + eexists. split; [destruct factory; reflexivity|].
      intros settings'. reflexivity.
    + destruct factory; reflexivity.
Qed.

Lemma get_engine_returns_first_engine_witness :
  exists g',
    get_engine Examples.loaded (mkGlobals None None)
    = (EngineReturned
         (mkEngine "postgresql+psycopg://tracker:s3cret@db:5432/orders"),
       g').
Proof.
  destruct (get_engine_returns_first_engine Examples.loaded
              (mkGlobals None None)) as [_ H].
  destruct (H eq_refl) as (g' & Hget & _).
  exists g'. exact Hget.
Defined.

(** ** [get_settings] and the CORS lists of [api/main.py] *)

(** X21. With the settings [get_settings] loads, the origins handed to the
    CORS middleware are the items of [ALLOWED_ORIGINS] ("*" when unset),
    possibly none at all, while the method and header lists are never
    empty; no list holds an empty or padded item. *)
Theorem cors_lists_of_environment (env : string -> option string)
    (s : Config.Settings) :
  get_settings env = Returned s ->
  allow_origins s = _split_csv (getenv env "ALLOWED_ORIGINS" "*")
  /\ allow_methods s <> []
  /\ allow_headers s <> []
  /\ Forall clean_item (allow_origins s)
  /\ Forall clean_item (allow_methods s)
  /\ Forall clean_item (allow_headers s).
Proof.
  intros Hs. unfold get_settings in Hs.
  destruct (py_int (getenv env "CORS_MAX_AGE" "3600")); [|discriminate].
  destruct (py_int (getenv env "ACCESS_TOKEN_EXP_MINUTES" "60"));
    [|discriminate].
  injection Hs as <-.
  assert (Hstar : Forall clean_item ["*"]).
  { repeat constructor; [discriminate | cbn; intros [H|[]]; discriminate]. }
  assert (Horigins : allow_origins
                       (Config.mk (getenv env "APP_NAME" "Order Tracker Backend")
                          (getenv env "APP_VERSION" "0.1.0")
                          (_split_csv (getenv env "ALLOWED_ORIGINS" "*"))
                          (_split_csv
                             (getenv env "ALLOWED_METHODS"
                                "GET,POST,PUT,DELETE,PATCH,OPTIONS"))
                          (_split_csv
                             (getenv env "ALLOWED_HEADERS"
                                "Content-Type,Authorization"))
                          z (env "POSTGRES_URL") (env "POSTGRES_USER")
                          (env "POSTGRES_PASSWORD") (env "POSTGRES_DB")
                          (env "POSTGRES_PORT") (getenv env "JWT_SECRET" "")
                          (getenv env "JWT_ISSUER" "order-tracker")
                          (getenv env "JWT_AUDIENCE" "order-tracker-clients")
                          z0)
                     = _split_csv (getenv env "ALLOWED_ORIGINS" "*")).
  { unfold allow_origins. cbn [Config.allowed_origins].
    destruct (list_eq_dec string_dec _ ["*"]) as [E|E]; congruence. }
  split; [exact Horigins|].
  unfold allow_methods, allow_headers.
  cbn [Config.allowed_methods Config.allowed_headers].
  pose proof (_split_csv_items
                (getenv env "ALLOWED_METHODS"
                   "GET,POST,PUT,DELETE,PATCH,OPTIONS")) as Hm.
  pose proof (_split_csv_items
                (getenv env "ALLOWED_HEADERS" "Content-Type,Authorization"))
    as Hh.
  split; [|split; [|split; [|split]]].
  - destruct (_split_csv (getenv env "ALLOWED_METHODS" _)); discriminate.
  - destruct (_split_csv (getenv env "ALLOWED_HEADERS" _)); discriminate.
  - rewrite Horigins. apply _split_csv_items.
  - destruct (_split_csv (getenv env "ALLOWED_METHODS" _));
      [exact Hstar | exact Hm].
  - destruct (_split_csv (getenv env "ALLOWED_HEADERS" _));
      [exact Hstar | exact Hh].
Qed.

Lemma cors_lists_of_environment_witness :
  allow_origins Examples.loaded = ["*"]
  /\ allow_methods Examples.loaded <> [].
Proof.
  destruct (cors_lists_of_environment Examples.env Examples.loaded eq_refl)
    as (Ho & Hm & _).
  split; [rewrite Ho; reflexivity | exact Hm].
Defined.

(** * What no request does to the order store *)

Lemma order_reads_keep_store (st : Store) (t : Z) (fault : option nat)
    (user : User.t) :
  (forall order_id,
     snd (session_scope (get_order order_id user) t fault st) = st)
  /\ (forall order_number,
        snd (session_scope (lookup_by_number order_number user) t fault st)
        = st)
  /\ snd (session_scope (list_orders user) t fault st) = st
  /\ snd (session_scope (get_preferences user) t fault st) = st.
Proof.
  unfold get_order, lookup_by_number, list_orders, get_preferences.
  repeat split; intros; split_run; reflexivity.
Qed.

(** X22. No request rewrites the status history: [delete_order] removes the
    entries of the order it deletes and no other, and every other request
    keeps each stored entry as it is and adds at most one.  The entries are
    compared as a multiset: where the datastore places a row is its own
    business. *)
Theorem history_never_rewritten (hash_password : string -> string)
    (r : Request) (t : Z) (fault : option nat) (st : Store) :
  match r with
  | DeleteOrder order_id _ =>
      Permutation (order_status_history (serve hash_password r t fault st))
        (order_status_history st)
      \/ Permutation (order_status_history (serve hash_password r t fault st))
           (filter (fun h => negb (Z.eqb (OrderStatusHistory.order_id h)
                                     order_id))
              (order_status_history st))
  | _ =>
      exists added,
        Permutation (order_status_history (serve hash_password r t fault st))
          (added ++ order_status_history st)
        /\ (List.length added <= 1)%nat
  end.
Proof.
  destruct r; cbn [serve].
  - exists []. split; [|cbn; lia].
    rewrite (proj1 (proj2 (signup_keeps_orders hash_password st t fault
                             payload))).
    reflexivity.
  - destruct (session_scope _ t fault st) as [r st'] eqn:Hrun.
    apply create_order_effect in Hrun.
    destruct Hrun as [(e & _ & ->)|[_ ->]]; cbn [snd].
    + exists []. split; [reflexivity | cbn; lia].
    + exists [creation_entry st t]. split; [|cbn; lia].
      cbn [order_created order_status_history with_history].
      apply Permutation_app_comm.
  - exists []. split; [|cbn; lia].
    rewrite (proj1 (order_reads_keep_store st t fault user)). reflexivity.
  - exists []. split; [|cbn; lia].
    rewrite (proj1 (proj2 (order_reads_keep_store st t fault user))).
    reflexivity.
  - exists []. split; [|cbn; lia].
    rewrite (proj1 (proj2 (proj2 (order_reads_keep_store st t fault user)))).
    reflexivity.
  - destruct (session_scope _ t fault st) as [r st'] eqn:Hrun.
    apply update_order_effect in Hrun.
    destruct Hrun
      as [(e & _ & ->)|(order & _ & _ & [(_ & _ & ->)|(_ & _ & ->)])];
      cbn [snd]; exists []; (split; [reflexivity | cbn; lia]).
  - destruct (session_scope _ t fault st) as [r st'] eqn:Hrun.
    apply delete_order_effect in Hrun.
    destruct Hrun as [(e & _ & ->)|(order & Hfind & ->)]; cbn [snd];
      [left; reflexivity|].
    right. destruct (find_by_id _ _ _ Hfind) as [_ ->]. reflexivity.
  - destruct (session_scope _ t fault st) as [r st'] eqn:Hrun.
    apply update_status_effect in Hrun.
    destruct Hrun as [(e & _ & ->)|(resp & order & _ & _ & ->)]; cbn [snd].
    + exists []. split; [reflexivity | cbn; lia].
    + exists [status_entry st t order payload admin].
      split; [|cbn; lia]. unfold status_written.
      destruct (order_modified order _);
        cbn [order_status_history with_history];
        apply Permutation_app_comm.
  - exists []. split; [|cbn; lia].
    rewrite (proj2 (proj2 (proj2 (order_reads_keep_store st t fault user)))).
    reflexivity.
  - exists []. split; [|cbn; lia].
    rewrite (proj1 (proj2 (upsert_preferences_keeps_orders st t fault payload
                             user))).
    reflexivity.
Qed.

(** X23. No request changes who owns an order or how it is identified: an
    order of the store after a request either carries the id the order
    sequence handed out for this request, or was in the store before with
    the same id, order number, owner and creation time. *)
Theorem order_identity_never_changes (hash_password : string -> string)
    (r : Request) (t : Z) (fault : option nat) (st : Store) (o' : Order.t) :
  In o' (orders (serve hash_password r t fault st)) ->
  Order.id o' = orders_id_seq st
  \/ exists o,
       In o (orders st)
       /\ Order.id o' = Order.id o
       /\ Order.order_number o' = Order.order_number o
       /\ Order.user_id o' = Order.user_id o
       /\ Order.created_at o' = Order.created_at o.
Proof.
  assert (Hsame : forall o, In o (orders st) ->
            Order.id o = orders_id_seq st
            \/ exists o0, In o0 (orders st) /\ Order.id o = Order.id o0
                 /\ Order.order_number o = Order.order_number o0
                 /\ Order.user_id o = Order.user_id o0
                 /\ Order.created_at o = Order.created_at o0).
  { intros o Hin. right. exists o. repeat split; auto. }
  assert (Hreplaced : forall order row,
            In order (orders st) ->
            Order.id row = Order.id order ->
            Order.order_number row = Order.order_number order ->
            Order.user_id row = Order.user_id order ->
            Order.created_at row = Order.created_at order ->
            In o' (replace_order row (orders st)) ->
            Order.id o' = orders_id_seq st
            \/ exists o0, In o0 (orders st) /\ Order.id o' = Order.id o0
                 /\ Order.order_number o' = Order.order_number o0
                 /\ Order.user_id o' = Order.user_id o0
                 /\ Order.created_at o' = Order.created_at o0).
  { intros order row Hin H1 H2 H3 H4 Ho.
    apply In_replace_order in Ho. destruct Ho as [->|[Ho _]]; [|auto].
    right. exists order. repeat split; assumption. }
  destruct r; cbn [serve].
  - rewrite (proj1 (signup_keeps_orders hash_password st t fault payload)).
    apply Hsame.
  - destruct (session_scope _ t fault st) as [r st'] eqn:Hrun.
    apply create_order_effect in Hrun.
    destruct Hrun as [(e & _ & ->)|[_ ->]]; cbn [snd]; [apply Hsame|].
    cbn. intros Hin. apply in_app_or in Hin.
    destruct Hin as [Hin|[<-|[]]]; [apply Hsame; exact Hin | left; reflexivity].
  - rewrite (proj1 (order_reads_keep_store st t fault user)). apply Hsame.
  - rewrite (proj1 (proj2 (order_reads_keep_store st t fault user))).
    apply Hsame.
  - rewrite (proj1 (proj2 (proj2 (order_reads_keep_store st t fault user)))).
    apply Hsame.
  - destruct (session_scope _ t fault st) as [r st'] eqn:Hrun.
    apply update_order_effect in Hrun.
    destruct Hrun
      as [(e & _ & ->)|(order & Hfind & _ & [(_ & _ & ->)|(_ & _ & ->)])];
      cbn [snd]; try apply Hsame.
    destruct (find_by_id _ _ _ Hfind) as [Hin _]. cbn [orders with_orders].
    apply (Hreplaced order); try exact Hin;
      destruct payload as [[x|] [y|]]; reflexivity.
  - destruct (session_scope _ t fault st) as [r st'] eqn:Hrun.
    apply delete_order_effect in Hrun.
    destruct Hrun as [(e & _ & ->)|(order & _ & ->)]; cbn [snd];
      [apply Hsame|].
    cbn. intros Hin. apply filter_In in Hin. apply Hsame. tauto.
  - destruct (session_scope _ t fault st) as [r st'] eqn:Hrun.
    apply update_status_effect in Hrun.
    destruct Hrun as [(e & _ & ->)|(resp & order & _ & Hfind & ->)];
      cbn [snd]; [apply Hsame|].
    destruct (find_by_id _ _ _ Hfind) as [Hin _]. unfold status_written.
    destruct (order_modified order _); cbn; [|apply Hsame].
    apply (Hreplaced order); try exact Hin; reflexivity.
  - rewrite (proj2 (proj2 (proj2 (order_reads_keep_store st t fault user)))).
    apply Hsame.
  - rewrite (proj1 (upsert_preferences_keeps_orders st t fault payload user)).
    apply Hsame.
Qed.

Lemma order_identity_never_changes_witness :
  exists o,
    In o (orders Examples.shop)
    /\ Order.id
         (Order.mk 1 "ORD-1" 8 "Widget" (Some "blue") OrderStatus.created 10
            30) = Order.id o
    /\ Order.user_id o = 8.
Proof.
  destruct (order_identity_never_changes Examples.hash_password
              (PutOrder 1 (OrderUpdateRequest.mk None (Some "blue"))
                 Examples.bob)
              30 None Examples.shop
              (Order.mk 1 "ORD-1" 8 "Widget" (Some "blue") OrderStatus.created
                 10 30))
    as [Hnew|(o & Hin & Hid & _ & Hu & _)].
  - cbn. auto.
  - cbn in Hnew. lia.
  - exists o. split; [exact Hin|]. split; [exact Hid|]. rewrite <- Hu.
    reflexivity.
Defined.

(** * The constraints of the schema *)

Lemma NoDup_keys_snoc {A B} (key : A -> B) (rows : list A) (row : A) :
  NoDup (map key rows) -> ~ In (key row) (map key rows) ->
  NoDup (map key (rows ++ [row])).
Proof.
  intros Hnd Hnew. rewrite map_app. cbn [map].
  apply NoDup_app; [exact Hnd | repeat constructor; intros [] |].
  intros k Hk [<-|[]]. exact (Hnew Hk).
Qed.

Lemma NoDup_keys_kept {A B} (key : A -> B) (keep : A -> bool)
    (rows : list A) :
  NoDup (map key rows) -> NoDup (map key (filter keep rows)).
Proof.
  induction rows as [|row rows IH]; cbn [map filter]; [auto|].
  intros Hnd. apply NoDup_cons_iff in Hnd. destruct Hnd as [Hrow Hrows].
  destruct (keep row); [|auto]. cbn [map]. apply NoDup_cons; [|auto].
  intros Hin. apply Hrow. apply in_map_iff in Hin.
  destruct Hin as (x & Hx & Hin). apply filter_In in Hin.
  apply in_map_iff. exists x. tauto.
Qed.

Lemma below_sequence_fresh {A} (key : A -> Z) (rows : list A) (next : Z) :
  (forall row, In row rows -> key row < next) -> ~ In next (map key rows).
Proof.
  intros Hlt Hin. apply in_map_iff in Hin. destruct Hin as (row & Hk & Hin).
  specialize (Hlt row Hin). lia.
Qed.

Lemma no_row_with_key {A} (key : A -> Z) (rows : list A) (k : Z) :
  existsb (fun row => Z.eqb (key row) k) rows = false ->
  ~ In k (map key rows).
Proof.
  intros Hnone Hin. apply in_map_iff in Hin.
  destruct Hin as (row & Hk & Hin).
  assert (E : existsb (fun row => Z.eqb (key row) k) rows = true).
  { apply existsb_exists. exists row. split; [exact Hin|].
    apply Z.eqb_eq. exact Hk. }
  congruence.
Qed.

Lemma no_row_with_name {A} (key : A -> string) (rows : list A) (k : string) :
  existsb (fun row => String.eqb (key row) k) rows = false ->
  ~ In k (map key rows).
Proof.
  intros Hnone Hin. apply in_map_iff in Hin.
  destruct Hin as (row & Hk & Hin).
  assert (E : existsb (fun row => String.eqb (key row) k) rows = true).
  { apply existsb_exists. exists row. split; [exact Hin|].
    apply String.eqb_eq. exact Hk. }
  congruence.
Qed.

Lemma some_row_with_key {A} (key : A -> Z) (rows : list A) (k : Z) :
  existsb (fun row => Z.eqb (key row) k) rows = true -> In k (map key rows).
Proof.
  intros H. apply existsb_exists in H. destruct H as (row & Hin & Hk).
  apply Z.eqb_eq in Hk. apply in_map_iff. exists row. split; assumption.
Qed.

Lemma replace_order_keeps {B} (f : Order.t -> B) (rows : list Order.t)
    (order row : Order.t) :
  NoDup (map Order.id rows) -> In order rows ->
  Order.id row = Order.id order -> f row = f order ->
  map f (replace_order row rows) = map f rows.
Proof.
  intros Hnd Hin Hid Hf. unfold replace_order. rewrite map_map.
  apply map_ext_in. intros o Ho.
  destruct (Z.eqb_spec (Order.id o) (Order.id row)) as [E|E]; [|reflexivity].
  rewrite Hf. f_equal. symmetry.
  apply (same_id_same_order rows o order Hnd Ho Hin). congruence.
Qed.

Lemma same_id_same_preference (rows : list NotificationPreference.t)
    (a b : NotificationPreference.t) :
  NoDup (map NotificationPreference.id rows) -> In a rows -> In b rows ->
  NotificationPreference.id a = NotificationPreference.id b -> a = b.
Proof.
  induction rows as [|x rows IH]; cbn [map In]; [tauto|].
  intros Hnd Ha Hb Hid. apply NoDup_cons_iff in Hnd.
  destruct Hnd as [Hx Hrows].
  destruct Ha as [Ha|Ha], Hb as [Hb|Hb]; subst; auto.
  - exfalso. apply Hx. rewrite Hid. apply in_map. exact Hb.
  - exfalso. apply Hx. rewrite <- Hid. apply in_map. exact Ha.
Qed.

Lemma replace_preference_keeps {B} (f : NotificationPreference.t -> B)
    (rows : list NotificationPreference.t)
    (pref row : NotificationPreference.t) :
  NoDup (map NotificationPreference.id rows) -> In pref rows ->
  NotificationPreference.id row = NotificationPreference.id pref ->
  f row = f pref ->
  map f (replace_preference row rows) = map f rows.
Proof.
  intros Hnd Hin Hid Hf. unfold replace_preference. rewrite map_map.
  apply map_ext_in. intros p Hp.
  destruct (Z.eqb_spec (NotificationPreference.id p)
              (NotificationPreference.id row)) as [E|E]; [|reflexivity].
  rewrite Hf. f_equal. symmetry.
  apply (same_id_same_preference rows p pref Hnd Hp Hin). congruence.
Qed.

Lemma In_replace_preference (rows : list NotificationPreference.t)
    (row p : NotificationPreference.t) :
  In p (replace_preference row rows) -> p = row \/ In p rows.
Proof.
  unfold replace_preference. intros H. apply in_map_iff in H.
  destruct H as (x & Hx & Hin).
  destruct (Z.eqb (NotificationPreference.id x)
              (NotificationPreference.id row)); [left|right]; congruence.
Qed.

Lemma signup_effect (hash_password : string -> string) (st : Store) (t : Z)
    (fault : option nat) (payload : SignupRequest.t)
    (r : outcome UserPublic.t) (st' : Store) :
  session_scope (signup hash_password payload) t fault st = (r, st') ->
  st' = st
  \/ (find (fun u => String.eqb (User.email u) (SignupRequest.email payload))
        (users st) = None
      /\ existsb (fun p => Z.eqb (NotificationPreference.user_id p)
                             (users_id_seq st))
           (notification_preferences st) = false
      /\ st' = with_preferences
                 (notification_preferences st
                  ++ [NotificationPreference.mk
                        (notification_preferences_id_seq st)
                        (users_id_seq st) true NotificationChannel.email
                        (Some (SignupRequest.email payload)) None None t])
                 (notification_preferences_id_seq st + 1)
                 (with_users
                    (users st
                     ++ [User.mk (users_id_seq st)
                           (SignupRequest.email payload)
                           (hash_password (SignupRequest.password payload))
                           UserRole.customer true t])
                    (users_id_seq st + 1) st)).
Proof.
  unfold signup.
  split_run; intros [= <- <-]; try (left; reflexivity).
  all: right; cbn in *; repeat split; assumption.
Qed.

Lemma create_order_facts (st : Store) (t : Z) (fault : option nat)
    (payload : OrderCreateRequest.t) (user_id : Z) (admin : User.t)
    (r : outcome OrderResponse.t) (st' : Store) :
  session_scope (create_order payload user_id admin) t fault st = (r, st') ->
  st' = st
  \/ (existsb (fun u => Z.eqb (User.id u) user_id) (users st) = true
      /\ existsb (fun o => String.eqb (Order.order_number o)
                             (OrderCreateRequest.order_number payload))
           (orders st) = false
      /\ st' = order_created st t payload user_id).
Proof.
  unfold create_order, order_created, new_order, creation_entry.
  split_run; intros [= <- <-]; try (left; reflexivity).
  all: right; repeat split; try assumption.
  all: match goal with
       | H : negb ?b = false |- ?b = true => apply negb_false_iff; exact H
       end.
Qed.

Lemma update_status_facts (st : Store) (t : Z) (fault : option nat)
    (order_id : Z) (payload : OrderStatusUpdateRequest.t) (admin : User.t)
    (r : outcome OrderDetailResponse.t) (st' : Store) :
  session_scope (update_status order_id payload admin) t fault st = (r, st') ->
  st' = st
  \/ exists order,
       find (fun o => Z.eqb (Order.id o) order_id) (orders st) = Some order
       /\ existsb (fun u => Z.eqb (User.id u) (User.id admin)) (users st)
          = true
       /\ st' = status_written st t order payload admin.
Proof.
  unfold update_status, status_written, status_entry.
  split_run; intros [= <- <-]; try (left; reflexivity).
  all: right; eexists; split; [reflexivity|]; split.
  all: try match goal with
           | H : order_modified _ _ = _ |- _ = _ :> Store =>
               rewrite H; reflexivity
           end.
  all: cbn in *;
    match goal with
    | H : negb ?b = false |- ?b = true => apply negb_false_iff; exact H
    end.
Qed.

Lemma upsert_preferences_effect (st : Store) (t : Z) (fault : option nat)
    (payload : NotificationPreferenceUpsertRequest.t) (user : User.t)
    (r : outcome NotificationPreferenceResponse.t) (st' : Store) :
  session_scope (upsert_preferences payload user) t fault st = (r, st') ->
  st' = st
  \/ (exists pref row,
        find (fun p => Z.eqb (NotificationPreference.user_id p)
                         (User.id user))
          (notification_preferences st) = Some pref
        /\ NotificationPreference.id row = NotificationPreference.id pref
        /\ NotificationPreference.user_id row
           = NotificationPreference.user_id pref
        /\ st' = with_preferences
                   (replace_preference row (notification_preferences st))
                   (notification_preferences_id_seq st) st)
  \/ (existsb (fun p => Z.eqb (NotificationPreference.user_id p)
                          (User.id user))
        (notification_preferences st) = false
      /\ existsb (fun u => Z.eqb (User.id u) (User.id user)) (users st) = true
      /\ exists pref0,
           NotificationPreference.id pref0
           = notification_preferences_id_seq st
           /\ NotificationPreference.user_id pref0 = User.id user
           /\ (st' = with_preferences (notification_preferences st ++ [pref0])
                       (notification_preferences_id_seq st + 1) st
               \/ exists row,
                    NotificationPreference.id row
                    = notification_preferences_id_seq st
                    /\ NotificationPreference.user_id row = User.id user
                    /\ st' = with_preferences
                               (replace_preference row
                                  (notification_preferences st ++ [pref0]))
                               (notification_preferences_id_seq st + 1) st)).
Proof.
  unfold upsert_preferences.
  split_run; intros [= <- <-]; try (left; reflexivity).
  all: try (right; left; eexists _, _; split; [reflexivity|];
            split; [|split]; [| |reflexivity]; reflexivity).
  all: right; right.
  all: split; [first [assumption | reflexivity]|].
  all: split;
    [match goal with
     | H : negb ?b = false |- ?b = true => apply negb_false_iff; exact H
     end|].
  all: eexists; split; [|split]; [| |first
         [ left; reflexivity
         | right; eexists; split; [|split]; [| |reflexivity]; reflexivity ]];
       reflexivity.
Qed.

Lemma find_none_no_email (rows : list User.t) (email : string) :
  find (fun u => String.eqb (User.email u) email) rows = None ->
  ~ In email (map User.email rows).
Proof.
  intros H. apply no_row_with_name. apply find_none_existsb. exact H.
Qed.

Lemma schema_ok_signup (hash_password : string -> string) (st : Store)
    (t : Z) (payload : SignupRequest.t) :
  schema_ok st ->
  find (fun u => String.eqb (User.email u) (SignupRequest.email payload))
    (users st) = None ->
  existsb (fun p => Z.eqb (NotificationPreference.user_id p)
                      (users_id_seq st))
    (notification_preferences st) = false ->
  schema_ok
    (with_preferences
       (notification_preferences st
        ++ [NotificationPreference.mk (notification_preferences_id_seq st)
              (users_id_seq st) true NotificationChannel.email
              (Some (SignupRequest.email payload)) None None t])
       (notification_preferences_id_seq st + 1)
       (with_users
          (users st
           ++ [User.mk (users_id_seq st) (SignupRequest.email payload)
                 (hash_password (SignupRequest.password payload))
                 UserRole.customer true t])
          (users_id_seq st + 1) st)).
Proof.
  intros ((Hu1 & Hu2 & Hu3) & (Ho1 & Ho2 & Ho3 & Ho4)
          & (Hh1 & Hh2 & Hh3 & Hh4) & (Hp1 & Hp2 & Hp3 & Hp4)) Hemail Hpref.
  assert (Hgrow : forall k, In k (map User.id (users st)) ->
            In k (map User.id
                    (users st
                     ++ [User.mk (users_id_seq st)
                           (SignupRequest.email payload)
                           (hash_password (SignupRequest.password payload))
                           UserRole.customer true t]))).
  { intros k Hk. rewrite map_app. apply in_or_app. left. exact Hk. }
  split; [|split; [|split]].
  - split; [|split]; cbn.
    + apply NoDup_keys_snoc; [exact Hu1|].
      apply below_sequence_fresh. exact Hu2.
    + intros u Hin. apply in_app_or in Hin.
      destruct Hin as [Hin|[<-|[]]]; [specialize (Hu2 u Hin)|cbn]; lia.
    + apply NoDup_keys_snoc; [exact Hu3|].
      apply find_none_no_email. exact Hemail.
  - split; [|split; [|split]]; cbn; auto.
  - split; [|split; [|split]]; cbn; auto.
    intros h uid Hin Hby. apply Hgrow. eapply Hh4; eauto.
  - split; [|split; [|split]]; cbn.
    + apply NoDup_keys_snoc; [exact Hp1|].
      apply below_sequence_fresh. exact Hp2.
    + intros p Hin. apply in_app_or in Hin.
      destruct Hin as [Hin|[<-|[]]]; [specialize (Hp2 p Hin)|cbn]; lia.
    + apply NoDup_keys_snoc; [exact Hp3|].
      apply no_row_with_key. exact Hpref.
    + intros p Hin. apply in_app_or in Hin.
      destruct Hin as [Hin|[<-|[]]]; [apply Hgrow; auto|].
      cbn. rewrite map_app. apply in_or_app. right. left. reflexivity.
Qed.

Lemma schema_ok_created (st : Store) (t : Z) (payload : OrderCreateRequest.t)
    (user_id : Z) :
  schema_ok st ->
  existsb (fun u => Z.eqb (User.id u) user_id) (users st) = true ->
  existsb (fun o => String.eqb (Order.order_number o)
                      (OrderCreateRequest.order_number payload))
    (orders st) = false ->
  schema_ok (order_created st t payload user_id).
Proof.
  intros (Hu & (Ho1 & Ho2 & Ho3 & Ho4) & (Hh1 & Hh2 & Hh3 & Hh4) & Hp)
    Howner Hfree.
  split; [exact Hu|]. split; [|split; [|exact Hp]].
  - split; [|split; [|split]]; cbn.
    + apply NoDup_keys_snoc; [exact Ho1|].
      apply below_sequence_fresh. exact Ho2.
    + intros o Hin. apply in_app_or in Hin.
      destruct Hin as [Hin|[<-|[]]]; [specialize (Ho2 o Hin)|cbn]; lia.
    + apply NoDup_keys_snoc; [exact Ho3|].
      apply no_row_with_name. exact Hfree.
    + intros o Hin. apply in_app_or in Hin.
      destruct Hin as [Hin|[<-|[]]]; [auto|].
      cbn. apply some_row_with_key. exact Howner.
  - split; [|split; [|split]]; cbn.
    + apply NoDup_keys_snoc; [exact Hh1|].
      apply below_sequence_fresh. exact Hh2.
    + intros h Hin. apply in_app_or in Hin.
      destruct Hin as [Hin|[<-|[]]]; [specialize (Hh2 h Hin)|cbn]; lia.
    + intros h Hin. rewrite map_app. apply in_or_app.
      apply in_app_or in Hin.
      destruct Hin as [Hin|[<-|[]]]; [left; auto | right; left; reflexivity].
    + intros h uid Hin Hby. apply in_app_or in Hin.
      destruct Hin as [Hin|[<-|[]]]; [eapply Hh4; eauto | discriminate].
Qed.

Lemma schema_ok_replaced (st : Store) (order row : Order.t) :
  schema_ok st -> In order (orders st) ->
  Order.id row = Order.id order ->
  Order.order_number row = Order.order_number order ->
  Order.user_id row = Order.user_id order ->
  schema_ok
    (with_orders (replace_order row (orders st)) (orders_id_seq st) st).
Proof.
  intros (Hu & (Ho1 & Ho2 & Ho3 & Ho4) & (Hh1 & Hh2 & Hh3 & Hh4) & Hp)
    Hin Hid Hnumber Howner.
  split; [exact Hu|]. split; [|split; [|exact Hp]].
  - split; [|split; [|split]]; cbn.
    + rewrite map_id_replace_order. exact Ho1.
    + intros o Ho. apply In_replace_order in Ho.
      destruct Ho as [->|[Ho _]]; [rewrite Hid|]; auto.
    + rewrite (replace_order_keeps Order.order_number _ order row);
        assumption.
    + intros o Ho. apply In_replace_order in Ho.
      destruct Ho as [->|[Ho _]]; [rewrite Howner|]; auto.
  - split; [|split; [|split]]; cbn; auto.
    intros h Hh. rewrite map_id_replace_order. auto.
Qed.

Lemma schema_ok_entry_appended (st : Store) (e : OrderStatusHistory.t) :
  schema_ok st ->
  OrderStatusHistory.id e = order_status_history_id_seq st ->
  In (OrderStatusHistory.order_id e) (map Order.id (orders st)) ->
  (forall uid, OrderStatusHistory.changed_by_user_id e = Some uid ->
     In uid (map User.id (users st))) ->
  schema_ok
    (with_history (order_status_history st ++ [e])
       (order_status_history_id_seq st + 1) st).
Proof.
  intros (Hu & Ho & (Hh1 & Hh2 & Hh3 & Hh4) & Hp) Hid Horder Hby.
  split; [exact Hu|]. split; [exact Ho|]. split; [|exact Hp].
  split; [|split; [|split]]; cbn.
  - apply NoDup_keys_snoc; [exact Hh1|]. rewrite Hid.
    apply below_sequence_fresh. exact Hh2.
  - intros h Hh. apply in_app_or in Hh.
    destruct Hh as [Hh|[<-|[]]]; [specialize (Hh2 h Hh)|]; lia.
  - intros h Hh. apply in_app_or in Hh.
    destruct Hh as [Hh|[<-|[]]]; auto.
  - intros h uid Hh Hhby. apply in_app_or in Hh.
    destruct Hh as [Hh|[<-|[]]]; [eapply Hh4; eauto | auto].
Qed.

Lemma schema_ok_status_written (st : Store) (t : Z) (order_id : Z)
    (order : Order.t) (payload : OrderStatusUpdateRequest.t) (admin : User.t) :
  schema_ok st ->
  find (fun o => Z.eqb (Order.id o) order_id) (orders st) = Some order ->
  existsb (fun u => Z.eqb (User.id u) (User.id admin)) (users st) = true ->
  schema_ok (status_written st t order payload admin).
Proof.
  intros Hok Hfind Hadmin. destruct (find_by_id _ _ _ Hfind) as [Hin _].
  unfold status_written.
  destruct (order_modified order _).
  - apply (schema_ok_entry_appended
             (with_orders
                (replace_order
                   (Order.set_updated_at t
                      (Order.set_current_status
                         (OrderStatusUpdateRequest.new_status payload) order))
                   (orders st))
                (orders_id_seq st) st)
             (status_entry st t order payload admin)).
    + apply schema_ok_replaced with (order := order); auto.
    + reflexivity.
    + cbn. rewrite map_id_replace_order. apply in_map. exact Hin.
    + cbn. intros uid [= <-]. apply some_row_with_key. exact Hadmin.
  - apply (schema_ok_entry_appended st
             (status_entry st t order payload admin)).
    + exact Hok.
    + reflexivity.
    + cbn. apply in_map. exact Hin.
    + cbn. intros uid [= <-]. apply some_row_with_key. exact Hadmin.
Qed.

Lemma schema_ok_deleted (st : Store) (k : Z) :
  schema_ok st ->
  schema_ok
    (with_history
       (filter (fun h => negb (Z.eqb (OrderStatusHistory.order_id h) k))
          (order_status_history st))
       (order_status_history_id_seq st)
       (with_orders
          (filter (fun o => negb (Z.eqb (Order.id o) k)) (orders st))
          (orders_id_seq st) st)).
Proof.
  intros (Hu & (Ho1 & Ho2 & Ho3 & Ho4) & (Hh1 & Hh2 & Hh3 & Hh4) & Hp).
  split; [exact Hu|]. split; [|split; [|exact Hp]].
  - split; [|split; [|split]]; cbn.
    + apply NoDup_keys_kept. exact Ho1.
    + intros o Hin. apply filter_In in Hin. apply Ho2. tauto.
    + apply NoDup_keys_kept. exact Ho3.
    + intros o Hin. apply filter_In in Hin. apply Ho4. tauto.
  - split; [|split; [|split]]; cbn.
    + apply NoDup_keys_kept. exact Hh1.
    + intros h Hin. apply filter_In in Hin. apply Hh2. tauto.
    + intros h Hin. apply filter_In in Hin. destruct Hin as [Hin Hk].
      specialize (Hh3 h Hin). apply in_map_iff in Hh3.
      destruct Hh3 as (o & Hid & Ho). apply in_map_iff. exists o.
      split; [exact Hid|]. apply filter_In. split; [exact Ho|].
      rewrite Hid. exact Hk.
    + intros h uid Hin. apply filter_In in Hin. apply Hh4. tauto.
Qed.

Lemma schema_ok_preference_replaced (st : Store)
    (pref row : NotificationPreference.t) :
  schema_ok st -> In pref (notification_preferences st) ->
  NotificationPreference.id row = NotificationPreference.id pref ->
  NotificationPreference.user_id row = NotificationPreference.user_id pref ->
  schema_ok
    (with_preferences (replace_preference row (notification_preferences st))
       (notification_preferences_id_seq st) st).
Proof.
  intros (Hu & Ho & Hh & (Hp1 & Hp2 & Hp3 & Hp4)) Hin Hid Howner.
  split; [exact Hu|]. split; [exact Ho|]. split; [exact Hh|].
  split; [|split; [|split]]; cbn.
  - rewrite (replace_preference_keeps NotificationPreference.id _ pref row);
      assumption.
  - intros p Hp. apply In_replace_preference in Hp.
    destruct Hp as [->|Hp]; [rewrite Hid|]; auto.
  - rewrite (replace_preference_keeps NotificationPreference.user_id _ pref
               row); assumption.
  - intros p Hp. apply In_replace_preference in Hp.
    destruct Hp as [->|Hp]; [rewrite Howner|]; auto.
Qed.

Lemma schema_ok_preference_inserted (st : Store)
    (pref0 : NotificationPreference.t) :
  schema_ok st ->
  NotificationPreference.id pref0 = notification_preferences_id_seq st ->
  existsb (fun p => Z.eqb (NotificationPreference.user_id p)
                      (NotificationPreference.user_id pref0))
    (notification_preferences st) = false ->
  existsb (fun u => Z.eqb (User.id u) (NotificationPreference.user_id pref0))
    (users st) = true ->
  schema_ok
    (with_preferences (notification_preferences st ++ [pref0])
       (notification_preferences_id_seq st + 1) st).
Proof.
  intros (Hu & Ho & Hh & (Hp1 & Hp2 & Hp3 & Hp4)) Hid Hnone Huser.
  split; [exact Hu|]. split; [exact Ho|]. split; [exact Hh|].
  split; [|split; [|split]]; cbn.
  - apply NoDup_keys_snoc; [exact Hp1|]. rewrite Hid.
    apply below_sequence_fresh. exact Hp2.
  - intros p Hp. apply in_app_or in Hp.
    destruct Hp as [Hp|[<-|[]]]; [specialize (Hp2 p Hp)|]; lia.
  - apply NoDup_keys_snoc; [exact Hp3|]. apply no_row_with_key. exact Hnone.
  - intros p Hp. apply in_app_or in Hp.
    destruct Hp as [Hp|[<-|[]]]; [auto|].
    apply some_row_with_key. exact Huser.
Qed.

(** X24. Every request keeps the constraints the models declare: the
    primary keys stay unique and below their sequences, emails, order
    numbers and preference owners stay unique, and every foreign key still
    points at a stored row, whatever the request and wherever it fails. *)
Theorem schema_constraints_preserved (hash_password : string -> string)
    (r : Request) (t : Z) (fault : option nat) (st : Store) :
  schema_ok st -> schema_ok (serve hash_password r t fault st).
Proof.
  intros Hok. destruct r; cbn [serve].
  - destruct (session_scope _ t fault st) as [r st'] eqn:Hrun.
    apply signup_effect in Hrun.
    destruct Hrun as [->|(Hemail & Hpref & ->)]; [exact Hok|].
    apply schema_ok_signup; assumption.
  - destruct (session_scope _ t fault st) as [r st'] eqn:Hrun.
    apply create_order_facts in Hrun.
    destruct Hrun as [->|(Howner & Hfree & ->)]; [exact Hok|].
    apply schema_ok_created; assumption.
  - rewrite (proj1 (order_reads_keep_store st t fault user)). exact Hok.
  - rewrite (proj1 (proj2 (order_reads_keep_store st t fault user))).
    exact Hok.
  - rewrite (proj1 (proj2 (proj2 (order_reads_keep_store st t fault user)))).
    exact Hok.
  - destruct (session_scope _ t fault st) as [r st'] eqn:Hrun.
    apply update_order_effect in Hrun.
    destruct Hrun
      as [(e & _ & ->)|(order & Hfind & _ & [(_ & _ & ->)|(_ & _ & ->)])];
      cbn [snd]; try exact Hok.
    destruct (find_by_id _ _ _ Hfind) as [Hin _].
    apply schema_ok_replaced with (order := order); auto;
      destruct payload as [[x|] [y|]]; reflexivity.
  - destruct (session_scope _ t fault st) as [r st'] eqn:Hrun.
    apply delete_order_effect in Hrun.
    destruct Hrun as [(e & _ & ->)|(order & _ & ->)]; cbn [snd];
      [exact Hok|].
    apply schema_ok_deleted. exact Hok.
  - destruct (session_scope _ t fault st) as [r st'] eqn:Hrun.
    apply update_status_facts in Hrun.
    destruct Hrun as [->|(order & Hfind & Hadmin & ->)]; [exact Hok|].
    apply schema_ok_status_written with (order_id := order_id); assumption.
  - rewrite (proj2 (proj2 (proj2 (order_reads_keep_store st t fault user)))).
    exact Hok.
  - destruct (session_scope _ t fault st) as [r st'] eqn:Hrun.
    apply upsert_preferences_effect in Hrun. cbn [snd].
    destruct Hrun
      as [->|[(pref & row & Hfind & Hid & Howner & ->)
             |(Hnone & Huser & pref0 & Hid0 & Howner0
               & [->|(row & Hid & Howner & ->)])]].
    + exact Hok.
    + apply schema_ok_preference_replaced with (pref := pref); auto.
      apply find_some in Hfind. tauto.
    + apply schema_ok_preference_inserted; rewrite ?Howner0; assumption.
    + apply (schema_ok_preference_replaced
               (with_preferences (notification_preferences st ++ [pref0])
                  (notification_preferences_id_seq st + 1) st)
               pref0 row).
      * apply schema_ok_preference_inserted; rewrite ?Howner0; assumption.
      * cbn. apply in_or_app. right. left. reflexivity.
      * congruence.
      * congruence.
Qed.

Lemma shop_schema_ok : schema_ok Examples.shop.
Proof.
  repeat split; cbn;
    repeat (apply NoDup_cons; [cbn; intuition discriminate|]);
    try apply NoDup_nil;
    intros; repeat match goal with
                   | H : _ \/ _ |- _ => destruct H as [H|H]
                   | H : False |- _ => destruct H
                   end; subst; cbn in *; try lia; try discriminate; auto 10.
Qed.

Lemma schema_constraints_preserved_witness :
  schema_ok
    (serve Examples.hash_password
       (PostOrder (OrderCreateRequest.mk "ORD-2" "Gadget" None) 7
          Examples.root)
       30 None Examples.shop).
Proof.
  apply (schema_constraints_preserved Examples.hash_password
           (PostOrder (OrderCreateRequest.mk "ORD-2" "Gadget" None) 7
              Examples.root)
           30 None Examples.shop).
  exact shop_schema_ok.
Defined.

(** * Writes to a missing order *)

(** X25. [update_order] and [update_status] change nothing when no order
    has the id, whoever asks and whatever the payload: they answer 404 for
    an id of the type of [orders.id] and fail with [DataError] for one
    outside it. *)
Theorem writes_to_missing_order_not_found (st : Store) (t : Z) (order_id : Z)
    (user : User.t) :
  find (fun o => Z.eqb (Order.id o) order_id) (orders st) = None ->
  (forall payload,
     session_scope (update_order order_id payload user) t None st
     = (Raised (if int4 order_id then HTTPException 404 "Order not found"
                else DataError), st))
  /\ (forall payload,
        session_scope (update_status order_id payload user) t None st
        = (Raised (if int4 order_id then HTTPException 404 "Order not found"
                   else DataError), st)).
Proof.
  intros Hnone. split; intros payload.
  - unfold update_order. run. rewrite Hnone.
    destruct (int4 order_id); reflexivity.
  - unfold update_status. run. rewrite Hnone.
    destruct (int4 order_id); reflexivity.
Qed.

Lemma writes_to_missing_order_not_found_witness :
  session_scope
    (update_status 5 (OrderStatusUpdateRequest.mk OrderStatus.shipped None)
       Examples.root)
    30 None Examples.shop
  = (Raised (HTTPException 404 "Order not found"), Examples.shop)
  /\ session_scope
       (update_order 2147483648 (OrderUpdateRequest.mk (Some "Gadget") None)
          Examples.bob)
       30 None Examples.shop
     = (Raised DataError, Examples.shop).
Proof.
  split.
  - apply (writes_to_missing_order_not_found Examples.shop 30 5 Examples.root).
    reflexivity.
  - apply (writes_to_missing_order_not_found Examples.shop 30 2147483648
             Examples.bob).
    reflexivity.
Defined.
